(** * Climascope: alert rules, eligibility gate, dispatch and retention

    A shallow embedding of the notification subsystem of the Climascope
    weather application (Django):

    - [weatherapp/models.py]                         the persisted records,
    - [weatherapp/email_service.py]                  [WeatherNotificationService],
    - [weatherapp/management/commands/*.py]          the sweep, cleanup and health commands,
    - [weatherapp/forms.py]                          the validation of the forms,
    - [weatherapp/views.py]                          the settings and favourite views,
                                                     the image search, the dashboard loop.

    Conventions of the embedding.

    - Python floats that carry temperatures are rationals ([Q]); the only
      operations the code applies to them are the order comparisons and the
      truth test, which on finite doubles agree with those of [Q].
    - Timestamps are integers ([Z]), microseconds since the Unix epoch.
    - Stateful code runs in the monad [M]: a computation takes the persisted
      state and returns either a raised exception or a value, together with
      the state it leaves behind.  The ORM runs in autocommit mode, so writes
      made before an exception is raised stay.
    - What the repository takes from outside (the weather provider, the mail
      transport, the template engine, the formatting of floats) is gathered
      in the record [Env] and every definition is parametric in it.
    - The provider's JSON answer is a record whose fields are optional: an
      absent key is [None] and subscripting it raises [KeyError].
    - Model fields the embedded code never reads (avatar, location, tokens,
      coordinates) are left out of the records.
    - Strings are sequences of bytes.  The operations of [PyStr] are those
      of Python on ASCII text; where the code applies [strip] and [len] to
      text a user posts, they are parameters of the view.
    - The database is up and takes every write, with one exception that
      depends on the data: the insertion of a favourite row, which a
      backend may refuse ([insert_error]).
    - Console output and logging are not part of the state. *)

From Stdlib Require Import String Ascii QArith Qround ZArith Lia List Bool.
From stdpp Require Import base option list strings gmap.

Local Open Scope string_scope.
Local Open Scope list_scope.

(* ------------------------------------------------------------------ *)
(** ** Python strings (ASCII fragment) *)

Module PyStr.

Definition is_upper (c : ascii) : bool :=
  (65 <=? nat_of_ascii c)%nat && (nat_of_ascii c <=? 90)%nat.

Definition is_lower (c : ascii) : bool :=
  (97 <=? nat_of_ascii c)%nat && (nat_of_ascii c <=? 122)%nat.

Definition to_lower (c : ascii) : ascii :=
  if is_upper c then ascii_of_nat (nat_of_ascii c + 32) else c.

Definition to_upper (c : ascii) : ascii :=
  if is_lower c then ascii_of_nat (nat_of_ascii c - 32) else c.

(** [s.lower()] *)
Fixpoint lower (s : string) : string :=
  match s with
  | EmptyString => EmptyString
  | String c rest => String (to_lower c) (lower rest)
  end.

(** [s.startswith(p)] *)
Fixpoint startswith (p s : string) : bool :=
  match p, s with
  | EmptyString, _ => true
  | String _ _, EmptyString => false
  | String a p', String b s' => Ascii.eqb a b && startswith p' s'
  end.

(** [needle in hay] *)
Fixpoint contains (needle hay : string) : bool :=
  match hay with
  | EmptyString => startswith needle EmptyString
  | String _ rest => startswith needle hay || contains needle rest
  end.

(** [s.title()]: the flag says whether the previous character is cased. *)
Fixpoint title_from (prev_cased : bool) (s : string) : string :=
  match s with
  | EmptyString => EmptyString
  | String c rest =>
      if is_lower c then
        String (if prev_cased then c else to_upper c) (title_from true rest)
      else if is_upper c then
        String (if prev_cased then to_lower c else c) (title_from true rest)
      else String c (title_from false rest)
  end.

Definition title (s : string) : string := title_from false s.

(** [any(p(x) for x in xs)] *)
Definition any {A} (p : A -> bool) (xs : list A) : bool := existsb p xs.

(** [c.isdigit()] and [c.isalpha()] on one character *)
Definition isdigit_char (c : ascii) : bool :=
  (48 <=? nat_of_ascii c)%nat && (nat_of_ascii c <=? 57)%nat.

Definition isalpha_char (c : ascii) : bool := is_upper c || is_lower c.

(** The characters of a string, for [... for c in s]. *)
Definition chars (s : string) : list ascii := list_ascii_of_string s.

(** [s.isdigit()]: there is a character and every character is a digit. *)
Definition isdigit (s : string) : bool :=
  negb (String.eqb s EmptyString) && forallb isdigit_char (chars s).

End PyStr.

(* ------------------------------------------------------------------ *)
(** ** Python floats used as temperatures *)

Module PyFloat.

(** [a > b] and [a < b] *)
Definition gt (a b : Q) : bool := negb (Qle_bool a b).
Definition lt (a b : Q) : bool := negb (Qle_bool b a).

(** Truth value of a nullable float field: [None] and [0.0] are false. *)
Definition truthy (o : option Q) : bool :=
  match o with
  | None => false
  | Some x => negb (Qeq_bool x 0)
  end.

End PyFloat.

(* ------------------------------------------------------------------ *)
(** ** Exceptions and the state-and-exception monad *)

Inductive request_error : Type :=
| ConnectionError
| Timeout
| HTTPError (status : Z)
| JSONDecodeError.

Inductive exn : Type :=
| DoesNotExist (model : string)
| KeyError (key : string)
| IndexError
| OverflowError
| ValueError
| ValidationError (msg : string)
| RequestException (r : request_error)
| SMTPException
| TemplateDoesNotExist
| OtherError (msg : string).

Definition is_RequestException (e : exn) : bool :=
  match e with RequestException _ => true | _ => false end.

(** [except <Model>.DoesNotExist] *)
Definition is_DoesNotExist (model : string) (e : exn) : bool :=
  match e with DoesNotExist m => String.eqb m model | _ => false end.

Section Monad.
Context {S : Type}.

Definition M (A : Type) : Type := S -> (exn + A) * S.

Definition ret {A} (a : A) : M A := fun s => (inr a, s).

Definition raise {A} (e : exn) : M A := fun s => (inl e, s).

Definition bind {A B} (c : M A) (k : A -> M B) : M B :=
  fun s =>
    match c s with
    | (inl e, s') => (inl e, s')
    | (inr a, s') => k a s'
    end.

(** [try: c  except <class>: h]; exceptions outside the class go on. *)
Definition try_except {A} (c : M A) (catches : exn -> bool) (h : exn -> M A) : M A :=
  fun s =>
    match c s with
    | (inl e, s') => if catches e then h e s' else (inl e, s')
    | (inr a, s') => (inr a, s')
    end.

Definition gets {A} (f : S -> A) : M A := fun s => (inr (f s), s).

Definition modify (f : S -> S) : M unit := fun s => (inr tt, f s).

End Monad.

Arguments M : clear implicits.

Definition Exception (_ : exn) : bool := true.

Declare Scope monad_scope.
Delimit Scope monad_scope with monad.
Notation "'let!' x ':=' c1 'in' c2" := (bind c1 (fun x => c2))
  (at level 10, x name, c1 at level 100, c2 at level 200) : monad_scope.
Notation "'run!' c1 'in' c2" := (bind c1 (fun _ => c2))
  (at level 10, c1 at level 100, c2 at level 200) : monad_scope.
Local Open Scope monad_scope.

(** Subscripting a JSON object ([d[key]]) and a JSON array ([xs[0]]). *)
Definition getitem {S A} (key : string) (field : option A) : M S A :=
  match field with
  | Some v => ret v
  | None => raise (KeyError key)
  end.

Definition getitem0 {S A} (xs : list A) : M S A :=
  match xs with
  | x :: _ => ret x
  | [] => raise IndexError
  end.

(* ------------------------------------------------------------------ *)
(** ** The models ([weatherapp/models.py]) *)

Module User.
Record t : Type := mk { id : nat; username : string; email : string }.
End User.

Module UserProfile.
Record t : Type := mk {
  is_email_verified : bool;
  email_notifications : bool;
  weather_alerts : bool;
  daily_summary : bool;
  severe_weather_alerts : bool;
  is_deactivated : bool
}.
End UserProfile.

Module FavoriteCity.
Record t : Type := mk {
  user : nat;
  city_name : string;
  country : string;
  temperature_threshold_high : option Q;
  temperature_threshold_low : option Q;
  notify_rain : bool;
  notify_extreme_weather : bool
}.
End FavoriteCity.

Module WeatherHistory.
Record t : Type := mk {
  user : option nat;
  city_name : string;
  temperature : Q;
  description : string;
  searched_at : Z
}.
End WeatherHistory.

Module WeatherForecast.
Record t : Type := mk {
  city_name : string;
  forecast_data : string;
  last_updated : Z
}.
End WeatherForecast.

Module WeatherAlert.
Record t : Type := mk {
  id : nat;
  user : User.t;
  city_name : string;
  alert_type : string;
  message : string;
  temperature : option Q;
  weather_condition : string;
  created_at : Z;
  is_sent : bool;
  sent_at : option Z
}.

Definition mark_sent (a : t) (now : Z) : t :=
  mk (id a) (user a) (city_name a) (alert_type a) (message a) (temperature a)
     (weather_condition a) (created_at a) true (Some now).
End WeatherAlert.

Module EmailNotification.
Record t : Type := mk {
  user : User.t;
  subject : string;
  message : string;
  email_type : string;
  is_sent : bool;
  sent_at : option Z;
  created_at : Z
}.
End EmailNotification.

(** [EmailMultiAlternatives] with its one attached HTML alternative. *)
Module EmailMessage.
Record t : Type := mk {
  subject : string;
  body : string;
  from_email : string;
  to : list string;
  html_alternative : string
}.
End EmailMessage.

(** The provider's JSON answer, restricted to the keys the code reads.  A
    key that is absent from the object is [None]. *)
Module Weather.
Record main_t : Type := mk_main {
  temp : option Q;
  feels_like : option Q;
  humidity : option Z
}.
Record condition : Type := mk_condition {
  description : option string;
  icon : option string
}.
Record t : Type := mk {
  main : option main_t;
  weather : option (list condition)
}.
End Weather.

Record HttpResponse : Type := mk_response {
  status_code : Z;
  json_body : option Weather.t     (* [None]: the body is not JSON *)
}.

(** One row of the digest built by [send_daily_weather_summary]. *)
Record SummaryRow : Type := mk_row {
  row_city : string;
  row_country : string;
  row_temperature : Z;
  row_description : string;
  row_icon : string;
  row_humidity : Z;
  row_feels_like : Z
}.

Inductive TemplateContext : Type :=
| AlertContext (user : User.t) (alert : WeatherAlert.t) (city_name : string) (is_urgent : bool)
| DailySummaryContext (user : User.t) (weather_data : list SummaryRow) (date : Z).

(* ------------------------------------------------------------------ *)
(** ** The persisted state and the outside world *)

Record DB : Type := mk_db {
  clock : Z;                                  (* what [timezone.now()] reads *)
  users : list User.t;
  profiles : gmap nat UserProfile.t;          (* one-to-one, keyed by user id *)
  favorites : list FavoriteCity.t;
  history : list WeatherHistory.t;
  forecasts : list WeatherForecast.t;
  alerts : list WeatherAlert.t;
  next_alert_id : nat;
  notifications : list EmailNotification.t;
  outbox : list EmailMessage.t                (* messages handed to the transport *)
}.

Definition set_history (f : list WeatherHistory.t -> list WeatherHistory.t) (db : DB) : DB :=
  mk_db (clock db) (users db) (profiles db) (favorites db) (f (history db))
        (forecasts db) (alerts db) (next_alert_id db) (notifications db) (outbox db).

Definition set_forecasts (f : list WeatherForecast.t -> list WeatherForecast.t) (db : DB) : DB :=
  mk_db (clock db) (users db) (profiles db) (favorites db) (history db)
        (f (forecasts db)) (alerts db) (next_alert_id db) (notifications db) (outbox db).

Definition set_alerts (f : list WeatherAlert.t -> list WeatherAlert.t) (db : DB) : DB :=
  mk_db (clock db) (users db) (profiles db) (favorites db) (history db)
        (forecasts db) (f (alerts db)) (next_alert_id db) (notifications db) (outbox db).

Definition set_next_alert_id (n : nat) (db : DB) : DB :=
  mk_db (clock db) (users db) (profiles db) (favorites db) (history db)
        (forecasts db) (alerts db) n (notifications db) (outbox db).

Definition set_notifications
    (f : list EmailNotification.t -> list EmailNotification.t) (db : DB) : DB :=
  mk_db (clock db) (users db) (profiles db) (favorites db) (history db)
        (forecasts db) (alerts db) (next_alert_id db) (f (notifications db)) (outbox db).

Definition set_outbox (f : list EmailMessage.t -> list EmailMessage.t) (db : DB) : DB :=
  mk_db (clock db) (users db) (profiles db) (favorites db) (history db)
        (forecasts db) (alerts db) (next_alert_id db) (notifications db) (f (outbox db)).

Record Env : Type := mk_env {
  WEATHER_API_KEY : string;
  DEFAULT_FROM_EMAIL : string;
  (** [requests.get(url, timeout=10)]: an exception or a response *)
  requests_get : string -> exn + HttpResponse;
  (** [render_to_string(template, context)] *)
  render_to_string : string -> TemplateContext -> exn + string;
  strip_tags : string -> string;
  (** [email.send(fail_silently=False)]: [None] when the transport accepts
      the message, otherwise the exception it raises *)
  transport : EmailMessage.t -> option exn;
  (** how an f-string prints a float *)
  format_float : Q -> string;
  (** [strftime('%B %d, %Y')] *)
  strftime_date : Z -> string
}.

(* ------------------------------------------------------------------ *)
(** ** ORM operations *)

Definition timezone_now : M DB Z := gets clock.

Definition UserProfile_objects_get (user : User.t) : M DB UserProfile.t :=
  fun db =>
    match profiles db !! User.id user with
    | Some p => (inr p, db)
    | None => (inl (DoesNotExist "UserProfile"), db)
    end.

Definition FavoriteCity_objects_filter (user : User.t) : M DB (list FavoriteCity.t) :=
  gets (fun db =>
    List.filter (fun c => Nat.eqb (FavoriteCity.user c) (User.id user)) (favorites db)).

(** [WeatherAlert.objects.create(...)]: [created_at] is set by
    [auto_now_add], [is_sent] and [sent_at] take their defaults. *)
Definition WeatherAlert_objects_create (user : User.t) (city_name alert_type message : string)
    (temperature : option Q) (weather_condition : string) : M DB WeatherAlert.t :=
  fun db =>
    let a := WeatherAlert.mk (next_alert_id db) user city_name alert_type message
               temperature weather_condition (clock db) false None in
    (inr a, set_next_alert_id (Datatypes.S (next_alert_id db)) (set_alerts (fun l => l ++ [a]) db)).

Definition has_alert (pk : nat) (l : list WeatherAlert.t) : bool :=
  existsb (fun r => Nat.eqb (WeatherAlert.id r) pk) l.

(** [alert.save()]: UPDATE of the row with this primary key, INSERT when
    there is none. *)
Definition WeatherAlert_save (a : WeatherAlert.t) : M DB unit :=
  modify (set_alerts (fun l =>
    if has_alert (WeatherAlert.id a) l
    then List.map (fun r => if Nat.eqb (WeatherAlert.id r) (WeatherAlert.id a) then a else r) l
    else l ++ [a])).

Definition EmailNotification_objects_create (user : User.t) (subject message email_type : string)
    (is_sent : bool) (sent_at : option Z) : M DB EmailNotification.t :=
  fun db =>
    let n := EmailNotification.mk user subject message email_type is_sent sent_at (clock db) in
    (inr n, set_notifications (fun l => l ++ [n]) db).

(** Lifting a settled result into the monad, and the [for] statement. *)
Definition lift {S A} (r : exn + A) : M S A := fun s => (r, s).

Fixpoint for_each {S A} (xs : list A) (body : A -> M S unit) : M S unit :=
  match xs with
  | [] => ret tt
  | x :: rest => run! body x in for_each rest body
  end.

Definition when {S} (b : bool) (c : M S unit) : M S unit :=
  if b then c else ret tt.

(** [round(x)] on a float: to the nearest integer, ties to the even one. *)
Definition py_round (x : Q) : Z :=
  let f := Qfloor x in
  match (x - inject_Z f) ?= (1 # 2) with
  | Lt => f
  | Gt => (f + 1)%Z
  | Eq => if Z.even f then f else (f + 1)%Z
  end%Q.

(** [o and test(o)] for a nullable float [o]. *)
Definition truthy_and (o : option Q) (test : Q -> bool) : bool :=
  match o with
  | Some x => PyFloat.truthy (Some x) && test x
  | None => false
  end.

(** [weather_data and 'main' in weather_data] *)
Definition has_main (weather_data : option Weather.t) : bool :=
  match weather_data with
  | Some w => match Weather.main w with Some _ => true | None => false end
  | None => false
  end.

(* ------------------------------------------------------------------ *)
(** ** [weatherapp/email_service.py]: [WeatherNotificationService] *)

Module WeatherNotificationService.
Section Service.
Variable env : Env.

Definition can_send_notification (user : User.t) : M DB bool :=
  try_except
    (let! profile := UserProfile_objects_get user in
     ret (UserProfile.email_notifications profile
          && negb (UserProfile.is_deactivated profile)
          && UserProfile.is_email_verified profile))
    (is_DoesNotExist "UserProfile")
    (fun _ => ret false).

Definition weather_url (city : string) : string :=
  "https://api.openweathermap.org/data/2.5/weather?q=" +:+ city
    +:+ "&appid=" +:+ WEATHER_API_KEY env +:+ "&units=metric".

(** [response.raise_for_status()] raises for the 4xx and 5xx classes. *)
Definition raise_for_status {S} (response : HttpResponse) : M S unit :=
  if (400 <=? status_code response)%Z && (status_code response <? 600)%Z
  then raise (RequestException (HTTPError (status_code response)))
  else ret tt.

(** [response.json()]; the decoding error of requests is a
    [RequestException]. *)
Definition response_json {S} (response : HttpResponse) : M S Weather.t :=
  match json_body response with
  | Some j => ret j
  | None => raise (RequestException JSONDecodeError)
  end.

Definition get_weather_data {S} (city : string) : M S (option Weather.t) :=
  try_except
    (let! response := lift (requests_get env (weather_url city)) in
     run! raise_for_status response in
     let! j := response_json response in
     ret (Some j))
    is_RequestException
    (fun _ => ret None).

(** [email.send(fail_silently=False)] *)
Definition email_send (email : EmailMessage.t) : M DB unit :=
  run! modify (set_outbox (fun l => l ++ [email])) in
  match transport env email with
  | None => ret tt
  | Some e => raise e
  end.

Definition send_weather_alert_email (alert : WeatherAlert.t) : M DB bool :=
  try_except
    (let user := WeatherAlert.user alert in
     let! allowed := can_send_notification user in
     if negb allowed then ret false else
     let subject := "🌤️ Weather Alert for " +:+ WeatherAlert.city_name alert in
     let subject :=
       if String.eqb (WeatherAlert.alert_type alert) "severe"
       then "🚨 URGENT: " +:+ subject else subject in
     let! html_content :=
       lift (render_to_string env "weatherapp/emails/weather_alert.html"
               (AlertContext user alert (WeatherAlert.city_name alert)
                  (String.eqb (WeatherAlert.alert_type alert) "severe"))) in
     let text_content := strip_tags env html_content in
     let email :=
       EmailMessage.mk subject text_content (DEFAULT_FROM_EMAIL env)
         [User.email user] html_content in
     run! email_send email in
     let! sent_at := timezone_now in
     run! WeatherAlert_save (WeatherAlert.mark_sent alert sent_at) in
     let! now := timezone_now in
     let! _ := EmailNotification_objects_create user subject text_content
                 "weather_alert" true (Some now) in
     ret true)
    Exception
    (fun _ => ret false).

Definition create_temperature_alert (user : User.t) (city_name : string)
    (temperature : Q) (alert_type : string) : M DB unit :=
  let! allowed := can_send_notification user in
  if negb allowed then ret tt else
  let temp_type := if String.eqb alert_type "high" then "high" else "low" in
  let threshold := if String.eqb alert_type "high" then "above" else "below" in
  let message :=
    "Temperature alert for " +:+ city_name +:+ ": " +:+ format_float env temperature
      +:+ "°C - " +:+ threshold +:+ " your threshold" in
  let! alert := WeatherAlert_objects_create user city_name ("temperature_" +:+ temp_type)
                  message (Some temperature) "" in
  let! _ := send_weather_alert_email alert in
  ret tt.

Definition create_rain_alert (user : User.t) (city_name description : string) : M DB unit :=
  let! allowed := can_send_notification user in
  if negb allowed then ret tt else
  let message := "Rain alert for " +:+ city_name +:+ ": " +:+ PyStr.title description in
  let! alert := WeatherAlert_objects_create user city_name "rain" message None description in
  let! _ := send_weather_alert_email alert in
  ret tt.

Definition create_severe_weather_alert (user : User.t) (city_name description : string)
    : M DB unit :=
  let! allowed := can_send_notification user in
  if negb allowed then ret tt else
  let message :=
    "⚠️ SEVERE WEATHER ALERT for " +:+ city_name +:+ ": " +:+ PyStr.title description in
  let! alert := WeatherAlert_objects_create user city_name "severe" message None description in
  let! _ := send_weather_alert_email alert in
  ret tt.

Definition check_weather_conditions_for_alerts (user : User.t)
    (favorite_city : FavoriteCity.t) (weather_data : Weather.t) : M DB unit :=
  try_except
    (let! main := getitem "main" (Weather.main weather_data) in
     let! temperature := getitem "temp" (Weather.temp main) in
     let! weather := getitem "weather" (Weather.weather weather_data) in
     let! weather0 := getitem0 weather in
     let! description0 := getitem "description" (Weather.description weather0) in
     let description := PyStr.lower description0 in
     run! when (truthy_and (FavoriteCity.temperature_threshold_high favorite_city)
                  (fun high => PyFloat.gt temperature high))
            (create_temperature_alert user (FavoriteCity.city_name favorite_city)
               temperature "high") in
     run! when (truthy_and (FavoriteCity.temperature_threshold_low favorite_city)
                  (fun low => PyFloat.lt temperature low))
            (create_temperature_alert user (FavoriteCity.city_name favorite_city)
               temperature "low") in
     run! when (FavoriteCity.notify_rain favorite_city && PyStr.contains "rain" description)
            (create_rain_alert user (FavoriteCity.city_name favorite_city) description) in
     when (FavoriteCity.notify_extreme_weather favorite_city
           && PyStr.any (fun condition => PyStr.contains condition description)
                ["storm"; "thunder"; "severe"; "tornado"; "hurricane"])
       (create_severe_weather_alert user (FavoriteCity.city_name favorite_city) description))
    Exception
    (fun _ => ret tt).

(** The body of [for city in favorite_cities] in
    [check_weather_alerts_for_user]. *)
Definition check_favorite_city (user : User.t) (city : FavoriteCity.t) : M DB unit :=
  let! weather_data := get_weather_data (FavoriteCity.city_name city) in
  match weather_data with
  | Some w => when (has_main weather_data) (check_weather_conditions_for_alerts user city w)
  | None => ret tt
  end.

Definition check_weather_alerts_for_user (user : User.t) : M DB unit :=
  let! allowed := can_send_notification user in
  if negb allowed then ret tt else
  let! favorite_cities := FavoriteCity_objects_filter user in
  for_each favorite_cities (check_favorite_city user).

(** The loop of [send_daily_weather_summary] that fills [weather_data]. *)
Fixpoint collect_summary_rows {S} (favorite_cities : list FavoriteCity.t)
    (weather_data : list SummaryRow) : M S (list SummaryRow) :=
  match favorite_cities with
  | [] => ret weather_data
  | city :: rest =>
      let! weather := get_weather_data (FavoriteCity.city_name city) in
      match weather with
      | Some w =>
          if has_main weather then
            let! main := getitem "main" (Weather.main w) in
            let! temp := getitem "temp" (Weather.temp main) in
            let! conditions := getitem "weather" (Weather.weather w) in
            let! condition0 := getitem0 conditions in
            let! description := getitem "description" (Weather.description condition0) in
            let! icon := getitem "icon" (Weather.icon condition0) in
            let! humidity := getitem "humidity" (Weather.humidity main) in
            let! feels_like := getitem "feels_like" (Weather.feels_like main) in
            collect_summary_rows rest
              (weather_data ++
                 [mk_row (FavoriteCity.city_name city) (FavoriteCity.country city)
                    (py_round temp) description icon humidity (py_round feels_like)])
          else collect_summary_rows rest weather_data
      | None => collect_summary_rows rest weather_data
      end
  end.

Definition send_daily_weather_summary (user : User.t) : M DB bool :=
  try_except
    (let! profile := UserProfile_objects_get user in
     let! blocked :=
       (if negb (UserProfile.daily_summary profile) then ret true
        else let! allowed := can_send_notification user in ret (negb allowed)) in
     if (blocked : bool) then ret false else
     let! all_favorites := FavoriteCity_objects_filter user in
     let favorite_cities := firstn 5 all_favorites in
     match favorite_cities with
     | [] => ret false
     | _ :: _ =>
         let! weather_data := collect_summary_rows favorite_cities [] in
         match weather_data with
         | [] => ret false
         | _ :: _ =>
             let! today := timezone_now in
             let subject := "🌤️ Daily Weather Summary - " +:+ strftime_date env today in
             let! date := timezone_now in
             let! html_content :=
               lift (render_to_string env "weatherapp/emails/daily_summary.html"
                       (DailySummaryContext user weather_data date)) in
             let text_content := strip_tags env html_content in
             let email :=
               EmailMessage.mk subject text_content (DEFAULT_FROM_EMAIL env)
                 [User.email user] html_content in
             run! email_send email in
             let! now := timezone_now in
             let! _ := EmailNotification_objects_create user subject text_content
                         "daily_summary" true (Some now) in
             ret true
         end
     end)
    Exception
    (fun _ => ret false).

End Service.
End WeatherNotificationService.

(* ------------------------------------------------------------------ *)
(** ** Queries on [User] shared by the sweep commands *)

Definition User_objects_get (username : string) : M DB User.t :=
  fun db =>
    match List.find (fun u => String.eqb (User.username u) username) (users db) with
    | Some u => (inr u, db)
    | None => (inl (DoesNotExist "User"), db)
    end.

(** [User.objects.filter(userprofile__...=...)] with the given test on the
    joined profile. *)
Definition User_objects_filter (test : UserProfile.t -> bool) : M DB (list User.t) :=
  gets (fun db =>
    List.filter (fun u =>
      match profiles db !! User.id u with
      | Some p => test p
      | None => false
      end) (users db)).

(** [if options['user']:] *)
Definition option_given (o : option string) : option string :=
  match o with
  | Some "" => None
  | other => other
  end.

(** A function-local variable next to the persisted state. *)
Definition lift_db {L A} (c : M DB A) : M (L * DB) A :=
  fun '(l, db) => let '(r, db') := c db in (r, (l, db')).

Definition update_local {L} (f : L -> L) : M (L * DB) unit :=
  modify (fun '(l, db) => (f l, db)).

Definition with_local {L} (init : L) (c : M (L * DB) unit) : M DB L :=
  fun db =>
    let '(r, (l, db')) := c (init, db) in
    (match r with inl e => inl e | inr _ => inr l end, db').

(* ------------------------------------------------------------------ *)
(** ** [management/commands/send_weather_alerts.py] *)

Module SendWeatherAlerts.
Section Command.
Variable env : Env.

Definition format_threshold (o : option Q) : string :=
  match o with
  | Some x => format_float env x
  | None => "None"
  end.

Definition analyze_weather_conditions {S} (weather_data : Weather.t)
    (city : FavoriteCity.t) : M S (list (string * string)) :=
  let alerts_needed : list (string * string) := [] in
  let! main := getitem "main" (Weather.main weather_data) in
  let! temperature := getitem "temp" (Weather.temp main) in
  let! weather := getitem "weather" (Weather.weather weather_data) in
  let! weather0 := getitem0 weather in
  let! description0 := getitem "description" (Weather.description weather0) in
  let description := PyStr.lower description0 in
  let alerts_needed :=
    if truthy_and (FavoriteCity.temperature_threshold_high city)
         (fun high => PyFloat.gt temperature high)
    then alerts_needed ++
           [("temperature_high",
             "High temperature: " +:+ format_float env temperature
               +:+ "°C (threshold: "
               +:+ format_threshold (FavoriteCity.temperature_threshold_high city)
               +:+ "°C)")]
    else alerts_needed in
  let alerts_needed :=
    if truthy_and (FavoriteCity.temperature_threshold_low city)
         (fun low => PyFloat.lt temperature low)
    then alerts_needed ++
           [("temperature_low",
             "Low temperature: " +:+ format_float env temperature
               +:+ "°C (threshold: "
               +:+ format_threshold (FavoriteCity.temperature_threshold_low city)
               +:+ "°C)")]
    else alerts_needed in
  let alerts_needed :=
    if FavoriteCity.notify_rain city && PyStr.contains "rain" description
    then alerts_needed ++ [("rain", "Rain expected: " +:+ description)]
    else alerts_needed in
  let severe_conditions := ["storm"; "thunder"; "severe"; "tornado"; "hurricane"; "hail"] in
  let alerts_needed :=
    if FavoriteCity.notify_extreme_weather city
       && PyStr.any (fun condition => PyStr.contains condition description) severe_conditions
    then alerts_needed ++ [("severe", "Severe weather: " +:+ description)]
    else alerts_needed in
  ret alerts_needed.

(** The [if]/[elif] chain that turns one needed alert into a service call. *)
Definition send_alert (user : User.t) (city : FavoriteCity.t) (weather_data : Weather.t)
    (alert_type : string) : M DB unit :=
  if String.eqb alert_type "temperature_high" then
    let! main := getitem "main" (Weather.main weather_data) in
    let! temp := getitem "temp" (Weather.temp main) in
    WeatherNotificationService.create_temperature_alert env user
      (FavoriteCity.city_name city) temp "high"
  else if String.eqb alert_type "temperature_low" then
    let! main := getitem "main" (Weather.main weather_data) in
    let! temp := getitem "temp" (Weather.temp main) in
    WeatherNotificationService.create_temperature_alert env user
      (FavoriteCity.city_name city) temp "low"
  else if String.eqb alert_type "rain" then
    let! weather := getitem "weather" (Weather.weather weather_data) in
    let! weather0 := getitem0 weather in
    let! description := getitem "description" (Weather.description weather0) in
    WeatherNotificationService.create_rain_alert env user
      (FavoriteCity.city_name city) description
  else if String.eqb alert_type "severe" then
    let! weather := getitem "weather" (Weather.weather weather_data) in
    let! weather0 := getitem0 weather in
    let! description := getitem "description" (Weather.description weather0) in
    WeatherNotificationService.create_severe_weather_alert env user
      (FavoriteCity.city_name city) description
  else ret tt.

(** The body of [for city in favorite_cities]; the local [alerts_sent]
    is the first component of the state. *)
Definition check_city (user : User.t) (dry_run : bool) (city : FavoriteCity.t)
    : M (Z * DB) unit :=
  try_except
    (let! weather_data :=
       WeatherNotificationService.get_weather_data env (FavoriteCity.city_name city) in
     match weather_data with
     | Some w =>
         if has_main weather_data then
           let! alerts_needed := analyze_weather_conditions w city in
           for_each alerts_needed (fun '(alert_type, message) =>
             if dry_run then ret tt
             else
               run! lift_db (send_alert user city w alert_type) in
               update_local (fun alerts_sent => (alerts_sent + 1)%Z))
         else ret tt
     | None => ret tt
     end)
    Exception
    (fun _ => ret tt).

Definition check_user_alerts (user : User.t) (dry_run : bool) : M DB Z :=
  let! favorite_cities := FavoriteCity_objects_filter user in
  match favorite_cities with
  | [] => ret 0%Z
  | _ :: _ => with_local 0%Z (for_each favorite_cities (check_city user dry_run))
  end.

(** The [for user in users] loop of [handle]; [check] is the method
    [self.check_user_alerts]. *)
Fixpoint handle_loop (check : User.t -> bool -> M DB Z) (dry_run : bool)
    (users : list User.t) (alerts_sent users_processed : Z) : M DB (Z * Z) :=
  match users with
  | [] => ret (alerts_sent, users_processed)
  | user :: rest =>
      let! outcome :=
        try_except
          (let! result := check user dry_run in ret (Some result))
          Exception
          (fun _ => ret None) in
      match outcome with
      | Some result =>
          handle_loop check dry_run rest
            (if (result =? 0)%Z then alerts_sent else (alerts_sent + result)%Z)
            (users_processed + 1)%Z
      | None => handle_loop check dry_run rest alerts_sent users_processed
      end
  end.

Definition handle_with (check : User.t -> bool -> M DB Z)
    (options_user : option string) (dry_run : bool) : M DB unit :=
  match option_given options_user with
  | Some username =>
      try_except
        (let! user := User_objects_get username in
         let! _ := check user dry_run in
         ret tt)
        (is_DoesNotExist "User")
        (fun _ => ret tt)
  | None =>
      let! users :=
        User_objects_filter (fun p =>
          UserProfile.is_email_verified p && UserProfile.email_notifications p
          && UserProfile.weather_alerts p && negb (UserProfile.is_deactivated p)) in
      let! _ := handle_loop check dry_run users 0%Z 0%Z in
      ret tt
  end.

Definition handle : option string -> bool -> M DB unit :=
  handle_with check_user_alerts.

End Command.
End SendWeatherAlerts.

(* ------------------------------------------------------------------ *)
(** ** [management/commands/send_daily_summaries.py] *)

Module SendDailySummaries.
Section Command.
Variable env : Env.

Definition send_user_summary (user : User.t) (dry_run : bool) : M DB bool :=
  if dry_run then ret true
  else
    let! success := WeatherNotificationService.send_daily_weather_summary env user in
    if (success : bool) then ret true else ret false.

Fixpoint handle_loop (send : User.t -> bool -> M DB bool) (dry_run : bool)
    (users : list User.t) (summaries_sent users_processed : Z) : M DB (Z * Z) :=
  match users with
  | [] => ret (summaries_sent, users_processed)
  | user :: rest =>
      let! outcome :=
        try_except
          (let! result := send user dry_run in ret (Some result))
          Exception
          (fun _ => ret None) in
      match outcome with
      | Some result =>
          handle_loop send dry_run rest
            (if (result : bool) then (summaries_sent + 1)%Z else summaries_sent)
            (users_processed + 1)%Z
      | None => handle_loop send dry_run rest summaries_sent users_processed
      end
  end.

Definition handle_with (send : User.t -> bool -> M DB bool)
    (options_user : option string) (dry_run : bool) : M DB unit :=
  match option_given options_user with
  | Some username =>
      try_except
        (let! user := User_objects_get username in
         let! _ := send user dry_run in
         ret tt)
        (is_DoesNotExist "User")
        (fun _ => ret tt)
  | None =>
      let! users :=
        User_objects_filter (fun p =>
          UserProfile.is_email_verified p && UserProfile.email_notifications p
          && UserProfile.daily_summary p && negb (UserProfile.is_deactivated p)) in
      let! _ := handle_loop send dry_run users 0%Z 0%Z in
      ret tt
  end.

Definition handle : option string -> bool -> M DB unit :=
  handle_with send_user_summary.

End Command.
End SendDailySummaries.

(* ------------------------------------------------------------------ *)
(** ** [datetime] arithmetic, in microseconds *)

Module PyDatetime.

Definition us_per_hour : Z := 3600000000.
Definition us_per_day : Z := 86400000000.

(** [timedelta.min] and [timedelta.max] *)
Definition timedelta_min : Z := - 999999999 * us_per_day.
Definition timedelta_max : Z := 1000000000 * us_per_day - 1.

(** [datetime.min] (year 1) and [datetime.max] (end of year 9999) *)
Definition datetime_min : Z := - 62135596800000000.
Definition datetime_max : Z := 253402300799999999.

Definition timedelta {S} (us : Z) : M S Z :=
  if (timedelta_min <=? us)%Z && (us <=? timedelta_max)%Z
  then ret us else raise OverflowError.

(** [timedelta(days=d)] and [timedelta(hours=h)] *)
Definition timedelta_days {S} (d : Z) : M S Z := timedelta (d * us_per_day).
Definition timedelta_hours {S} (h : Z) : M S Z := timedelta (h * us_per_hour).

(** [t - delta] *)
Definition sub {S} (t delta : Z) : M S Z :=
  let r := (t - delta)%Z in
  if (datetime_min <=? r)%Z && (r <=? datetime_max)%Z
  then ret r else raise OverflowError.

End PyDatetime.

(* ------------------------------------------------------------------ *)
(** ** [management/commands/cleanup_old_data.py] *)

Module CleanupOldData.

Record options : Type := mk_options {
  history_days : Z;
  alerts_days : Z;
  notifications_days : Z;
  forecast_hours : Z;
  dry_run : bool
}.

(** The filters of the four querysets. *)
Definition old_history (cutoff_date : Z) (r : WeatherHistory.t) : bool :=
  (WeatherHistory.searched_at r <? cutoff_date)%Z.

Definition old_alert (cutoff_date : Z) (r : WeatherAlert.t) : bool :=
  (WeatherAlert.created_at r <? cutoff_date)%Z && WeatherAlert.is_sent r.

Definition old_notification (cutoff_date : Z) (r : EmailNotification.t) : bool :=
  (EmailNotification.created_at r <? cutoff_date)%Z && EmailNotification.is_sent r.

Definition old_forecast (cutoff_date : Z) (r : WeatherForecast.t) : bool :=
  (WeatherForecast.last_updated r <? cutoff_date)%Z.

(** [queryset.count()] and [queryset.delete()] for the rows that pass
    [selected]. *)
Definition count {A} (selected : A -> bool) (rows : list A) : Z :=
  Z.of_nat (length (List.filter selected rows)).

Definition delete {A} (selected : A -> bool) (rows : list A) : list A :=
  List.filter (fun r => negb (selected r)) rows.

Definition cleanup_weather_history (days : Z) (dry_run : bool) : M DB Z :=
  let! now := timezone_now in
  let! delta := PyDatetime.timedelta_days days in
  let! cutoff_date := PyDatetime.sub now delta in
  let! count := gets (fun db => count (old_history cutoff_date) (history db)) in
  run! when (0 <? count)%Z
         (if dry_run then ret tt
          else modify (set_history (delete (old_history cutoff_date)))) in
  ret count.

Definition cleanup_weather_alerts (days : Z) (dry_run : bool) : M DB Z :=
  let! now := timezone_now in
  let! delta := PyDatetime.timedelta_days days in
  let! cutoff_date := PyDatetime.sub now delta in
  let! count := gets (fun db => count (old_alert cutoff_date) (alerts db)) in
  run! when (0 <? count)%Z
         (if dry_run then ret tt
          else modify (set_alerts (delete (old_alert cutoff_date)))) in
  ret count.

Definition cleanup_email_notifications (days : Z) (dry_run : bool) : M DB Z :=
  let! now := timezone_now in
  let! delta := PyDatetime.timedelta_days days in
  let! cutoff_date := PyDatetime.sub now delta in
  let! count := gets (fun db => count (old_notification cutoff_date) (notifications db)) in
  run! when (0 <? count)%Z
         (if dry_run then ret tt
          else modify (set_notifications (delete (old_notification cutoff_date)))) in
  ret count.

Definition cleanup_forecasts (hours : Z) (dry_run : bool) : M DB Z :=
  let! now := timezone_now in
  let! delta := PyDatetime.timedelta_hours hours in
  let! cutoff_date := PyDatetime.sub now delta in
  let! count := gets (fun db => count (old_forecast cutoff_date) (forecasts db)) in
  run! when (0 <? count)%Z
         (if dry_run then ret tt
          else modify (set_forecasts (delete (old_forecast cutoff_date)))) in
  ret count.

(** [handle]; the value is [total_deleted], which the command prints. *)
Definition handle (opts : options) : M DB Z :=
  let total_deleted := 0%Z in
  let! history_deleted := cleanup_weather_history (history_days opts) (dry_run opts) in
  let total_deleted := (total_deleted + history_deleted)%Z in
  let! alerts_deleted := cleanup_weather_alerts (alerts_days opts) (dry_run opts) in
  let total_deleted := (total_deleted + alerts_deleted)%Z in
  let! notifications_deleted :=
    cleanup_email_notifications (notifications_days opts) (dry_run opts) in
  let total_deleted := (total_deleted + notifications_deleted)%Z in
  let! forecasts_deleted := cleanup_forecasts (forecast_hours opts) (dry_run opts) in
  let total_deleted := (total_deleted + forecasts_deleted)%Z in
  ret total_deleted.

End CleanupOldData.

(* ------------------------------------------------------------------ *)
(** ** [weatherapp/forms.py]: [FavoriteCityAlertForm] *)

Module FavoriteCityAlertForm.

(** [cleaned_data]: a blank field, or one whose own validation failed,
    reads as [None] through [cleaned_data.get]. *)
Record cleaned_data : Type := mk {
  temperature_threshold_high : option Q;
  temperature_threshold_low : option Q;
  notify_rain : bool;
  notify_extreme_weather : bool
}.


(** A bound form after its fields were cleaned.  Each threshold field
    either passed its own validation, with the number or the blank it
    holds, or failed it (text that is no number, an infinity); the two
    check boxes cannot fail. *)
Inductive field_result : Type :=
| Cleaned (value : option Q)
| Rejected.

Record t : Type := bound {
  field_temperature_threshold_high : field_result;
  field_temperature_threshold_low : field_result;
  field_notify_rain : bool;
  field_notify_extreme_weather : bool
}.





Definition same_row (a b : FavoriteCity.t) : bool :=
  Nat.eqb (FavoriteCity.user a) (FavoriteCity.user b)
  && String.eqb (FavoriteCity.city_name a) (FavoriteCity.city_name b).

Definition apply (data : cleaned_data) (instance : FavoriteCity.t) : FavoriteCity.t :=
  FavoriteCity.mk (FavoriteCity.user instance) (FavoriteCity.city_name instance)
    (FavoriteCity.country instance)
    (temperature_threshold_high data) (temperature_threshold_low data)
    (notify_rain data) (notify_extreme_weather data).

Definition set_favorites (f : list FavoriteCity.t -> list FavoriteCity.t) (db : DB) : DB :=
  mk_db (clock db) (users db) (profiles db) (f (favorites db)) (history db)
        (forecasts db) (alerts db) (next_alert_id db) (notifications db) (outbox db).


End FavoriteCityAlertForm.

(* ------------------------------------------------------------------ *)
(** ** [weatherapp/email_service.py]: the account mails *)

(** The template contexts of the account mails: [{'user': user}] for the
    welcome mail; [user], [notification_type], [date] and the entries of
    [extra_context] for an account notification. *)
Inductive AccountContext : Type :=
| WelcomeContext (user : User.t)
| NotificationContext (user : User.t) (notification_type : string) (date : Z)
    (extra_context : list (string * string)).

Module AccountMails.
Section Service.
Variable env : Env.
(** [render_to_string(template, context)] on the contexts above *)
Variable render_account : string -> AccountContext -> exn + string.

Definition send_welcome_email (user : User.t) : M DB bool :=
  try_except
    (let! allowed := WeatherNotificationService.can_send_notification user in
     if negb allowed then ret false else
     let subject := "Welcome to Climascope!" in
     let! html_content :=
       lift (render_account "weatherapp/emails/welcome_email.html" (WelcomeContext user)) in
     let text_content := strip_tags env html_content in
     let email :=
       EmailMessage.mk subject text_content (DEFAULT_FROM_EMAIL env)
         [User.email user] html_content in
     run! WeatherNotificationService.email_send env email in
     let! now := timezone_now in
     let! _ := EmailNotification_objects_create user subject text_content
                 "welcome" true (Some now) in
     ret true)
    Exception
    (fun _ => ret false).

Definition subject_map : gmap string string :=
  list_to_map
    [("account_deactivated", "Account Deactivated - Climascope");
     ("account_reactivated", "Welcome Back - Climascope");
     ("account_deleted", "Account Deleted - Climascope");
     ("profile_updated", "Profile Updated - Climascope");
     ("password_changed", "Password Changed - Climascope")].

Definition send_account_notification (user : User.t) (notification_type : string)
    (extra_context : option (list (string * string))) : M DB unit :=
  try_except
    (let! date := timezone_now in
     let context :=
       NotificationContext user notification_type date
         (match extra_context with
          | Some (entry :: entries) => entry :: entries
          | _ => []
          end) in
     let subject :=
       default "Notification from Climascope" (subject_map !! notification_type) in
     let template_name :=
       if existsb (String.eqb notification_type) ["account_deactivated"; "account_deleted"]
       then "weatherapp/emails/" +:+ notification_type +:+ ".html"
       else "weatherapp/emails/account_notification.html" in
     let! html_content :=
       try_except
         (lift (render_account template_name context))
         Exception
         (fun _ => lift (render_account "weatherapp/emails/account_notification.html"
                           context)) in
     let text_content := strip_tags env html_content in
     let email :=
       EmailMessage.mk subject text_content (DEFAULT_FROM_EMAIL env)
         [User.email user] html_content in
     run! WeatherNotificationService.email_send env email in
     let! now := timezone_now in
     let! _ := EmailNotification_objects_create user subject text_content
                 notification_type true (Some now) in
     ret tt)
    Exception
    (fun _ => ret tt).

End Service.
End AccountMails.

(* ------------------------------------------------------------------ *)
(** ** [weatherapp/management/commands/check_weather_health.py] *)

Module CheckWeatherHealth.
Section Command.
Variable env : Env.

Definition check_weather_api {S} (test_city : string) : M S bool :=
  try_except
    (if String.eqb (WEATHER_API_KEY env) "" then ret false else
     let url := WeatherNotificationService.weather_url env test_city in
     let! response := lift (requests_get env url) in
     if (status_code response =? 200)%Z then
       let! data := WeatherNotificationService.response_json response in
       let! main := getitem "main" (Weather.main data) in
       let! temp := getitem "temp" (Weather.temp main) in
       let! weather := getitem "weather" (Weather.weather data) in
       let! weather0 := getitem0 weather in
       let! desc := getitem "description" (Weather.description weather0) in
       ret true
     else if (status_code response =? 401)%Z then ret false
     else ret false)
    Exception
    (fun e => if is_RequestException e then ret false else ret false).

End Command.
End CheckWeatherHealth.

(* ------------------------------------------------------------------ *)
(** ** [weatherapp/forms.py]: [PasswordChangeForm] *)

Module PasswordChangeForm.

(** [clean_new_password1]: the field has passed its own validation, so
    [cleaned_data] holds a string for it.  Strings are sequences of
    bytes here: [len], [isdigit], [isalpha] and [lower] are those of
    Python on ASCII text, which is what the properties below are stated
    for. *)
Definition clean_new_password1 {S} (user : option User.t) (password : string) : M S string :=
  if (String.length password <? 8)%nat then
    raise (ValidationError "Password must be at least 8 characters long.")
  else if PyStr.isdigit password then
    raise (ValidationError "Password cannot be entirely numeric.")
  else if negb (PyStr.any PyStr.isalpha_char (PyStr.chars password)) then
    raise (ValidationError "Password must contain at least one letter.")
  else if negb (PyStr.any PyStr.isdigit_char (PyStr.chars password)) then
    raise (ValidationError "Password must contain at least one number.")
  else
    match user with
    | Some u =>
        if PyStr.contains (PyStr.lower password) (PyStr.lower (User.username u))
           || PyStr.contains (PyStr.lower (User.username u)) (PyStr.lower password)
        then raise (ValidationError "Password cannot be too similar to your username.")
        else ret password
    | None => ret password
    end.

End PasswordChangeForm.

(* ------------------------------------------------------------------ *)
(** ** [weatherapp/views.py] *)

Module HttpRequest.
Record t : Type := mk {
  user : option User.t;              (* [None]: the anonymous user *)
  method : string;
  POST : gmap string string
}.
End HttpRequest.

Inductive HttpResult : Type :=
| redirect (to : string)
| redirect_to_login
| HttpResponseNotAllowed (permitted_methods : list string)
| JsonResponse (success : bool) (action : option string) (message : string).

(** One entry of the messages framework: its level and its text. *)
Definition Message : Type := (string * string)%type.

(** The answer of the image search, restricted to what the code reads. *)
Module GoogleSearch.
Record item : Type := mk_item { link : option string }.
Record t : Type := mk { items : option (list item) }.
End GoogleSearch.

Record SearchResponse : Type := mk_search_response {
  search_body : option GoogleSearch.t      (* [None]: the body is not JSON *)
}.

Record HeadResponse : Type := mk_head_response {
  head_status_code : Z;
  content_type : option string
}.

Definition set_profiles (f : gmap nat UserProfile.t -> gmap nat UserProfile.t) (db : DB) : DB :=
  mk_db (clock db) (users db) (f (profiles db)) (favorites db) (history db)
        (forecasts db) (alerts db) (next_alert_id db) (notifications db) (outbox db).

(** [profile.save()] *)
Definition UserProfile_save (user : User.t) (profile : UserProfile.t) : M DB unit :=
  modify (set_profiles (fun m => <[User.id user := profile]> m)).

(** [UserProfile.objects.get_or_create(user=user)]: a new row takes the
    defaults of the model. *)
Definition UserProfile_objects_get_or_create (user : User.t) : M DB (UserProfile.t * bool) :=
  fun db =>
    match profiles db !! User.id user with
    | Some profile => (inr (profile, false), db)
    | None =>
        let profile := UserProfile.mk false true true false true false in
        (inr (profile, true), set_profiles (fun m => <[User.id user := profile]> m) db)
    end.

(** [FavoriteCity.objects.get_or_create(user=..., city_name=..., defaults=...)]:
    the unique matching row is returned; when there is none, a new row
    with the lookup values and the defaults is inserted; several matching
    rows raise [MultipleObjectsReturned].  The database may refuse the
    new row: [insert_error] gives the error it then raises ([DataError]
    for a country longer than the column on a backend that enforces
    [max_length], which the one behind [DATABASE_URL] does and SQLite
    does not), and nothing is written. *)
Definition FavoriteCity_objects_get_or_create
    (insert_error : FavoriteCity.t -> option exn) (user : User.t) (city_name : string)
    (country : string) (temperature_threshold_high temperature_threshold_low : option Q)
    (notify_rain notify_extreme_weather : bool) : M DB (FavoriteCity.t * bool) :=
  fun db =>
    match List.filter
            (fun r => Nat.eqb (FavoriteCity.user r) (User.id user)
                      && String.eqb (FavoriteCity.city_name r) city_name)
            (favorites db) with
    | [] =>
        let favorite :=
          FavoriteCity.mk (User.id user) city_name country
            temperature_threshold_high temperature_threshold_low
            notify_rain notify_extreme_weather in
        match insert_error favorite with
        | Some refused => (inl refused, db)
        | None =>
            (inr (favorite, true),
             FavoriteCityAlertForm.set_favorites (fun l => l ++ [favorite]) db)
        end
    | [favorite] => (inr (favorite, false), db)
    | _ :: _ :: _ => (inl (OtherError "MultipleObjectsReturned"), db)
    end.

(** [favorite.delete()] *)
Definition FavoriteCity_delete (favorite : FavoriteCity.t) : M DB unit :=
  modify (FavoriteCityAlertForm.set_favorites
            (List.filter (fun r => negb (FavoriteCityAlertForm.same_row r favorite)))).

(** One entry of [favorite_weather] on the dashboard. *)
Record FavoriteWeather : Type := mk_favorite_weather {
  fw_city : string;
  fw_temp : Z;
  fw_description : string;
  fw_icon : string
}.

Module Views.
Section Views.
Variable env : Env.
(** [django.utils.html.escape] *)
Variable escape : string -> string.
(** [str.strip] and [len] of Python.  They work on the characters of a
    text, not on the bytes that encode it: [strip] removes every Unicode
    white space at both ends and [len] counts code points. *)
Variable strip : string -> string.
Variable len : string -> nat.
(** What the database answers when it is given a new favourite row:
    [None] when it takes the row, otherwise the error it raises (a value
    too long for its column, a character it cannot store). *)
Variable insert_error : FavoriteCity.t -> option exn.
Variables GOOGLE_API_KEY GOOGLE_SEARCH_ENGINE_ID : string.
(** [requests.get(url, timeout=5)] on the image search *)
Variable requests_get_search : string -> exn + SearchResponse.
(** [requests.head(url, timeout=3)] *)
Variable requests_head : string -> exn + HeadResponse.
(** the built-in [hash] on strings *)
Variable hash : string -> Z.

(** The decorators [@login_required] and [@require_http_methods]. *)
Definition login_required {S} (view : User.t -> HttpRequest.t -> M S HttpResult)
    (request : HttpRequest.t) : M S HttpResult :=
  match HttpRequest.user request with
  | Some user => view user request
  | None => ret redirect_to_login
  end.

Definition require_http_methods {S} (request_method_list : list string)
    (view : HttpRequest.t -> M S HttpResult) (request : HttpRequest.t) : M S HttpResult :=
  if existsb (String.eqb (HttpRequest.method request)) request_method_list
  then view request
  else ret (HttpResponseNotAllowed request_method_list).

Definition messages_add (level text : string) : M (list Message * DB) unit :=
  update_local (fun l => l ++ [(level, text)]).

Definition verify_image_url {S} (url : string) : M S bool :=
  try_except
    (let! response := lift (requests_head url) in
     ret ((head_status_code response =? 200)%Z
          && PyStr.contains "image" (default "" (content_type response))))
    Exception
    (fun _ => ret false).

Definition search_json {S} (response : SearchResponse) : M S GoogleSearch.t :=
  match search_body response with
  | Some data => ret data
  | None => raise (RequestException JSONDecodeError)
  end.

Definition getitem_at {S A} (xs : list A) (i : nat) : M S A :=
  match nth_error xs i with
  | Some x => ret x
  | None => raise IndexError
  end.

(** The loop [for i in [1, 2, 0, 3, 4]] of [get_city_image]; [Some url]
    stands for its [return image_url]. *)
Fixpoint first_verified {S} (indices : list nat) (search_items : list GoogleSearch.item)
    : M S (option string) :=
  match indices with
  | [] => ret None
  | i :: rest =>
      if (i <? length search_items)%nat then
        let! item := getitem_at search_items i in
        let! image_url := getitem "link" (GoogleSearch.link item) in
        let! verified := verify_image_url image_url in
        if (verified : bool) then ret (Some image_url) else first_verified rest search_items
      else first_verified rest search_items
  end.

Definition fallback_images : list string :=
  ["https://images.pexels.com/photos/3008509/pexels-photo-3008509.jpeg?auto=compress&cs=tinysrgb&w=1600";
   "https://images.pexels.com/photos/281260/pexels-photo-281260.jpeg?auto=compress&cs=tinysrgb&w=1600";
   "https://images.pexels.com/photos/158163/clouds-cloudscape-daylight-blue-sky-158163.jpeg?auto=compress&cs=tinysrgb&w=1600"].

Definition get_city_image {S} (city : string) : M S string :=
  let! found :=
    try_except
      (let query := city +:+ " city skyline aerial view" in
       let url :=
         "https://www.googleapis.com/customsearch/v1?key=" +:+ GOOGLE_API_KEY
           +:+ "&cx=" +:+ GOOGLE_SEARCH_ENGINE_ID +:+ "&q=" +:+ query
           +:+ "&searchType=image&imgSize=xlarge&imgType=photo&fileType=jpg" in
       let! response := lift (requests_get_search url) in
       let! data := search_json response in
       let search_items := default [] (GoogleSearch.items data) in
       let! first :=
         match search_items with
         | [] => ret None
         | _ :: _ => first_verified [1; 2; 0; 3; 4]%nat search_items
         end in
       match first with
       | Some image_url => ret (Some image_url)
       | None =>
           let query := city +:+ " cityscape panorama" in
           let url :=
             "https://www.googleapis.com/customsearch/v1?key=" +:+ GOOGLE_API_KEY
               +:+ "&cx=" +:+ GOOGLE_SEARCH_ENGINE_ID +:+ "&q=" +:+ query
               +:+ "&searchType=image&imgSize=xlarge" in
           let! response := lift (requests_get_search url) in
           let! data := search_json response in
           let search_items := default [] (GoogleSearch.items data) in
           match search_items with
           | [] => ret None
           | _ :: _ =>
               let! item := getitem_at search_items 0 in
               let! image_url := getitem "link" (GoogleSearch.link item) in
               let! verified := verify_image_url image_url in
               if (verified : bool) then ret (Some image_url) else ret None
           end
       end)
      Exception
      (fun _ => ret None) in
  match found with
  | Some image_url => ret image_url
  | None =>
      getitem_at fallback_images
        (Z.to_nat (hash city mod Z.of_nat (length fallback_images)))
  end.

(** [request.POST.get(key) == 'on'] *)
Definition checked (request : HttpRequest.t) (key : string) : bool :=
  match HttpRequest.POST request !! key with
  | Some value => String.eqb value "on"
  | None => false
  end.

Definition update_alert_settings : HttpRequest.t -> M (list Message * DB) HttpResult :=
  login_required (fun user =>
  require_http_methods ["POST"] (fun request =>
    run! try_except
           (let! profile := lift_db (UserProfile_objects_get user) in
            let profile :=
              UserProfile.mk (UserProfile.is_email_verified profile)
                (checked request "email_notifications")
                (checked request "weather_alerts")
                (checked request "daily_summary")
                (checked request "severe_weather_alerts")
                (UserProfile.is_deactivated profile) in
            run! lift_db (UserProfile_save user profile) in
            messages_add "success" "Notification settings updated successfully.")
           (is_DoesNotExist "UserProfile")
           (fun _ => messages_add "error" "User profile not found.") in
    ret (redirect "settings"))).

Definition toggle_favorite : HttpRequest.t -> M DB HttpResult :=
  login_required (fun user =>
  require_http_methods ["POST"] (fun request =>
    let city_name := strip (default "" (HttpRequest.POST request !! "city_name")) in
    let city_name := escape city_name in
    if String.eqb city_name "" || (100 <? len city_name)%nat then
      ret (JsonResponse false None "Invalid city name")
    else
    let! profile_created := UserProfile_objects_get_or_create user in
    let profile := fst profile_created in
    if UserProfile.is_deactivated profile then
      ret (JsonResponse false None "Account deactivated")
    else
    try_except
      (let! favorite_created :=
         FavoriteCity_objects_get_or_create insert_error user city_name
           (escape (default "" (HttpRequest.POST request !! "country")))
           (Some 35%Q) (Some 5%Q) true true in
       let favorite := fst favorite_created in
       let created := snd favorite_created in
       if negb created then
         run! FavoriteCity_delete favorite in
         ret (JsonResponse true (Some "removed") "Removed from favorites")
       else
         ret (JsonResponse true (Some "added") "Added to favorites"))
      Exception
      (fun _ => raise (OtherError "NameError: name 'logging' is not defined")))).

(** [get_weather_data] of the views: the request of the notification
    service, with the key read from the settings. *)
Definition get_weather_data {S} (city : string) : M S (option Weather.t) :=
  try_except
    (let url := WeatherNotificationService.weather_url env city in
     let! response := lift (requests_get env url) in
     run! WeatherNotificationService.raise_for_status response in
     let! j := WeatherNotificationService.response_json response in
     ret (Some j))
    is_RequestException
    (fun _ => ret None).

(** The loop of [dashboard_view] that fills [favorite_weather]. *)
Fixpoint favorite_weather_loop {S} (favorite_cities : list FavoriteCity.t)
    (favorite_weather : list FavoriteWeather) : M S (list FavoriteWeather) :=
  match favorite_cities with
  | [] => ret favorite_weather
  | fav :: rest =>
      let! weather := get_weather_data (FavoriteCity.city_name fav) in
      match weather with
      | Some w =>
          if has_main weather then
            let! main := getitem "main" (Weather.main w) in
            let! temp := getitem "temp" (Weather.temp main) in
            let! conditions := getitem "weather" (Weather.weather w) in
            let! condition0 := getitem0 conditions in
            let! description := getitem "description" (Weather.description condition0) in
            let! conditions' := getitem "weather" (Weather.weather w) in
            let! condition0' := getitem0 conditions' in
            let! icon := getitem "icon" (Weather.icon condition0') in
            favorite_weather_loop rest
              (favorite_weather ++
                 [mk_favorite_weather (FavoriteCity.city_name fav) (py_round temp)
                    description icon])
          else favorite_weather_loop rest favorite_weather
      | None => favorite_weather_loop rest favorite_weather
      end
  end.

End Views.
End Views.

(* ------------------------------------------------------------------ *)
(** ** Specification-level vocabulary and sample data *)

(** The stored invariant of a favourite city: when both thresholds are
    set, the high one is strictly above the low one. *)
Definition thresholds_ordered (city : FavoriteCity.t) : Prop :=
  forall high low,
    FavoriteCity.temperature_threshold_high city = Some high ->
    FavoriteCity.temperature_threshold_low city = Some low ->
    (low < high)%Q.

(** A payload that carries the two fields the evaluator reads. *)
Definition snapshot_of (w : Weather.t) (temperature : Q) (description : string) : Prop :=
  exists main feels humidity icon rest,
    Weather.main w = Some main /\
    main = Weather.mk_main (Some temperature) feels humidity /\
    Weather.weather w = Some (Weather.mk_condition (Some description) icon :: rest).

Definition is_severe_description (description : string) : Prop :=
  exists keyword,
    In keyword ["storm"; "thunder"; "severe"; "tornado"; "hurricane"; "hail"] /\
    PyStr.contains keyword (PyStr.lower description) = true.

(** The user passes the eligibility gate in this state. *)
Definition eligible (user : User.t) (db : DB) : Prop :=
  exists p,
    profiles db !! User.id user = Some p /\
    UserProfile.email_notifications p = true /\
    UserProfile.is_deactivated p = false /\
    UserProfile.is_email_verified p = true.

(** The message and the two records [send_weather_alert_email] produces
    for an alert whose template rendered to [html]. *)
Definition alert_subject (alert : WeatherAlert.t) : string :=
  if String.eqb (WeatherAlert.alert_type alert) "severe"
  then "🚨 URGENT: " +:+ ("🌤️ Weather Alert for " +:+ WeatherAlert.city_name alert)
  else "🌤️ Weather Alert for " +:+ WeatherAlert.city_name alert.

Definition alert_template_context (alert : WeatherAlert.t) : TemplateContext :=
  AlertContext (WeatherAlert.user alert) alert (WeatherAlert.city_name alert)
    (String.eqb (WeatherAlert.alert_type alert) "severe").

Definition alert_email (env : Env) (alert : WeatherAlert.t) (html : string) : EmailMessage.t :=
  EmailMessage.mk (alert_subject alert) (strip_tags env html) (DEFAULT_FROM_EMAIL env)
    [User.email (WeatherAlert.user alert)] html.

Definition alert_audit (env : Env) (alert : WeatherAlert.t) (html : string) (now : Z)
    : EmailNotification.t :=
  EmailNotification.mk (WeatherAlert.user alert) (alert_subject alert) (strip_tags env html)
    "weather_alert" true (Some now) now.

Definition saved_alerts (a : WeatherAlert.t) (l : list WeatherAlert.t) : list WeatherAlert.t :=
  if has_alert (WeatherAlert.id a) l
  then List.map (fun r => if Nat.eqb (WeatherAlert.id r) (WeatherAlert.id a) then a else r) l
  else l ++ [a].

(** The fetch for [city] fails at the gateway: the HTTP call raises a
    [RequestException] (network error, timeout), or the answer has a 4xx
    or 5xx status. *)
Definition fetch_fails (env : Env) (city : string) : Prop :=
  match requests_get env (WeatherNotificationService.weather_url env city) with
  | inl e => is_RequestException e = true
  | inr response => (400 <= status_code response < 600)%Z
  end.

(** The gateway has nothing usable for [city]: it answers [None], or a
    payload without ['main']. *)
Definition unavailable (env : Env) (city : string) : Prop :=
  exists weather_data,
    has_main weather_data = false /\
    forall S (s : S),
      WeatherNotificationService.get_weather_data env city s = (inr weather_data, s).

(** The cutoff [now - delta] can be computed: [delta] is a [timedelta]
    and the difference is a [datetime]. *)
Definition cutoff_in_range (now delta : Z) : Prop :=
  (PyDatetime.timedelta_min <= delta <= PyDatetime.timedelta_max)%Z /\
  (PyDatetime.datetime_min <= now - delta <= PyDatetime.datetime_max)%Z.


(** Primary keys of the alert table are below the next key to be given. *)
Definition alert_ids_fresh (db : DB) : Prop :=
  Forall (fun a => (WeatherAlert.id a < next_alert_id db)%nat) (alerts db).

(** For an eligible user, [c] returns normally and appends to the alert
    table rows of exactly the kinds [kinds], in this order, all for
    [user]; it keeps the user eligible and the keys fresh. *)
Definition files_alerts (user : User.t) (kinds : list string) (c : M DB unit) : Prop :=
  forall db,
    eligible user db ->
    alert_ids_fresh db ->
    exists new db',
      c db = (inr tt, db') /\
      alerts db' = alerts db ++ new /\
      map WeatherAlert.alert_type new = kinds /\
      Forall (fun a => WeatherAlert.user a = user) new /\
      eligible user db' /\
      alert_ids_fresh db'.

(** The kinds that fire for a reading, in order, for a given list of
    severe keywords; the service's checker has five keywords, the sweep
    command's analyzer six. *)
Definition rule_kinds (severe_conditions : list string) (city : FavoriteCity.t)
    (temperature : Q) (description : string) : list string :=
  (if truthy_and (FavoriteCity.temperature_threshold_high city)
        (fun high => PyFloat.gt temperature high)
   then ["temperature_high"] else [])
  ++ (if truthy_and (FavoriteCity.temperature_threshold_low city)
           (fun low => PyFloat.lt temperature low)
      then ["temperature_low"] else [])
  ++ (if FavoriteCity.notify_rain city && PyStr.contains "rain" (PyStr.lower description)
      then ["rain"] else [])
  ++ (if FavoriteCity.notify_extreme_weather city
         && PyStr.any (fun condition => PyStr.contains condition (PyStr.lower description))
              severe_conditions
      then ["severe"] else []).

Definition service_kinds : FavoriteCity.t -> Q -> string -> list string :=
  rule_kinds ["storm"; "thunder"; "severe"; "tornado"; "hurricane"].

Definition analyzer_kinds : FavoriteCity.t -> Q -> string -> list string :=
  rule_kinds ["storm"; "thunder"; "severe"; "tornado"; "hurricane"; "hail"].

(** Sample data. *)
Definition sample_payload (temperature : Q) (description : string) : Weather.t :=
  Weather.mk (Some (Weather.mk_main (Some temperature) (Some temperature) (Some 50%Z)))
             (Some [Weather.mk_condition (Some description) (Some "01d")]).

Definition sample_env (response : exn + HttpResponse) (delivery : option exn) : Env :=
  mk_env "k3y" "noreply@climascope.example"
    (fun _ => response)
    (fun _ _ => inr "<p>Weather alert</p>")
    (fun html => html)
    (fun _ => delivery)
    (fun _ => "?")
    (fun _ => "January 01, 2026").

Definition alice : User.t := User.mk 1 "alice" "alice@example.org".
Definition bob : User.t := User.mk 2 "bob" "bob@example.org".

Definition profile_active : UserProfile.t := UserProfile.mk true true true true true false.
Definition profile_deactivated : UserProfile.t := UserProfile.mk true true true true true true.

Definition sample_city (high low : option Q) (rain extreme : bool) : FavoriteCity.t :=
  FavoriteCity.mk 1 "London" "GB" high low rain extreme.

(** 2026-01-01T00:00:00Z *)
Definition sample_now : Z := 1767225600000000.

Definition sample_db (p : UserProfile.t) (cities : list FavoriteCity.t) : DB :=
  mk_db sample_now [alice] {[ 1%nat := p ]} cities [] [] [] 0 [] [].

Definition london : FavoriteCity.t := sample_city (Some 35%Q) (Some 5%Q) true true.

(** The provider times out; answers 203 with a full payload; answers 200
    with a payload that has no ['main']. *)
Definition env_timeout : Env := sample_env (inl (RequestException Timeout)) None.

Definition env_203 : Env :=
  sample_env (inr (mk_response 203 (Some (sample_payload 40 "clear sky")))) None.

Definition env_no_main : Env :=
  sample_env (inr (mk_response 200 (Some (Weather.mk None None)))) None.

(** The command's defaults: 90, 30 and 60 days, 24 hours, no dry run. *)
Definition default_options : CleanupOldData.options :=
  CleanupOldData.mk_options 90 30 60 24 false.

(** An audit row from 1970 that was never marked as sent, and the same
    row marked as sent. *)
Definition stale_unsent_notification : EmailNotification.t :=
  EmailNotification.mk alice "Weather Alert for London" "..." "weather_alert" false None 0.

Definition stale_sent_notification : EmailNotification.t :=
  EmailNotification.mk alice "Weather Alert for London" "..." "weather_alert" true (Some 0%Z) 0.

Definition db_with_notifications (rows : list EmailNotification.t) : DB :=
  mk_db sample_now [alice] {[ 1%nat := profile_active ]} [] [] [] [] 0 rows [].

(** A per-user step that fails for bob and, for anyone else, files an
    alert before returning 1. *)
Definition failing_for_bob (user : User.t) (dry_run : bool) : M DB Z :=
  if String.eqb (User.username user) "bob" then raise (OtherError "boom")
  else
    let! _ := WeatherAlert_objects_create user "London" "rain" "Rain alert" None "rain" in
    ret 1%Z.

Definition carol : User.t := User.mk 3 "carol" "carol@example.org".

(** A per-user summary step that fails for bob and succeeds otherwise. *)
Definition summary_failing_for_bob (user : User.t) (dry_run : bool) : M DB bool :=
  let! sent := failing_for_bob user dry_run in ret (0 <? sent)%Z.






(** An unsent severe alert on file, and a transport that refuses. *)
Definition sample_alert : WeatherAlert.t :=
  WeatherAlert.mk 0 alice "London" "severe" "SEVERE WEATHER ALERT for London: Hail"
    None "hail" sample_now false None.

Definition db_with_alert : DB :=
  mk_db sample_now [alice] {[ 1%nat := profile_active ]} [] [] [] [sample_alert] 1 [] [].

Definition env_smtp_down : Env :=
  sample_env (inl (RequestException Timeout)) (Some SMTPException).

(* ------------------------------------------------------------------ *)
(** ** Further vocabulary *)

(** The order in which both evaluation paths go through the rules. *)
Definition canonical_kinds : list string :=
  ["temperature_high"; "temperature_low"; "rain"; "severe"].

(** A payload from which the evaluator cannot read a temperature and a
    description: a key is absent or the list of conditions is empty. *)
Definition incomplete (w : Weather.t) : Prop :=
  match Weather.main w with
  | None => True
  | Some main =>
      Weather.temp main = None \/
      match Weather.weather w with
      | None => True
      | Some [] => True
      | Some (condition :: _) => Weather.description condition = None
      end
  end.

(** What the alert machinery never touches: the clock, the users, their
    profiles and favourites, the search history and the forecasts; and
    what it never shrinks: the alert table keeps its length or grows (a
    row in it may be rewritten), the key counter never goes back, the
    audit table and the outbox keep every row they hold. *)
Definition sweep_frame (db db' : DB) : Prop :=
  clock db' = clock db /\
  users db' = users db /\
  profiles db' = profiles db /\
  favorites db' = favorites db /\
  history db' = history db /\
  forecasts db' = forecasts db /\
  (length (alerts db) <= length (alerts db'))%nat /\
  (next_alert_id db <= next_alert_id db')%nat /\
  (exists more, notifications db' = notifications db ++ more) /\
  (exists more, outbox db' = outbox db ++ more).

(** A computation on the persisted state that stays within the frame,
    whatever it returns or raises. *)
Definition keeps_frame {A} (c : M DB A) : Prop :=
  forall db, sweep_frame db (snd (c db)).

(** The same for a computation that also carries the local counter of
    sent alerts: the counter grows by at most [bound]. *)
Definition counts_within {A} (bound : Z) (c : M (Z * DB) A) : Prop :=
  forall alerts_sent db,
    (alerts_sent <= fst (snd (c (alerts_sent, db))) <= alerts_sent + bound)%Z /\
    sweep_frame db (snd (snd (c (alerts_sent, db)))).

(** The temperature and the description of a payload, when it has both. *)
Definition reading (w : Weather.t) : option (Q * string) :=
  match Weather.main w, Weather.weather w with
  | Some main, Some (condition :: _) =>
      match Weather.temp main, Weather.description condition with
      | Some temperature, Some description => Some (temperature, description)
      | _, _ => None
      end
  | _, _ => None
  end.

(** The kinds one turn of a sweep files for a city: those of the rules
    with the given severe keywords on the reading the gateway gives, none
    when the gateway gives nothing to read. *)
Definition city_kinds (severe_conditions : list string) (env : Env) (city : FavoriteCity.t)
    : list string :=
  match fst (WeatherNotificationService.get_weather_data env (FavoriteCity.city_name city) tt) with
  | inr (Some w) =>
      match reading w with
      | Some (temperature, description) =>
          rule_kinds severe_conditions city temperature description
      | None => []
      end
  | _ => []
  end.

(** What the retention cleanup may do to the state: nothing outside the
    four tables it prunes; in those, rows can only go, in place; and an
    alert or an audit row that is not marked as sent always stays. *)
Definition cleanup_keeps (db db' : DB) : Prop :=
  clock db' = clock db /\
  users db' = users db /\
  profiles db' = profiles db /\
  favorites db' = favorites db /\
  next_alert_id db' = next_alert_id db /\
  outbox db' = outbox db /\
  sublist (history db') (history db) /\
  sublist (forecasts db') (forecasts db) /\
  sublist (alerts db') (alerts db) /\
  sublist (notifications db') (notifications db) /\
  (forall a, In a (alerts db) -> WeatherAlert.is_sent a = false -> In a (alerts db')) /\
  (forall n, In n (notifications db) -> EmailNotification.is_sent n = false ->
             In n (notifications db')).

Definition cleanup_safe {A} (c : M DB A) : Prop :=
  forall db, cleanup_keeps db (snd (c db)).

(* ------------------------------------------------------------------ *)
(** ** Vocabulary for the account mails, the views and the forms *)

(** The message and the audit row of an account mail whose template
    rendered to [html]. *)
Definition account_email (env : Env) (user : User.t) (subject html : string)
    : EmailMessage.t :=
  EmailMessage.mk subject (strip_tags env html) (DEFAULT_FROM_EMAIL env)
    [User.email user] html.

Definition account_audit (env : Env) (user : User.t) (subject html email_type : string)
    (now : Z) : EmailNotification.t :=
  EmailNotification.mk user subject (strip_tags env html) email_type true (Some now) now.

(** What sending one account mail does to the state: the message is
    handed to the transport; the audit row is written when the transport
    accepts it and only then; nothing else changes. *)
Definition account_mail_sent (env : Env) (user : User.t) (subject html email_type : string)
    (db db' : DB) : Prop :=
  outbox db' = outbox db ++ [account_email env user subject html] /\
  (transport env (account_email env user subject html) = None ->
   notifications db' =
     notifications db ++ [account_audit env user subject html email_type (clock db)]) /\
  (transport env (account_email env user subject html) <> None ->
   notifications db' = notifications db) /\
  clock db' = clock db /\
  users db' = users db /\
  profiles db' = profiles db /\
  favorites db' = favorites db /\
  history db' = history db /\
  forecasts db' = forecasts db /\
  alerts db' = alerts db /\
  next_alert_id db' = next_alert_id db.

(** The subject line of an account notification. *)
Definition account_subject (notification_type : string) : string :=
  default "Notification from Climascope" (AccountMails.subject_map !! notification_type).

(** The notification types that have a template of their own. *)
Definition has_own_template (notification_type : string) : Prop :=
  notification_type = "account_deactivated" \/ notification_type = "account_deleted".

(** A user the all-users sweep picks when it filters on [flag]. *)
Definition swept (flag : UserProfile.t -> bool) (db : DB) (u : User.t) : Prop :=
  In u (users db) /\
  eligible u db /\
  exists p, profiles db !! User.id u = Some p /\ flag p = true.

(** A head request that shows an image: status 200 and a content type
    that mentions [image]. *)
Definition shows_image (requests_head : string -> exn + HeadResponse) (url : string) : Prop :=
  exists response,
    requests_head url = inr response /\
    head_status_code response = 200%Z /\
    exists pre post, default "" (content_type response) = pre +:+ "image" +:+ post.

(** The password holds a character with the given property. *)
Definition has_char (p : ascii -> bool) (s : string) : Prop :=
  exists c, In c (PyStr.chars s) /\ p c = true.

(** Text within ASCII, on which the string operations of [PyStr] are
    those of Python. *)
Definition is_ascii (s : string) : bool :=
  forallb (fun c => (nat_of_ascii c <? 128)%nat) (PyStr.chars s).

(** One string occurs in the other, case being ignored. *)
Definition too_similar (password username : string) : Prop :=
  (exists pre post, PyStr.lower username = pre +:+ PyStr.lower password +:+ post) \/
  (exists pre post, PyStr.lower password = pre +:+ PyStr.lower username +:+ post).

(** A search step that leaves the state alone and, when it returns a
    link, returns one that shows an image. *)
Definition image_safe (requests_head : string -> exn + HeadResponse) {S}
    (c : M S (option string)) : Prop :=
  forall s, exists r,
    c s = (r, s) /\ forall url, r = inr (Some url) -> shows_image requests_head url.

(** The favourite rows of [user] for [city_name]. *)
Definition favorite_of (user : User.t) (city_name : string) (r : FavoriteCity.t) : bool :=
  Nat.eqb (FavoriteCity.user r) (User.id user)
  && String.eqb (FavoriteCity.city_name r) city_name.

(** [unique_together = ('user', 'city_name')] *)
Definition favorites_unique (db : DB) : Prop :=
  List.NoDup (map (fun r => (FavoriteCity.user r, FavoriteCity.city_name r)) (favorites db)).

(** The city name [toggle_favorite] works with, and the test it passes. *)
Definition posted_city (escape strip : string -> string) (request : HttpRequest.t) : string :=
  escape (strip (default "" (HttpRequest.POST request !! "city_name"))).

Definition valid_city_name (len : string -> nat) (city_name : string) : Prop :=
  city_name <> "" /\ (len city_name <= 100)%nat.

(** The row [toggle_favorite] creates. *)
Definition new_favorite (escape strip : string -> string) (user : User.t)
    (request : HttpRequest.t) : FavoriteCity.t :=
  FavoriteCity.mk (User.id user) (posted_city escape strip request)
    (escape (default "" (HttpRequest.POST request !! "country")))
    (Some 35%Q) (Some 5%Q) true true.

(** What the broken handler of [toggle_favorite] raises. *)
Definition handler_error : exn := OtherError "NameError: name 'logging' is not defined".

(** An answer that reports a change of the favourites. *)
Definition reports_change (response : HttpResult) : Prop :=
  match response with
  | JsonResponse true _ _ => True
  | _ => False
  end.

(** A logged-in user posting a form. *)
Definition posts (request : HttpRequest.t) (user : User.t) : Prop :=
  HttpRequest.user request = Some user /\ HttpRequest.method request = "POST".

(** Sample requests. *)
Definition settings_request : HttpRequest.t :=
  HttpRequest.mk (Some alice) "POST" {[ "weather_alerts" := "on" ]}.

Definition favorite_request : HttpRequest.t :=
  HttpRequest.mk (Some alice) "POST" {[ "city_name" := " Oslo " ]}.

Definition london_request : HttpRequest.t :=
  HttpRequest.mk (Some alice) "POST" {[ "city_name" := "London" ]}.

(** A request whose country does not fit a column of 100 characters. *)
Definition long_country : string :=
  "xxxxxxxxxxxxxxxxxxxxxxxxxxxxxxxxxxxxxxxxxxxxxxxxxxxxxxxxxxxxxxxxxxxxxxxxxxxxxxxxxxxxxxxxxxxxxxxxxxxxx".

Definition long_country_request : HttpRequest.t :=
  HttpRequest.mk (Some alice) "POST"
    (<[ "country" := long_country ]> {[ "city_name" := "Oslo" ]}).

(** [str.strip] and [len] on ASCII text, for the sample requests. *)
Definition is_space (c : ascii) : bool :=
  ((9 <=? nat_of_ascii c)%nat && (nat_of_ascii c <=? 13)%nat)
  || ((28 <=? nat_of_ascii c)%nat && (nat_of_ascii c <=? 32)%nat).

Fixpoint lstrip_ascii (s : string) : string :=
  match s with
  | EmptyString => EmptyString
  | String c rest => if is_space c then lstrip_ascii rest else s
  end.

Fixpoint rstrip_ascii (s : string) : string :=
  match s with
  | EmptyString => EmptyString
  | String c rest =>
      match rstrip_ascii rest with
      | EmptyString => if is_space c then EmptyString else String c EmptyString
      | kept => String c kept
      end
  end.

Definition strip_ascii (s : string) : string := rstrip_ascii (lstrip_ascii s).

(** A backend that takes every row (SQLite), and one that enforces the
    length of the country column. *)
Definition takes_every_row (row : FavoriteCity.t) : option exn := None.

Definition enforces_max_length (row : FavoriteCity.t) : option exn :=
  if (100 <? String.length (FavoriteCity.country row))%nat
  then Some (OtherError "DataError: value too long for type character varying(100)")
  else None.

(** What [toggle_favorite] leaves alone: everything but the favourites
    and, for a user who had none, a fresh profile. *)
Definition toggle_frame (db db' : DB) : Prop :=
  clock db' = clock db /\
  users db' = users db /\
  history db' = history db /\
  forecasts db' = forecasts db /\
  alerts db' = alerts db /\
  next_alert_id db' = next_alert_id db /\
  notifications db' = notifications db /\
  outbox db' = outbox db /\
  (forall id p, profiles db !! id = Some p -> profiles db' !! id = Some p).

(** A provider that answers every city with a temperature and nothing
    else. *)
Definition env_no_conditions : Env :=
  sample_env
    (inr (mk_response 200
            (Some (Weather.mk (Some (Weather.mk_main (Some 20%Q) None None)) None))))
    None.

(* ================================================================== *)
(** * Properties *)

(** ** Strings *)

Lemma startswith_spec (p s : string) :
  PyStr.startswith p s = true <-> exists t, s = p +:+ t.
Proof.
  revert s; induction p as [|a p IH]; intros s; simpl.
  - split; [intros _; exists s; reflexivity | reflexivity].
  - destruct s as [|b s].
    + split; [discriminate | intros [t Ht]; discriminate].
    + rewrite andb_true_iff, IH, Ascii.eqb_eq. split.
      * intros [-> [t ->]]. exists t. reflexivity.
      * intros [t Ht]. injection Ht as -> ->. split; [reflexivity | exists t; reflexivity].
Qed.

Lemma contains_spec (needle hay : string) :
  PyStr.contains needle hay = true <-> exists pre post, hay = pre +:+ needle +:+ post.
Proof.
  induction hay as [|c hay IH]; simpl.
  - rewrite startswith_spec. split.
    + intros [t Ht]. exists "", t. exact Ht.
    + intros [pre [post H]]. destruct pre as [|x pre]; [|discriminate].
      exists post. exact H.
  - rewrite orb_true_iff, IH, startswith_spec. split.
    + intros [[t Ht] | [pre [post H]]].
      * exists "", t. exact Ht.
      * exists (String c pre), post. simpl. rewrite H. reflexivity.
    + intros [pre [post H]]. destruct pre as [|x pre].
      * left. exists post. exact H.
      * right. simpl in H. injection H as _ H. exists pre, post. exact H.
Qed.

(** ** Float comparisons *)

Lemma gt_true (a b : Q) : PyFloat.gt a b = true <-> (b < a)%Q.
Proof.
  unfold PyFloat.gt. rewrite negb_true_iff, <- not_true_iff_false, Qle_bool_iff.
  split; [apply Qnot_le_lt | apply Qlt_not_le].
Qed.

Lemma lt_true (a b : Q) : PyFloat.lt a b = true <-> (a < b)%Q.
Proof. unfold PyFloat.lt. apply (gt_true b a). Qed.


Lemma truthy_and_true (o : option Q) (test : Q -> bool) :
  truthy_and o test = true <-> exists x, o = Some x /\ ~ (x == 0)%Q /\ test x = true.
Proof.
  destruct o as [x|]; simpl.
  - rewrite andb_true_iff, negb_true_iff, <- not_true_iff_false, Qeq_bool_iff. split.
    + intros [H1 H2]. exists x. auto.
    + intros [y [[= <-] [H1 H2]]]. auto.
  - split; [discriminate | intros [x [[=] _]]].
Qed.

Lemma any_severe (conditions : list string) (description : string) :
  PyStr.any (fun condition => PyStr.contains condition description) conditions = true
  <-> exists keyword, In keyword conditions /\ PyStr.contains keyword description = true.
Proof. unfold PyStr.any. apply existsb_exists. Qed.

(** ** The evaluator of the sweep command *)

Ltac monad_unfold :=
  unfold bind, ret, raise, try_except, gets, modify, lift, when, getitem, getitem0 in *.

(** On a payload that has the two fields, the analyzer returns without
    touching the state, and each of the four kinds is present exactly when
    its rule fires. *)
Lemma analyze_spec (env : Env) {S} (w : Weather.t) (city : FavoriteCity.t)
    (temperature : Q) (description : string) (s : S) :
  snapshot_of w temperature description ->
  exists l,
    SendWeatherAlerts.analyze_weather_conditions env w city s = (inr l, s) /\
    (In "temperature_high" (map fst l) <->
       truthy_and (FavoriteCity.temperature_threshold_high city)
         (fun high => PyFloat.gt temperature high) = true) /\
    (In "temperature_low" (map fst l) <->
       truthy_and (FavoriteCity.temperature_threshold_low city)
         (fun low => PyFloat.lt temperature low) = true) /\
    (In "rain" (map fst l) <->
       FavoriteCity.notify_rain city = true /\
       PyStr.contains "rain" (PyStr.lower description) = true) /\
    (In "severe" (map fst l) <->
       FavoriteCity.notify_extreme_weather city = true /\
       is_severe_description description) /\
    List.NoDup (map fst l) /\
    (length l <= 4)%nat.
Proof.
  intros (main & feels & humidity & icon & rest & Hmain & -> & Hweather).
  unfold SendWeatherAlerts.analyze_weather_conditions, is_severe_description.
  monad_unfold. rewrite Hmain, Hweather. cbn [Weather.temp Weather.description].
  eexists. split; [reflexivity|].
  rewrite <- any_severe, <- !andb_true_iff.
  destruct (truthy_and (FavoriteCity.temperature_threshold_high city) _);
    destruct (truthy_and (FavoriteCity.temperature_threshold_low city) _);
    destruct (FavoriteCity.notify_rain city && _);
    destruct (FavoriteCity.notify_extreme_weather city && _);
    cbn [app map fst length In];
    (repeat split; try solve [intros; auto | intuition congruence | lia
                             | repeat constructor; cbn [In]; intuition congruence]).
Qed.

(** ** The eligibility gate *)

Lemma can_send_run (user : User.t) (db : DB) :
  exists b,
    WeatherNotificationService.can_send_notification user db = (inr b, db) /\
    (b = true <-> eligible user db).
Proof.
  unfold WeatherNotificationService.can_send_notification, UserProfile_objects_get, eligible.
  monad_unfold.
  destruct (profiles db !! User.id user) as [p|] eqn:Hp.
  - eexists. split; [reflexivity|].
    rewrite !andb_true_iff, negb_true_iff. split.
    + intros [[H1 H2] H3]. exists p. auto.
    + intros (q & [= <-] & H1 & H2 & H3). auto.
  - exists false. cbn. split; [reflexivity|].
    split; [discriminate | intros (q & [=] & _)].
Qed.

Lemma can_send_eligible (user : User.t) (db : DB) :
  eligible user db ->
  WeatherNotificationService.can_send_notification user db = (inr true, db).
Proof.
  intros H. destruct (can_send_run user db) as (b & Hrun & Hb).
  apply Hb in H. subst b. exact Hrun.
Qed.

Lemma can_send_not_eligible (user : User.t) (db : DB) :
  ~ eligible user db ->
  WeatherNotificationService.can_send_notification user db = (inr false, db).
Proof.
  intros H. destruct (can_send_run user db) as (b & Hrun & Hb).
  destruct b; [exfalso; apply H, Hb; reflexivity | exact Hrun].
Qed.

(** C3. [can_send_notification] never raises and leaves the state alone;
    it answers true exactly when the user has a profile with
    [email_notifications] on, [is_deactivated] off and [is_email_verified]
    on; any one of the three at its blocking value makes the answer false
    whatever the other two are. *)
Theorem can_send_notification_strict_and (user : User.t) (db : DB) :
  exists b,
    WeatherNotificationService.can_send_notification user db = (inr b, db) /\
    (b = true <->
       exists p,
         profiles db !! User.id user = Some p /\
         UserProfile.email_notifications p = true /\
         UserProfile.is_deactivated p = false /\
         UserProfile.is_email_verified p = true) /\
    (forall p,
       profiles db !! User.id user = Some p ->
       UserProfile.email_notifications p = false \/
       UserProfile.is_deactivated p = true \/
       UserProfile.is_email_verified p = false ->
       b = false).
Proof.
  destruct (can_send_run user db) as (b & Hrun & Hb).
  exists b. split; [exact Hrun|]. split; [exact Hb|].
  intros p Hp Hblock. destruct b; [|reflexivity].
  destruct (proj1 Hb eq_refl) as (q & Hq & H1 & H2 & H3).
  rewrite Hp in Hq. injection Hq as <-.
  destruct Hblock as [H | [H | H]]; congruence.
Qed.

Lemma can_send_notification_strict_and_witness :
  profiles (sample_db profile_deactivated []) !! User.id alice = Some profile_deactivated /\
  WeatherNotificationService.can_send_notification alice (sample_db profile_deactivated [])
  = (inr false, sample_db profile_deactivated []).
Proof.
  split; [reflexivity|].
  destruct (can_send_notification_strict_and alice (sample_db profile_deactivated []))
    as (b & Hrun & _ & Hblock).
  rewrite Hrun. f_equal. f_equal.
  apply (Hblock profile_deactivated); [reflexivity | right; left; reflexivity].
Defined.

(** ** The dispatcher *)

(** C4. For a user who fails the eligibility gate, the three dispatch
    operations return normally and leave the whole state as it was: no
    [WeatherAlert] row, no [EmailNotification] row, nothing handed to the
    mail transport. *)
Theorem dispatch_noop_when_ineligible (env : Env) (user : User.t) (db : DB) :
  WeatherNotificationService.can_send_notification user db = (inr false, db) ->
  (forall city_name temperature alert_type,
     WeatherNotificationService.create_temperature_alert env user city_name
       temperature alert_type db = (inr tt, db)) /\
  (forall city_name description,
     WeatherNotificationService.create_rain_alert env user city_name description db
     = (inr tt, db)) /\
  (forall city_name description,
     WeatherNotificationService.create_severe_weather_alert env user city_name
       description db = (inr tt, db)).
Proof.
  intros Hgate. repeat split; intros;
    unfold WeatherNotificationService.create_temperature_alert,
           WeatherNotificationService.create_rain_alert,
           WeatherNotificationService.create_severe_weather_alert, bind;
    rewrite Hgate; reflexivity.
Qed.

Lemma dispatch_noop_when_ineligible_witness :
  WeatherNotificationService.can_send_notification alice (sample_db profile_deactivated [])
  = (inr false, sample_db profile_deactivated []) /\
  WeatherNotificationService.create_severe_weather_alert (sample_env (inl (RequestException Timeout)) None)
    alice "London" "heavy thunderstorm" (sample_db profile_deactivated [])
  = (inr tt, sample_db profile_deactivated []).
Proof.
  split; [reflexivity|].
  apply (dispatch_noop_when_ineligible (sample_env (inl (RequestException Timeout)) None) alice
           (sample_db profile_deactivated [])).
  reflexivity.
Defined.

(** ** The notification sender *)

(** What one call of [send_weather_alert_email] does. *)
Lemma send_weather_alert_email_run (env : Env) (alert : WeatherAlert.t) (db : DB) :
  exists b db',
    WeatherNotificationService.send_weather_alert_email env alert db = (inr b, db') /\
    (b = true <->
       eligible (WeatherAlert.user alert) db /\
       exists html,
         render_to_string env "weatherapp/emails/weather_alert.html"
           (alert_template_context alert) = inr html /\
         transport env (alert_email env alert html) = None) /\
    (forall html e,
       render_to_string env "weatherapp/emails/weather_alert.html"
         (alert_template_context alert) = inr html ->
       transport env (alert_email env alert html) = Some e ->
       b = false) /\
    (b = true ->
       exists html,
         render_to_string env "weatherapp/emails/weather_alert.html"
           (alert_template_context alert) = inr html /\
         alerts db' = saved_alerts (WeatherAlert.mark_sent alert (clock db)) (alerts db) /\
         notifications db' = notifications db ++ [alert_audit env alert html (clock db)]) /\
    (b = false -> alerts db' = alerts db /\ notifications db' = notifications db) /\
    profiles db' = profiles db /\
    next_alert_id db' = next_alert_id db.
Proof.
  unfold alert_email, alert_audit, alert_template_context.
  unfold WeatherNotificationService.send_weather_alert_email,
         WeatherNotificationService.email_send, alert_subject, saved_alerts,
         timezone_now, WeatherAlert_save, EmailNotification_objects_create.
  destruct (can_send_run (WeatherAlert.user alert) db) as (g & Hrun & Hg).
  monad_unfold. rewrite Hrun.
  destruct g; cbn [negb].
  - pose proof (proj1 Hg eq_refl) as Hel.
    destruct (render_to_string env _ _) as [e | html] eqn:Hrender; cbn.
    + exists false, db. split; [reflexivity|].
      repeat split; try discriminate; auto.
      intros [_ (h & [=] & _)].
    + destruct (String.eqb (WeatherAlert.alert_type alert) "severe") eqn:Hsev;
        destruct (transport env _) as [e|] eqn:Htr; cbn.
      all: eexists; eexists; (split; [reflexivity|]).
      all: repeat split; try discriminate; auto.
      all: try (intros [_ (h & [= <-] & Hh)]; congruence).
      all: try (intros h e' [= <-] He'; congruence).
      all: try solve [exists html; repeat split; first [reflexivity | assumption]].
      all: try solve [split; [assumption | exists html; split; [reflexivity | assumption]]].
  - exists false, db. split; [reflexivity|].
    repeat split; try discriminate; auto.
    intros [Hel _]. apply Hg in Hel. discriminate.
Qed.


(** C6. [send_weather_alert_email] never raises.  It answers true exactly
    when the gate passes, the template renders and the transport accepts
    the message; an exception of the transport gives false.  On true the
    alert row is saved with [is_sent] true and [sent_at] the time of the
    call, its other fields as they were, and one audit row, marked sent
    at that time, is appended; on false the alert table and the audit
    table are as before. *)
Theorem send_weather_alert_email_outcome (env : Env) (alert : WeatherAlert.t) (db : DB) :
  exists b db',
    WeatherNotificationService.send_weather_alert_email env alert db = (inr b, db') /\
    (b = true <->
       eligible (WeatherAlert.user alert) db /\
       exists html,
         render_to_string env "weatherapp/emails/weather_alert.html"
           (alert_template_context alert) = inr html /\
         transport env (alert_email env alert html) = None) /\
    (forall html e,
       render_to_string env "weatherapp/emails/weather_alert.html"
         (alert_template_context alert) = inr html ->
       transport env (alert_email env alert html) = Some e ->
       b = false) /\
    (b = true ->
       exists html saved audit,
         render_to_string env "weatherapp/emails/weather_alert.html"
           (alert_template_context alert) = inr html /\
         alerts db' = saved_alerts saved (alerts db) /\
         saved = WeatherAlert.mark_sent alert (clock db) /\
         WeatherAlert.is_sent saved = true /\
         WeatherAlert.sent_at saved = Some (clock db) /\
         WeatherAlert.id saved = WeatherAlert.id alert /\
         WeatherAlert.user saved = WeatherAlert.user alert /\
         WeatherAlert.city_name saved = WeatherAlert.city_name alert /\
         WeatherAlert.alert_type saved = WeatherAlert.alert_type alert /\
         WeatherAlert.message saved = WeatherAlert.message alert /\
         WeatherAlert.temperature saved = WeatherAlert.temperature alert /\
         WeatherAlert.weather_condition saved = WeatherAlert.weather_condition alert /\
         WeatherAlert.created_at saved = WeatherAlert.created_at alert /\
         notifications db' = notifications db ++ [audit] /\
         audit = alert_audit env alert html (clock db) /\
         EmailNotification.user audit = WeatherAlert.user alert /\
         EmailNotification.email_type audit = "weather_alert" /\
         EmailNotification.is_sent audit = true /\
         EmailNotification.sent_at audit = Some (clock db)) /\
    (b = false -> alerts db' = alerts db /\ notifications db' = notifications db).
Proof.
  destruct (send_weather_alert_email_run env alert db)
    as (b & db' & Hrun & Hiff & Hfail & Hsent & Hsame & _).
  exists b, db'. repeat (split; [assumption|]). split; [|exact Hsame].
  intros Hb. destruct (Hsent Hb) as (html & Hrender & Halerts & Hnotes).
  exists html, (WeatherAlert.mark_sent alert (clock db)),
         (alert_audit env alert html (clock db)).
  split; [exact Hrender|]. split; [exact Halerts|].
  do 11 (split; [reflexivity|]).
  split; [exact Hnotes|].
  repeat split; reflexivity.
Qed.

Lemma send_weather_alert_email_outcome_witness :
  (transport env_smtp_down (alert_email env_smtp_down sample_alert "<p>Weather alert</p>")
   = Some SMTPException /\
   exists db',
     WeatherNotificationService.send_weather_alert_email env_smtp_down sample_alert db_with_alert
     = (inr false, db') /\
     alerts db' = [sample_alert] /\
     notifications db' = []) /\
  (WeatherAlert.is_sent sample_alert = false /\
   exists db',
     WeatherNotificationService.send_weather_alert_email env_no_conditions sample_alert
       db_with_alert = (inr true, db') /\
     map WeatherAlert.is_sent (alerts db') = [true] /\
     map WeatherAlert.sent_at (alerts db') = [Some sample_now] /\
     map EmailNotification.is_sent (notifications db') = [true]).
Proof.
  split.
  - split; [reflexivity|].
    destruct (send_weather_alert_email_outcome env_smtp_down sample_alert db_with_alert)
      as (b & db' & Hrun & _ & Hfail & _ & Hsame).
    assert (Hb : b = false) by (apply (Hfail "<p>Weather alert</p>" SMTPException); reflexivity).
    subst b. exists db'. split; [exact Hrun|]. apply Hsame. reflexivity.
  - split; [reflexivity|].
    destruct (send_weather_alert_email_outcome env_no_conditions sample_alert db_with_alert)
      as (b & db' & Hrun & Hiff & _ & Hsent & _).
    assert (Hb : b = true).
    { apply Hiff. split.
      - exists profile_active. repeat split; reflexivity.
      - exists "<p>Weather alert</p>". split; reflexivity. }
    subst b. exists db'. split; [exact Hrun|].
    destruct (Hsent eq_refl)
      as (html & saved & audit & _ & Halerts & _ & Hflag & Hat & Hid & _ & _ & _ & _ & _ & _
          & _ & Hnotes & _ & _ & _ & Haudit & _).
    rewrite Halerts, Hnotes. unfold saved_alerts. rewrite Hid. cbn.
    rewrite Hflag, Hat, Haudit. repeat split; reflexivity.
Defined.

(** ** The threshold rules *)

(** The temperature rules as the code applies them: a threshold fires
    when it is set, is not zero, and the temperature is beyond it. *)
Lemma analyze_temperature_rules (env : Env) {S} (w : Weather.t) (city : FavoriteCity.t)
    (temperature : Q) (description : string) (s : S) :
  snapshot_of w temperature description ->
  exists l,
    SendWeatherAlerts.analyze_weather_conditions env w city s = (inr l, s) /\
    (In "temperature_high" (map fst l) <->
       exists high,
         FavoriteCity.temperature_threshold_high city = Some high /\
         ~ (high == 0)%Q /\ (high < temperature)%Q) /\
    (In "temperature_low" (map fst l) <->
       exists low,
         FavoriteCity.temperature_threshold_low city = Some low /\
         ~ (low == 0)%Q /\ (temperature < low)%Q).
Proof.
  intros Hsnap.
  destruct (analyze_spec env w city temperature description s Hsnap)
    as (l & Hrun & Hhigh & Hlow & _).
  exists l. split; [exact Hrun|].
  rewrite Hhigh, Hlow, !truthy_and_true.
  split; (split; intros (x & Hx & Hnz & Hcmp); exists x; repeat split; auto;
          first [apply gt_true | apply lt_true | apply <- gt_true | apply <- lt_true]; exact Hcmp).
Qed.

(** C1.  With [temperature_threshold_low = 0.0] (and a valid high
    threshold of 35.0) a reading of -5.0 is below the set threshold, yet
    neither evaluation path produces [temperature_low]; likewise with
    [temperature_threshold_high = 0.0] (low -10.0) a reading of 5.0 is
    above the set threshold and no [temperature_high] is produced. *)
Theorem zero_threshold_is_ignored (env : Env) (user : User.t) (db : DB) :
  let frost := sample_city (Some 35%Q) (Some 0%Q) false false in
  let thaw := sample_city (Some 0%Q) (Some (-10)%Q) false false in
  (FavoriteCity.temperature_threshold_low frost = Some 0%Q /\ (-5 < 0)%Q /\
   SendWeatherAlerts.analyze_weather_conditions env (sample_payload (-5) "clear sky") frost db
   = (inr [], db) /\
   WeatherNotificationService.check_weather_conditions_for_alerts env user frost
     (sample_payload (-5) "clear sky") db = (inr tt, db)) /\
  (FavoriteCity.temperature_threshold_high thaw = Some 0%Q /\ (0 < 5)%Q /\
   SendWeatherAlerts.analyze_weather_conditions env (sample_payload 5 "clear sky") thaw db
   = (inr [], db) /\
   WeatherNotificationService.check_weather_conditions_for_alerts env user thaw
     (sample_payload 5 "clear sky") db = (inr tt, db)).
Proof. cbv zeta. repeat split. Qed.

(** The severe rule of the sweep command's analyzer. *)
Lemma analyze_severe_rule (env : Env) {S} (w : Weather.t) (city : FavoriteCity.t)
    (temperature : Q) (description : string) (s : S) :
  snapshot_of w temperature description ->
  exists l,
    SendWeatherAlerts.analyze_weather_conditions env w city s = (inr l, s) /\
    (In "severe" (map fst l) <->
       FavoriteCity.notify_extreme_weather city = true /\
       is_severe_description description).
Proof.
  intros Hsnap.
  destruct (analyze_spec env w city temperature description s Hsnap)
    as (l & Hrun & _ & _ & _ & Hsevere & _).
  exists l. auto.
Qed.

(** C2.  For the description "hail" with [notify_extreme_weather] on, the
    sweep command's analyzer reports a [severe] alert, while the
    notification service's checker leaves the state untouched for every
    user, eligible or not: its keyword list has no "hail". *)
Theorem hail_is_severe_only_for_the_analyzer (env : Env) (user : User.t) (db : DB) :
  let city := sample_city None None false true in
  FavoriteCity.notify_extreme_weather city = true /\
  PyStr.contains "hail" (PyStr.lower "hail") = true /\
  SendWeatherAlerts.analyze_weather_conditions env (sample_payload 20 "hail") city db
  = (inr [("severe", "Severe weather: hail")], db) /\
  WeatherNotificationService.check_weather_conditions_for_alerts env user city
    (sample_payload 20 "hail") db = (inr tt, db).
Proof. cbv zeta. repeat split. Qed.

(** ** The gateway and unavailable weather *)

Lemma get_weather_data_fails (env : Env) (city : string) :
  fetch_fails env city ->
  forall S (s : S),
    WeatherNotificationService.get_weather_data env city s = (inr None, s).
Proof.
  unfold fetch_fails, WeatherNotificationService.get_weather_data,
         WeatherNotificationService.raise_for_status,
         WeatherNotificationService.response_json.
  intros H S s. monad_unfold.
  destruct (requests_get env _) as [e | response].
  - rewrite H. reflexivity.
  - destruct ((400 <=? status_code response)%Z && (status_code response <? 600)%Z) eqn:Hst.
    + reflexivity.
    + destruct H as [H1 H2].
      apply Z.leb_le in H1. apply Z.ltb_lt in H2. rewrite H1, H2 in Hst. discriminate.
Qed.

Lemma fetch_fails_unavailable (env : Env) (city : string) :
  fetch_fails env city -> unavailable env city.
Proof.
  intros H. exists None. split; [reflexivity|].
  intros S s. apply get_weather_data_fails. exact H.
Qed.

Lemma check_city_unavailable (env : Env) (user : User.t) (dry_run : bool)
    (city : FavoriteCity.t) (st : Z * DB) :
  unavailable env (FavoriteCity.city_name city) ->
  SendWeatherAlerts.check_city env user dry_run city st = (inr tt, st).
Proof.
  intros (wd & Hmain & Hget).
  unfold SendWeatherAlerts.check_city. monad_unfold. rewrite Hget.
  destruct wd as [w|]; [rewrite Hmain|]; reflexivity.
Qed.

Lemma check_favorite_city_unavailable (env : Env) (user : User.t)
    (city : FavoriteCity.t) (db : DB) :
  unavailable env (FavoriteCity.city_name city) ->
  WeatherNotificationService.check_favorite_city env user city db = (inr tt, db).
Proof.
  intros (wd & Hmain & Hget).
  unfold WeatherNotificationService.check_favorite_city. monad_unfold. rewrite Hget.
  destruct wd as [w|]; [rewrite Hmain|]; reflexivity.
Qed.

(** An element whose body does nothing can be dropped from a [for] loop. *)
Lemma for_each_skip {S A} (body : A -> M S unit) (x : A) (before after : list A) (s : S) :
  (forall s', body x s' = (inr tt, s')) ->
  for_each (before ++ x :: after) body s = for_each (before ++ after) body s.
Proof.
  intros Hskip. revert s.
  induction before as [|y before IH]; intros s; cbn [app for_each]; unfold bind.
  - rewrite Hskip. reflexivity.
  - destruct (body y s) as [[e | []] s']; [reflexivity | apply IH].
Qed.

(** C5 (as amended).  The gateway turns a [RequestException] of the HTTP
    call (network error, timeout) and a 4xx or 5xx answer into [None]
    without raising.  For a city whose fetch gives [None] or a payload
    without ['main'], one turn of either sweep loop returns normally with
    the counter of sent alerts and the whole state unchanged, so each
    sweep is the same as the sweep without that city. *)
Theorem unavailable_city_is_skipped (env : Env) (user : User.t) (dry_run : bool)
    (city : FavoriteCity.t) :
  (fetch_fails env (FavoriteCity.city_name city) ->
   forall S (s : S),
     WeatherNotificationService.get_weather_data env (FavoriteCity.city_name city) s
     = (inr None, s)) /\
  (unavailable env (FavoriteCity.city_name city) ->
   (forall alerts_sent db,
      SendWeatherAlerts.check_city env user dry_run city (alerts_sent, db)
      = (inr tt, (alerts_sent, db))) /\
   (forall db,
      WeatherNotificationService.check_favorite_city env user city db = (inr tt, db)) /\
   (forall before after st,
      for_each (before ++ city :: after) (SendWeatherAlerts.check_city env user dry_run) st
      = for_each (before ++ after) (SendWeatherAlerts.check_city env user dry_run) st) /\
   (forall before after db,
      for_each (before ++ city :: after)
        (WeatherNotificationService.check_favorite_city env user) db
      = for_each (before ++ after)
          (WeatherNotificationService.check_favorite_city env user) db)).
Proof.
  split.
  - intros Hfail S s. apply get_weather_data_fails. exact Hfail.
  - intros Hun. repeat split.
    + intros. apply check_city_unavailable. exact Hun.
    + intros. apply check_favorite_city_unavailable. exact Hun.
    + intros. apply for_each_skip. intros. apply check_city_unavailable. exact Hun.
    + intros. apply for_each_skip. intros. apply check_favorite_city_unavailable. exact Hun.
Qed.

Lemma unavailable_city_is_skipped_witness :
  fetch_fails env_timeout (FavoriteCity.city_name london) /\
  unavailable env_timeout (FavoriteCity.city_name london) /\
  WeatherNotificationService.get_weather_data env_timeout (FavoriteCity.city_name london) tt
  = (inr None, tt) /\
  SendWeatherAlerts.check_city env_timeout alice false london
    (0%Z, sample_db profile_active [london])
  = (inr tt, (0%Z, sample_db profile_active [london])).
Proof.
  assert (Hf : fetch_fails env_timeout (FavoriteCity.city_name london)) by reflexivity.
  assert (Hu : unavailable env_timeout (FavoriteCity.city_name london)).
  { exists None. split; [reflexivity | intros S s; reflexivity]. }
  destruct (unavailable_city_is_skipped env_timeout alice false london) as [Hgate Hsweep].
  split; [exact Hf|]. split; [exact Hu|]. split.
  - apply (Hgate Hf).
  - apply (Hsweep Hu).
Defined.

(** A payload without ['main'] is unavailable too. *)
Lemma missing_main_unavailable :
  unavailable env_no_main "London".
Proof.
  exists (Some (Weather.mk None None)).
  split; [reflexivity | intros S s; reflexivity].
Qed.

(** C5, as first stated, fails: an answer with status 203 is not 200,
    yet the gateway hands its payload on. *)
Lemma non_error_status_is_passed_on :
  ~ (forall (env : Env) (city : string) (response : HttpResponse),
       requests_get env (WeatherNotificationService.weather_url env city) = inr response ->
       status_code response <> 200%Z ->
       forall S (s : S),
         WeatherNotificationService.get_weather_data env city s = (inr None, s)).
Proof.
  intros H.
  specialize (H env_203 "London"
                (mk_response 203 (Some (sample_payload 40 "clear sky"))) eq_refl).
  assert (Hst : status_code (mk_response 203 (Some (sample_payload 40 "clear sky"))) <> 200%Z)
    by discriminate.
  specialize (H Hst unit tt). vm_compute in H. discriminate H.
Qed.

(** ** Retention cleanup *)

Lemma delete_nothing_selected {A} (selected : A -> bool) (rows : list A) :
  CleanupOldData.count selected rows = 0%Z ->
  CleanupOldData.delete selected rows = rows.
Proof.
  unfold CleanupOldData.count, CleanupOldData.delete. intros H.
  induction rows as [|r rows IH]; [reflexivity|].
  cbn [List.filter] in *. destruct (selected r); cbn [negb length] in *.
  - lia.
  - f_equal. apply IH. exact H.
Qed.

Lemma count_deleted {A} (selected : A -> bool) (rows : list A) :
  CleanupOldData.count selected rows
  = (Z.of_nat (length rows) - Z.of_nat (length (CleanupOldData.delete selected rows)))%Z.
Proof.
  unfold CleanupOldData.count, CleanupOldData.delete.
  induction rows as [|r rows IH]; [reflexivity|].
  cbn [List.filter]. destruct (selected r); cbn [negb length]; lia.
Qed.

Lemma cutoff_run {S} (now delta : Z) (s : S) :
  cutoff_in_range now delta ->
  PyDatetime.timedelta delta s = (inr delta, s) /\
  PyDatetime.sub now delta s = (inr (now - delta)%Z, s).
Proof.
  unfold cutoff_in_range, PyDatetime.timedelta, PyDatetime.sub.
  intros [[H1 H2] [H3 H4]].
  apply Z.leb_le in H1, H2, H3, H4. rewrite H1, H2, H3, H4. split; reflexivity.
Qed.

(** One table: when this is no dry run, the selected rows go and the
    others stay. *)
Lemma cleanup_table_run {A} (selected : A -> bool) (table : DB -> list A)
    (set : (list A -> list A) -> DB -> DB) (db : DB) :
  (forall f d, f (table d) = table d -> set f d = d) ->
  (let! count := gets (fun d => CleanupOldData.count selected (table d)) in
   run! when (0 <? count)%Z (modify (set (CleanupOldData.delete selected))) in
   ret count) db
  = (inr (CleanupOldData.count selected (table db)),
     set (CleanupOldData.delete selected) db).
Proof.
  intros Hset. monad_unfold. destruct (0 <? _)%Z eqn:Hc; [reflexivity|].
  apply Z.ltb_ge in Hc. f_equal. symmetry. apply Hset.
  apply delete_nothing_selected. unfold CleanupOldData.count in *. lia.
Qed.

Lemma set_history_same f d : f (history d) = history d -> set_history f d = d.
Proof. destruct d. unfold set_history. cbn. intros ->. reflexivity. Qed.

Lemma set_alerts_same f d : f (alerts d) = alerts d -> set_alerts f d = d.
Proof. destruct d. unfold set_alerts. cbn. intros ->. reflexivity. Qed.

Lemma set_notifications_same f d :
  f (notifications d) = notifications d -> set_notifications f d = d.
Proof. destruct d. unfold set_notifications. cbn. intros ->. reflexivity. Qed.

Lemma set_forecasts_same f d : f (forecasts d) = forecasts d -> set_forecasts f d = d.
Proof. destruct d. unfold set_forecasts. cbn. intros ->. reflexivity. Qed.

Ltac cleanup_run_tac Hr :=
  let Htd := fresh "Htd" in
  let Hsub := fresh "Hsub" in
  match type of Hr with
  | cutoff_in_range (clock ?db) _ =>
      destruct (cutoff_run (S:=DB) _ _ db Hr) as [Htd Hsub];
      unfold bind at 1; unfold timezone_now, gets at 1;
      unfold bind at 1; rewrite Htd;
      unfold bind at 1; rewrite Hsub
  end.

Lemma cleanup_weather_history_run (days : Z) (db : DB) :
  cutoff_in_range (clock db) (days * PyDatetime.us_per_day) ->
  CleanupOldData.cleanup_weather_history days false db
  = (inr (CleanupOldData.count
            (CleanupOldData.old_history (clock db - days * PyDatetime.us_per_day))
            (history db)),
     set_history
       (CleanupOldData.delete
          (CleanupOldData.old_history (clock db - days * PyDatetime.us_per_day))) db).
Proof.
  intros Hr.
  unfold CleanupOldData.cleanup_weather_history, PyDatetime.timedelta_days.
  cleanup_run_tac Hr.
  apply (cleanup_table_run _ history set_history), set_history_same.
Qed.

Lemma cleanup_weather_alerts_run (days : Z) (db : DB) :
  cutoff_in_range (clock db) (days * PyDatetime.us_per_day) ->
  CleanupOldData.cleanup_weather_alerts days false db
  = (inr (CleanupOldData.count
            (CleanupOldData.old_alert (clock db - days * PyDatetime.us_per_day))
            (alerts db)),
     set_alerts
       (CleanupOldData.delete
          (CleanupOldData.old_alert (clock db - days * PyDatetime.us_per_day))) db).
Proof.
  intros Hr.
  unfold CleanupOldData.cleanup_weather_alerts, PyDatetime.timedelta_days.
  cleanup_run_tac Hr.
  apply (cleanup_table_run _ alerts set_alerts), set_alerts_same.
Qed.

Lemma cleanup_email_notifications_run (days : Z) (db : DB) :
  cutoff_in_range (clock db) (days * PyDatetime.us_per_day) ->
  CleanupOldData.cleanup_email_notifications days false db
  = (inr (CleanupOldData.count
            (CleanupOldData.old_notification (clock db - days * PyDatetime.us_per_day))
            (notifications db)),
     set_notifications
       (CleanupOldData.delete
          (CleanupOldData.old_notification (clock db - days * PyDatetime.us_per_day))) db).
Proof.
  intros Hr.
  unfold CleanupOldData.cleanup_email_notifications, PyDatetime.timedelta_days.
  cleanup_run_tac Hr.
  apply (cleanup_table_run _ notifications set_notifications), set_notifications_same.
Qed.

Lemma cleanup_forecasts_run (hours : Z) (db : DB) :
  cutoff_in_range (clock db) (hours * PyDatetime.us_per_hour) ->
  CleanupOldData.cleanup_forecasts hours false db
  = (inr (CleanupOldData.count
            (CleanupOldData.old_forecast (clock db - hours * PyDatetime.us_per_hour))
            (forecasts db)),
     set_forecasts
       (CleanupOldData.delete
          (CleanupOldData.old_forecast (clock db - hours * PyDatetime.us_per_hour))) db).
Proof.
  intros Hr.
  unfold CleanupOldData.cleanup_forecasts, PyDatetime.timedelta_hours.
  cleanup_run_tac Hr.
  apply (cleanup_table_run _ forecasts set_forecasts), set_forecasts_same.
Qed.

Lemma delete_as_filter {A} (selected kept : A -> bool) (rows : list A) :
  (forall r, kept r = negb (selected r)) ->
  CleanupOldData.delete selected rows = List.filter kept rows.
Proof.
  intros H. unfold CleanupOldData.delete. apply List.filter_ext. intros r. symmetry. apply H.
Qed.

(** C7 (as amended).  When this is no dry run and the four cutoffs can be
    computed, the cleanup returns normally and keeps exactly: the history
    rows searched at or after [now - N days]; the alerts that are unsent
    or were created at or after [now - M days]; the audit rows that are
    unsent or were created at or after [now - K days]; the forecasts
    updated at or after [now - H hours].  Each table depends on its own
    threshold only, every other part of the state is untouched, and the
    reported total is the number of rows that went. *)
Theorem cleanup_removes_exactly_the_old_rows (opts : CleanupOldData.options) (db : DB) :
  CleanupOldData.dry_run opts = false ->
  cutoff_in_range (clock db) (CleanupOldData.history_days opts * PyDatetime.us_per_day) ->
  cutoff_in_range (clock db) (CleanupOldData.alerts_days opts * PyDatetime.us_per_day) ->
  cutoff_in_range (clock db) (CleanupOldData.notifications_days opts * PyDatetime.us_per_day) ->
  cutoff_in_range (clock db) (CleanupOldData.forecast_hours opts * PyDatetime.us_per_hour) ->
  exists total db',
    CleanupOldData.handle opts db = (inr total, db') /\
    history db' =
      List.filter (fun r =>
        (clock db - CleanupOldData.history_days opts * 86400000000
           <=? WeatherHistory.searched_at r)%Z) (history db) /\
    alerts db' =
      List.filter (fun r =>
        negb (WeatherAlert.is_sent r)
        || (clock db - CleanupOldData.alerts_days opts * 86400000000
              <=? WeatherAlert.created_at r)%Z) (alerts db) /\
    notifications db' =
      List.filter (fun r =>
        negb (EmailNotification.is_sent r)
        || (clock db - CleanupOldData.notifications_days opts * 86400000000
              <=? EmailNotification.created_at r)%Z) (notifications db) /\
    forecasts db' =
      List.filter (fun r =>
        (clock db - CleanupOldData.forecast_hours opts * 3600000000
           <=? WeatherForecast.last_updated r)%Z) (forecasts db) /\
    (clock db', users db', profiles db', favorites db', next_alert_id db', outbox db')
    = (clock db, users db, profiles db, favorites db, next_alert_id db, outbox db) /\
    total =
      (Z.of_nat (length (history db)) - Z.of_nat (length (history db'))
       + (Z.of_nat (length (alerts db)) - Z.of_nat (length (alerts db')))
       + (Z.of_nat (length (notifications db)) - Z.of_nat (length (notifications db')))
       + (Z.of_nat (length (forecasts db)) - Z.of_nat (length (forecasts db'))))%Z.
Proof.
  intros Hdry H1 H2 H3 H4.
  unfold CleanupOldData.handle. rewrite Hdry.
  unfold bind at 1. rewrite (cleanup_weather_history_run _ db H1).
  unfold bind at 1. rewrite cleanup_weather_alerts_run by (destruct db; exact H2).
  unfold bind at 1. rewrite cleanup_email_notifications_run by (destruct db; exact H3).
  unfold bind at 1. rewrite cleanup_forecasts_run by (destruct db; exact H4).
  unfold ret. eexists. eexists. split; [reflexivity|].
  destruct db as [now us ps fs hs fcs als nid ns ob].
  cbn [history alerts notifications forecasts clock users profiles favorites next_alert_id
       outbox set_history set_alerts set_notifications set_forecasts].
  rewrite !count_deleted.
  repeat split; try lia.
  - apply delete_as_filter. intros r. unfold CleanupOldData.old_history, PyDatetime.us_per_day.
    apply Z.leb_antisym.
  - apply delete_as_filter. intros r. unfold CleanupOldData.old_alert, PyDatetime.us_per_day.
    rewrite negb_andb, Z.leb_antisym. apply orb_comm.
  - apply delete_as_filter. intros r.
    unfold CleanupOldData.old_notification, PyDatetime.us_per_day.
    rewrite negb_andb, Z.leb_antisym. apply orb_comm.
  - apply delete_as_filter. intros r. unfold CleanupOldData.old_forecast, PyDatetime.us_per_hour.
    apply Z.leb_antisym.
Qed.

(** Computations that leave the state alone compose. *)
Lemma bind_keeps_state {S A B} (c : M S A) (k : A -> M S B) :
  (forall s, snd (c s) = s) ->
  (forall a s, snd (k a s) = s) ->
  forall s, snd (bind c k s) = s.
Proof.
  intros Hc Hk s. unfold bind. specialize (Hc s).
  destruct (c s) as [[e | a] s']; cbn in *; subst; [reflexivity | apply Hk].
Qed.

Lemma timedelta_keeps_state {S} (us : Z) (s : S) : snd (PyDatetime.timedelta us s) = s.
Proof. unfold PyDatetime.timedelta. destruct (_ && _); reflexivity. Qed.

Lemma sub_keeps_state {S} (t delta : Z) (s : S) : snd (PyDatetime.sub t delta s) = s.
Proof. unfold PyDatetime.sub. destruct (_ && _); reflexivity. Qed.

Ltac keeps_state :=
  repeat first
    [ apply bind_keeps_state; intros
    | apply timedelta_keeps_state
    | apply sub_keeps_state
    | reflexivity
    | match goal with |- context [when ?b _] => destruct b; cbn [when] end ].

(** In a dry run the cleanup deletes nothing. *)
Lemma cleanup_dry_run_keeps_everything (opts : CleanupOldData.options) (db : DB) :
  CleanupOldData.dry_run opts = true ->
  snd (CleanupOldData.handle opts db) = db.
Proof.
  intros Hdry. revert db.
  unfold CleanupOldData.handle, CleanupOldData.cleanup_weather_history,
    CleanupOldData.cleanup_weather_alerts, CleanupOldData.cleanup_email_notifications,
    CleanupOldData.cleanup_forecasts, PyDatetime.timedelta_days, PyDatetime.timedelta_hours,
    timezone_now.
  rewrite Hdry. keeps_state.
Qed.

Lemma cleanup_removes_exactly_the_old_rows_witness :
  exists total db',
    CleanupOldData.handle default_options
      (db_with_notifications [stale_unsent_notification; stale_sent_notification])
    = (inr total, db') /\
    notifications db' = [stale_unsent_notification] /\
    total = 1%Z.
Proof.
  destruct (cleanup_removes_exactly_the_old_rows default_options
              (db_with_notifications [stale_unsent_notification; stale_sent_notification]))
    as (total & db' & Hrun & _ & _ & Hn & _ & _ & Htotal).
  - reflexivity.
  - unfold cutoff_in_range. vm_compute. intuition discriminate.
  - unfold cutoff_in_range. vm_compute. intuition discriminate.
  - unfold cutoff_in_range. vm_compute. intuition discriminate.
  - unfold cutoff_in_range. vm_compute. intuition discriminate.
  - exists total, db'. split; [exact Hrun|]. split; [exact Hn|].
    rewrite Htotal. injection Hrun as _ <-. reflexivity.
Defined.

(** C7, as first stated, fails: with the default thresholds an audit row
    from 1970 that is not marked as sent is older than 60 days and is
    still there after the cleanup. *)
Lemma unsent_notification_survives_cleanup :
  In stale_unsent_notification (notifications (db_with_notifications [stale_unsent_notification]))
  /\ (EmailNotification.created_at stale_unsent_notification
      < clock (db_with_notifications [stale_unsent_notification])
        - CleanupOldData.notifications_days default_options * 86400000000)%Z
  /\ CleanupOldData.dry_run default_options = false
  /\ exists total db',
       CleanupOldData.handle default_options (db_with_notifications [stale_unsent_notification])
       = (inr total, db') /\
       In stale_unsent_notification (notifications db').
Proof.
  split; [left; reflexivity|]. split; [reflexivity|]. split; [reflexivity|].
  eexists. eexists. split; [vm_compute; reflexivity|]. left. reflexivity.
Qed.

(** ** Validation of the alert form *)








(** ** Failure isolation in the batch sweeps *)

Lemma alerts_handle_loop_run (check : User.t -> bool -> M DB Z) (dry_run : bool)
    (users : list User.t) (alerts_sent users_processed : Z) (db : DB) :
  exists counters,
    SendWeatherAlerts.handle_loop check dry_run users alerts_sent users_processed db
    = (inr counters, fold_left (fun d u => snd (check u dry_run d)) users db).
Proof.
  revert alerts_sent users_processed db.
  induction users as [|user rest IH]; intros alerts_sent users_processed db.
  - eexists. reflexivity.
  - cbn [SendWeatherAlerts.handle_loop fold_left]. monad_unfold.
    destruct (check user dry_run db) as [[e | result] db']; cbn [snd Exception]; apply IH.
Qed.

Lemma summaries_handle_loop_run (send : User.t -> bool -> M DB bool) (dry_run : bool)
    (users : list User.t) (summaries_sent users_processed : Z) (db : DB) :
  exists counters,
    SendDailySummaries.handle_loop send dry_run users summaries_sent users_processed db
    = (inr counters, fold_left (fun d u => snd (send u dry_run d)) users db).
Proof.
  revert summaries_sent users_processed db.
  induction users as [|user rest IH]; intros summaries_sent users_processed db.
  - eexists. reflexivity.
  - cbn [SendDailySummaries.handle_loop fold_left]. monad_unfold.
    destruct (send user dry_run db) as [[e | result] db']; cbn [snd Exception]; apply IH.
Qed.

(** C9.  Whatever the per-user step does, each batch loop returns
    normally, and the state it leaves is the one obtained by running the
    step on every user of the list in order, a raised exception counting
    as the end of that user's step only.  In particular the users after
    a failing one are processed from the state the failing one left, and
    the whole command, run for all users, does not raise. *)
Theorem batch_sweeps_isolate_failures (check : User.t -> bool -> M DB Z)
    (send : User.t -> bool -> M DB bool) (dry_run : bool) (users : list User.t) (db : DB) :
  let alert_step := fun d u => snd (check u dry_run d) in
  let summary_step := fun d u => snd (send u dry_run d) in
  (exists counters,
     SendWeatherAlerts.handle_loop check dry_run users 0 0 db
     = (inr counters, fold_left alert_step users db)) /\
  (exists counters,
     SendDailySummaries.handle_loop send dry_run users 0 0 db
     = (inr counters, fold_left summary_step users db)) /\
  (forall before failing after e,
     users = before ++ failing :: after ->
     fst (check failing dry_run (fold_left alert_step before db)) = inl e ->
     snd (SendWeatherAlerts.handle_loop check dry_run users 0 0 db)
     = fold_left alert_step after
         (snd (check failing dry_run (fold_left alert_step before db)))) /\
  (forall before failing after e,
     users = before ++ failing :: after ->
     fst (send failing dry_run (fold_left summary_step before db)) = inl e ->
     snd (SendDailySummaries.handle_loop send dry_run users 0 0 db)
     = fold_left summary_step after
         (snd (send failing dry_run (fold_left summary_step before db)))) /\
  (exists db', SendWeatherAlerts.handle_with check None dry_run db = (inr tt, db')) /\
  (exists db', SendDailySummaries.handle_with send None dry_run db = (inr tt, db')).
Proof.
  intros alert_step summary_step.
  split; [apply alerts_handle_loop_run|].
  split; [apply summaries_handle_loop_run|].
  split; [|split; [|split]].
  - intros before failing after e -> _.
    destruct (alerts_handle_loop_run check dry_run (before ++ failing :: after) 0 0 db)
      as [counters ->].
    cbn [snd]. rewrite fold_left_app. reflexivity.
  - intros before failing after e -> _.
    destruct (summaries_handle_loop_run send dry_run (before ++ failing :: after) 0 0 db)
      as [counters ->].
    cbn [snd]. rewrite fold_left_app. reflexivity.
  - unfold SendWeatherAlerts.handle_with, User_objects_filter. cbn [option_given].
    unfold bind at 1. unfold gets.
    match goal with
    | |- context [SendWeatherAlerts.handle_loop check dry_run ?us 0%Z 0%Z] =>
        destruct (alerts_handle_loop_run check dry_run us 0 0 db) as [counters Hrun]
    end.
    unfold bind. rewrite Hrun. eexists. reflexivity.
  - unfold SendDailySummaries.handle_with, User_objects_filter. cbn [option_given].
    unfold bind at 1. unfold gets.
    match goal with
    | |- context [SendDailySummaries.handle_loop send dry_run ?us 0%Z 0%Z] =>
        destruct (summaries_handle_loop_run send dry_run us 0 0 db) as [counters Hrun]
    end.
    unfold bind. rewrite Hrun. eexists. reflexivity.
Qed.

Lemma batch_sweeps_isolate_failures_witness :
  fst (failing_for_bob bob false (sample_db profile_active [])) = inl (OtherError "boom") /\
  map (fun a => User.username (WeatherAlert.user a))
    (alerts (snd (SendWeatherAlerts.handle_loop failing_for_bob false [alice; bob; carol]
                    0 0 (sample_db profile_active []))))
  = ["alice"; "carol"].
Proof.
  split; [reflexivity|].
  destruct (batch_sweeps_isolate_failures failing_for_bob summary_failing_for_bob false
              [alice; bob; carol] (sample_db profile_active [])) as ([counters ->] & _).
  reflexivity.
Defined.

(** ** What the dispatcher files for an eligible user *)

Lemma saved_alerts_fresh (l : list WeatherAlert.t) (a a' : WeatherAlert.t) (n : nat) :
  Forall (fun r => (WeatherAlert.id r < n)%nat) l ->
  WeatherAlert.id a = n ->
  WeatherAlert.id a' = n ->
  saved_alerts a' (l ++ [a]) = l ++ [a'].
Proof.
  intros Hl Ha Ha'. unfold saved_alerts, has_alert.
  rewrite existsb_app. cbn [existsb]. rewrite Ha, Ha', Nat.eqb_refl, orb_true_r. cbn.
  rewrite List.map_app. cbn [List.map]. rewrite Ha, Nat.eqb_refl. f_equal.
  induction Hl as [|r l Hr Hl IH]; [reflexivity|].
  cbn [List.map]. rewrite IH. f_equal.
  destruct (Nat.eqb_spec (WeatherAlert.id r) n); [lia | reflexivity].
Qed.

Lemma eligible_same_profiles (user : User.t) (db db' : DB) :
  profiles db' = profiles db -> eligible user db -> eligible user db'.
Proof. unfold eligible. intros ->. auto. Qed.

(** Creating an alert row and sending it: one row more, of the given
    kind, whether or not the message went out. *)
Lemma create_and_send (env : Env) (user : User.t) (city_name alert_type message : string)
    (temperature : option Q) (weather_condition : string) :
  files_alerts user [alert_type]
    (let! alert := WeatherAlert_objects_create user city_name alert_type message
                     temperature weather_condition in
     let! _ := WeatherNotificationService.send_weather_alert_email env alert in
     ret tt).
Proof.
  intros db Hel Hfresh.
  unfold WeatherAlert_objects_create. unfold bind at 1.
  set (a := WeatherAlert.mk (next_alert_id db) user city_name alert_type message
              temperature weather_condition (clock db) false None).
  set (db1 := set_next_alert_id _ _).
  destruct (send_weather_alert_email_run env a db1)
    as (b & db2 & Hrun & _ & _ & Hsent & Hsame & Hprof & Hnext).
  unfold bind. rewrite Hrun. unfold ret.
  assert (Halerts1 : alerts db1 = alerts db ++ [a]) by (destruct db; reflexivity).
  assert (Hnext1 : next_alert_id db1 = Datatypes.S (next_alert_id db))
    by (destruct db; reflexivity).
  assert (Hprof1 : profiles db1 = profiles db) by (destruct db; reflexivity).
  assert (Hrows : exists a', alerts db2 = alerts db ++ [a'] /\
                             WeatherAlert.alert_type a' = alert_type /\
                             WeatherAlert.user a' = user /\
                             WeatherAlert.id a' = next_alert_id db).
  { destruct b.
    - destruct (Hsent eq_refl) as (html & _ & Ha & _).
      exists (WeatherAlert.mark_sent a (clock db1)). rewrite Ha, Halerts1.
      split; [|repeat split].
      apply saved_alerts_fresh with (n := next_alert_id db); auto.
    - destruct (Hsame eq_refl) as [Ha _]. exists a. rewrite Ha, Halerts1. repeat split. }
  destruct Hrows as (a' & Ha' & Hty & Hu & Hid).
  exists [a'], db2. split; [reflexivity|]. split; [exact Ha'|].
  split; [cbn; rewrite Hty; reflexivity|].
  split; [constructor; [exact Hu | constructor]|].
  split.
  - apply eligible_same_profiles with db; [congruence | exact Hel].
  - unfold alert_ids_fresh in *. rewrite Ha', Hnext, Hnext1.
    apply Forall_app. split.
    + eapply List.Forall_impl; [|exact Hfresh]. cbn. intros r Hr. lia.
    + constructor; [rewrite Hid; lia | constructor].
Qed.

Lemma files_nothing (user : User.t) : files_alerts user [] (ret tt).
Proof.
  intros db Hel Hfresh. exists [], db.
  rewrite app_nil_r. repeat split; auto.
Qed.

Lemma files_in_sequence (user : User.t) (kinds1 kinds2 : list string) (c1 c2 : M DB unit) :
  files_alerts user kinds1 c1 ->
  files_alerts user kinds2 c2 ->
  files_alerts user (kinds1 ++ kinds2) (run! c1 in c2).
Proof.
  intros H1 H2 db Hel Hfresh.
  destruct (H1 db Hel Hfresh) as (new1 & db1 & Hrun1 & Ha1 & Hk1 & Hu1 & Hel1 & Hf1).
  destruct (H2 db1 Hel1 Hf1) as (new2 & db2 & Hrun2 & Ha2 & Hk2 & Hu2 & Hel2 & Hf2).
  exists (new1 ++ new2), db2. unfold bind. rewrite Hrun1, Hrun2.
  split; [reflexivity|]. split; [rewrite Ha2, Ha1, app_assoc; reflexivity|].
  split; [rewrite List.map_app, Hk1, Hk2; reflexivity|].
  split; [apply Forall_app; auto | auto].
Qed.

Lemma files_when (user : User.t) (kinds : list string) (b : bool) (c : M DB unit) :
  files_alerts user kinds c ->
  files_alerts user (if b then kinds else []) (when b c).
Proof. destruct b; [auto | intros _; apply files_nothing]. Qed.

Lemma create_temperature_alert_files (env : Env) (user : User.t) (city_name : string)
    (temperature : Q) (high : bool) :
  files_alerts user [if high then "temperature_high" else "temperature_low"]
    (WeatherNotificationService.create_temperature_alert env user city_name temperature
       (if high then "high" else "low")).
Proof.
  intros db Hel Hfresh.
  unfold WeatherNotificationService.create_temperature_alert. unfold bind at 1.
  rewrite (can_send_eligible user db Hel). cbn [negb].
  destruct high; apply create_and_send; assumption.
Qed.

Lemma create_rain_alert_files (env : Env) (user : User.t) (city_name description : string) :
  files_alerts user ["rain"]
    (WeatherNotificationService.create_rain_alert env user city_name description).
Proof.
  intros db Hel Hfresh.
  unfold WeatherNotificationService.create_rain_alert. unfold bind at 1.
  rewrite (can_send_eligible user db Hel). cbn [negb].
  apply create_and_send; assumption.
Qed.

Lemma create_severe_weather_alert_files (env : Env) (user : User.t)
    (city_name description : string) :
  files_alerts user ["severe"]
    (WeatherNotificationService.create_severe_weather_alert env user city_name description).
Proof.
  intros db Hel Hfresh.
  unfold WeatherNotificationService.create_severe_weather_alert. unfold bind at 1.
  rewrite (can_send_eligible user db Hel). cbn [negb].
  apply create_and_send; assumption.
Qed.

(** The service's checker, on a payload with the two fields, files for an
    eligible user exactly the kinds of [service_kinds]. *)
Lemma check_weather_conditions_files (env : Env) (user : User.t) (city : FavoriteCity.t)
    (w : Weather.t) (temperature : Q) (description : string) :
  snapshot_of w temperature description ->
  files_alerts user (service_kinds city temperature description)
    (WeatherNotificationService.check_weather_conditions_for_alerts env user city w).
Proof.
  intros (main & feels & humidity & icon & rest & Hmain & -> & Hweather).
  assert (Hbody :
    files_alerts user (service_kinds city temperature description)
      (run! when (truthy_and (FavoriteCity.temperature_threshold_high city)
                    (fun high => PyFloat.gt temperature high))
              (WeatherNotificationService.create_temperature_alert env user
                 (FavoriteCity.city_name city) temperature "high") in
       run! when (truthy_and (FavoriteCity.temperature_threshold_low city)
                    (fun low => PyFloat.lt temperature low))
              (WeatherNotificationService.create_temperature_alert env user
                 (FavoriteCity.city_name city) temperature "low") in
       run! when (FavoriteCity.notify_rain city
                  && PyStr.contains "rain" (PyStr.lower description))
              (WeatherNotificationService.create_rain_alert env user
                 (FavoriteCity.city_name city) (PyStr.lower description)) in
       when (FavoriteCity.notify_extreme_weather city
             && PyStr.any (fun condition => PyStr.contains condition (PyStr.lower description))
                  ["storm"; "thunder"; "severe"; "tornado"; "hurricane"])
         (WeatherNotificationService.create_severe_weather_alert env user
            (FavoriteCity.city_name city) (PyStr.lower description)))).
  { unfold service_kinds, rule_kinds.
    apply files_in_sequence;
      [apply files_when, (create_temperature_alert_files env user _ _ true)|].
    apply files_in_sequence;
      [apply files_when, (create_temperature_alert_files env user _ _ false)|].
    apply files_in_sequence; [apply files_when, create_rain_alert_files|].
    apply files_when, create_severe_weather_alert_files. }
  intros db Hel Hfresh.
  destruct (Hbody db Hel Hfresh) as (new & db' & Hrun & Hrest).
  exists new, db'. split; [|exact Hrest].
  unfold WeatherNotificationService.check_weather_conditions_for_alerts.
  unfold try_except, getitem, getitem0. rewrite Hmain, Hweather.
  cbn [Weather.temp Weather.description].
  match type of Hrun with
  | ?c db = _ =>
      transitivity (try_except c Exception (fun _ => ret tt) db); [reflexivity|]
  end.
  unfold try_except. rewrite Hrun. reflexivity.
Qed.

(** ** What the sweep command files for an eligible user *)

Lemma analyze_kinds (env : Env) {S} (w : Weather.t) (city : FavoriteCity.t)
    (temperature : Q) (description : string) (s : S) :
  snapshot_of w temperature description ->
  exists l,
    SendWeatherAlerts.analyze_weather_conditions env w city s = (inr l, s) /\
    map fst l = analyzer_kinds city temperature description.
Proof.
  intros (main & feels & humidity & icon & rest & Hmain & -> & Hweather).
  unfold SendWeatherAlerts.analyze_weather_conditions, analyzer_kinds, rule_kinds.
  monad_unfold. rewrite Hmain, Hweather. cbn [Weather.temp Weather.description].
  eexists. split; [reflexivity|].
  destruct (truthy_and (FavoriteCity.temperature_threshold_high city) _);
    destruct (truthy_and (FavoriteCity.temperature_threshold_low city) _);
    destruct (FavoriteCity.notify_rain city && _);
    destruct (FavoriteCity.notify_extreme_weather city && _);
    reflexivity.
Qed.

Lemma rule_kinds_known (severe_conditions : list string) (city : FavoriteCity.t)
    (temperature : Q) (description : string) :
  Forall (fun kind => In kind ["temperature_high"; "temperature_low"; "rain"; "severe"])
    (rule_kinds severe_conditions city temperature description).
Proof.
  unfold rule_kinds.
  destruct (truthy_and (FavoriteCity.temperature_threshold_high city) _);
    destruct (truthy_and (FavoriteCity.temperature_threshold_low city) _);
    destruct (FavoriteCity.notify_rain city && _);
    destruct (FavoriteCity.notify_extreme_weather city && _);
    cbn [app]; repeat (constructor; [cbn; tauto|]); constructor.
Qed.

Lemma send_alert_files (env : Env) (user : User.t) (city : FavoriteCity.t) (w : Weather.t)
    (temperature : Q) (description kind : string) :
  snapshot_of w temperature description ->
  In kind ["temperature_high"; "temperature_low"; "rain"; "severe"] ->
  files_alerts user [kind] (SendWeatherAlerts.send_alert env user city w kind).
Proof.
  intros (main & feels & humidity & icon & rest & Hmain & -> & Hweather) Hkind.
  cbn [In] in Hkind.
  destruct Hkind as [<- | [<- | [<- | [<- | []]]]];
    unfold SendWeatherAlerts.send_alert; cbn [String.eqb Ascii.eqb Bool.eqb];
    rewrite ?Hmain, ?Hweather; cbn [getitem getitem0 Weather.temp Weather.description];
    intros db Hel Hfresh.
  - apply (create_temperature_alert_files env user _ _ true db Hel Hfresh).
  - apply (create_temperature_alert_files env user _ _ false db Hel Hfresh).
  - apply (create_rain_alert_files env user _ _ db Hel Hfresh).
  - apply (create_severe_weather_alert_files env user _ _ db Hel Hfresh).
Qed.

(** The inner loop of [check_user_alerts] outside a dry run: one row and
    one count per needed alert. *)
Lemma send_alerts_loop (env : Env) (user : User.t) (city : FavoriteCity.t) (w : Weather.t)
    (temperature : Q) (description : string) (alerts_needed : list (string * string)) :
  snapshot_of w temperature description ->
  Forall (fun kind => In kind ["temperature_high"; "temperature_low"; "rain"; "severe"])
    (map fst alerts_needed) ->
  forall alerts_sent db,
    eligible user db ->
    alert_ids_fresh db ->
    exists new db',
      for_each alerts_needed (fun '(alert_type, message) =>
        if false then ret tt
        else
          run! lift_db (SendWeatherAlerts.send_alert env user city w alert_type) in
          update_local (fun n => (n + 1)%Z)) (alerts_sent, db)
      = (inr tt, ((alerts_sent + Z.of_nat (length alerts_needed))%Z, db')) /\
      alerts db' = alerts db ++ new /\
      map WeatherAlert.alert_type new = map fst alerts_needed /\
      Forall (fun a => WeatherAlert.user a = user) new /\
      eligible user db' /\
      alert_ids_fresh db'.
Proof.
  intros Hsnap.
  induction alerts_needed as [|[kind message] rest IH]; intros Hkinds alerts_sent db Hel Hfresh.
  - exists [], db. cbn. rewrite Z.add_0_r, app_nil_r. repeat split; auto.
  - cbn [map fst] in Hkinds. apply Forall_cons in Hkinds. destruct Hkinds as [Hkind Hkinds].
    destruct (send_alert_files env user city w temperature description kind Hsnap Hkind
                db Hel Hfresh) as (new1 & db1 & Hrun1 & Ha1 & Hk1 & Hu1 & Hel1 & Hf1).
    destruct (IH Hkinds (alerts_sent + 1)%Z db1 Hel1 Hf1)
      as (new2 & db2 & Hrun2 & Ha2 & Hk2 & Hu2 & Hel2 & Hf2).
    exists (new1 ++ new2), db2.
    cbn [for_each]. unfold bind at 1. unfold bind at 1. unfold lift_db at 1.
    rewrite Hrun1. unfold update_local at 1. unfold modify at 1.
    rewrite Hrun2.
    split; [f_equal; f_equal; cbn [length]; lia|].
    split; [rewrite Ha2, Ha1, app_assoc; reflexivity|].
    split; [rewrite List.map_app, Hk1, Hk2; reflexivity|].
    split; [apply Forall_app; auto | auto].
Qed.

(** One turn of the sweep for a city whose payload has the two fields,
    outside a dry run and for an eligible user: the rows filed are those
    of the analyzer's kinds, and the counter grows by their number. *)
Lemma check_city_files (env : Env) (user : User.t) (city : FavoriteCity.t) (w : Weather.t)
    (temperature : Q) (description : string) (alerts_sent : Z) (db : DB) :
  (forall S (s : S),
     WeatherNotificationService.get_weather_data env (FavoriteCity.city_name city) s
     = (inr (Some w), s)) ->
  snapshot_of w temperature description ->
  eligible user db ->
  alert_ids_fresh db ->
  exists new db',
    SendWeatherAlerts.check_city env user false city (alerts_sent, db)
    = (inr tt,
       ((alerts_sent + Z.of_nat (length (analyzer_kinds city temperature description)))%Z,
        db')) /\
    alerts db' = alerts db ++ new /\
    map WeatherAlert.alert_type new = analyzer_kinds city temperature description /\
    Forall (fun a => WeatherAlert.user a = user) new /\
    eligible user db' /\
    alert_ids_fresh db'.
Proof.
  intros Hget Hsnap Hel Hfresh.
  destruct (analyze_kinds env w city temperature description (alerts_sent, db) Hsnap)
    as (l & Hanalyze & Hkinds).
  assert (Hknown : Forall (fun kind =>
            In kind ["temperature_high"; "temperature_low"; "rain"; "severe"]) (map fst l)).
  { rewrite Hkinds. apply rule_kinds_known. }
  destruct (send_alerts_loop env user city w temperature description l Hsnap Hknown
              alerts_sent db Hel Hfresh) as (new & db' & Hloop & Ha & Hk & Hrest).
  assert (Hlen : length (analyzer_kinds city temperature description) = length l)
    by (rewrite <- Hkinds; apply List.length_map).
  exists new, db'. rewrite Hlen.
  split; [|rewrite <- Hkinds; split; [exact Ha | split; [exact Hk | exact Hrest]]].
  unfold SendWeatherAlerts.check_city, try_except. unfold bind at 1. rewrite Hget.
  assert (Hmain : has_main (Some w) = true).
  { destruct Hsnap as (main & _ & _ & _ & _ & Hmain & _). cbn. rewrite Hmain. reflexivity. }
  rewrite Hmain. unfold bind at 1. rewrite Hanalyze. rewrite Hloop. reflexivity.
Qed.

(** ** Consistency of the kinds that fire *)

Lemma rule_kinds_consistent (severe_conditions : list string) (city : FavoriteCity.t)
    (temperature : Q) (description : string) :
  thresholds_ordered city ->
  let kinds := rule_kinds severe_conditions city temperature description in
  ~ (In "temperature_high" kinds /\ In "temperature_low" kinds) /\
  List.NoDup kinds /\
  (length kinds <= 4)%nat.
Proof.
  intros Hordered. unfold rule_kinds.
  destruct (truthy_and (FavoriteCity.temperature_threshold_high city) _) eqn:Hhigh;
    destruct (truthy_and (FavoriteCity.temperature_threshold_low city) _) eqn:Hlow.
  1: { exfalso.
       apply truthy_and_true in Hhigh. destruct Hhigh as (high & Hh & _ & Hgt).
       apply truthy_and_true in Hlow. destruct Hlow as (low & Hl & _ & Hlt).
       apply gt_true in Hgt. apply lt_true in Hlt.
       pose proof (Hordered high low Hh Hl) as Hol.
       apply (Qlt_irrefl temperature).
       apply Qlt_trans with low; [exact Hlt|].
       apply Qlt_trans with high; assumption. }
  all: destruct (FavoriteCity.notify_rain city && _);
    destruct (FavoriteCity.notify_extreme_weather city && _);
    cbn [app length In];
    (split; [intuition congruence|]);
    (split; [repeat constructor; cbn [In]; intuition congruence | lia]).
Qed.

(** C10.  Under the stored invariant on the thresholds, the analyzer's
    list for a snapshot never holds both [temperature_high] and
    [temperature_low]; its kinds are pairwise distinct and it has at most
    four entries.  The same holds for the rows the service's checker
    files for an eligible user. *)
Theorem intents_are_distinct_and_consistent (env : Env) {S} (w : Weather.t)
    (city : FavoriteCity.t) (temperature : Q) (description : string) (s : S) :
  thresholds_ordered city ->
  snapshot_of w temperature description ->
  (exists l,
     SendWeatherAlerts.analyze_weather_conditions env w city s = (inr l, s) /\
     ~ (In "temperature_high" (map fst l) /\ In "temperature_low" (map fst l)) /\
     List.NoDup (map fst l) /\
     (length l <= 4)%nat) /\
  (forall user db,
     eligible user db ->
     alert_ids_fresh db ->
     exists new db',
       WeatherNotificationService.check_weather_conditions_for_alerts env user city w db
       = (inr tt, db') /\
       alerts db' = alerts db ++ new /\
       ~ (In "temperature_high" (map WeatherAlert.alert_type new) /\
          In "temperature_low" (map WeatherAlert.alert_type new)) /\
       List.NoDup (map WeatherAlert.alert_type new) /\
       (length new <= 4)%nat).
Proof.
  intros Hordered Hsnap. split.
  - destruct (analyze_kinds env w city temperature description s Hsnap) as (l & Hrun & Hkinds).
    destruct (rule_kinds_consistent
                ["storm"; "thunder"; "severe"; "tornado"; "hurricane"; "hail"]
                city temperature description Hordered) as (Hboth & Hnodup & Hlen).
    fold (analyzer_kinds city temperature description) in Hboth, Hnodup, Hlen.
    rewrite <- Hkinds in Hboth, Hnodup, Hlen. rewrite List.length_map in Hlen.
    exists l. auto.
  - intros user db Hel Hfresh.
    destruct (check_weather_conditions_files env user city w temperature description Hsnap
                db Hel Hfresh) as (new & db' & Hrun & Ha & Hkinds & _).
    destruct (rule_kinds_consistent ["storm"; "thunder"; "severe"; "tornado"; "hurricane"]
                city temperature description Hordered) as (Hboth & Hnodup & Hlen).
    fold (service_kinds city temperature description) in Hboth, Hnodup, Hlen.
    rewrite <- Hkinds in Hboth, Hnodup, Hlen. rewrite List.length_map in Hlen.
    exists new, db'. auto.
Qed.

Lemma intents_are_distinct_and_consistent_witness :
  exists l,
    SendWeatherAlerts.analyze_weather_conditions env_timeout
      (sample_payload 40 "Heavy Rain and Hail") london tt
    = (inr l, tt) /\
    ~ (In "temperature_high" (map fst l) /\ In "temperature_low" (map fst l)) /\
    List.NoDup (map fst l) /\
    (length l <= 4)%nat.
Proof.
  apply (intents_are_distinct_and_consistent env_timeout
           (sample_payload 40 "Heavy Rain and Hail") london 40 "Heavy Rain and Hail" tt).
  - intros high low [= <-] [= <-]. reflexivity.
  - unfold snapshot_of, sample_payload. repeat eexists.
Defined.

(** Away from "hail" the two paths fire the same kinds. *)
Lemma kinds_agree_without_hail (city : FavoriteCity.t) (temperature : Q)
    (description : string) :
  PyStr.contains "hail" (PyStr.lower description) = false ->
  service_kinds city temperature description = analyzer_kinds city temperature description.
Proof.
  intros Hhail. unfold service_kinds, analyzer_kinds, rule_kinds, PyStr.any.
  cbn [existsb]. rewrite Hhail, !orb_false_r. reflexivity.
Qed.

(** ** The scenarios of the specification, run on the model *)

Example scenario_heat_in_london :
  let env := sample_env (inr (mk_response 200 (Some (sample_payload 40 "clear sky")))) None in
  let db := sample_db profile_active [sample_city (Some 35%Q) None false false] in
  map fst (match SendWeatherAlerts.analyze_weather_conditions env
                   (sample_payload 40 "clear sky")
                   (sample_city (Some 35%Q) None false false) tt with
           | (inr l, _) => l
           | (inl _, _) => []
           end) = ["temperature_high"] /\
  fst (SendWeatherAlerts.check_user_alerts env alice false db) = inr 1%Z /\
  map WeatherAlert.alert_type
    (alerts (snd (SendWeatherAlerts.check_user_alerts env alice false db)))
  = ["temperature_high"] /\
  length (outbox (snd (SendWeatherAlerts.check_user_alerts env alice false db))) = 1%nat.
Proof. cbv zeta. repeat split. Qed.

Example scenario_thunderstorm_is_urgent :
  let env :=
    sample_env (inr (mk_response 200 (Some (sample_payload 20 "heavy thunderstorm")))) None in
  let db := sample_db profile_active [sample_city None None false true] in
  map EmailMessage.subject (outbox (snd (SendWeatherAlerts.check_user_alerts env alice false db)))
  = ["🚨 URGENT: 🌤️ Weather Alert for London"].
Proof. reflexivity. Qed.

Example scenario_dry_run_files_nothing :
  let env :=
    sample_env (inr (mk_response 200 (Some (sample_payload 40 "heavy thunderstorm")))) None in
  let db := sample_db profile_active [london] in
  SendWeatherAlerts.check_user_alerts env alice true db = (inr 0%Z, db).
Proof. reflexivity. Qed.

(* ================================================================== *)
(** * Further properties of the alert rules *)

Lemma rule_kinds_in (severe_conditions : list string) (city : FavoriteCity.t)
    (temperature : Q) (description : string) :
  let kinds := rule_kinds severe_conditions city temperature description in
  (In "temperature_high" kinds <->
     truthy_and (FavoriteCity.temperature_threshold_high city)
       (fun high => PyFloat.gt temperature high) = true) /\
  (In "temperature_low" kinds <->
     truthy_and (FavoriteCity.temperature_threshold_low city)
       (fun low => PyFloat.lt temperature low) = true) /\
  (In "rain" kinds <->
     FavoriteCity.notify_rain city && PyStr.contains "rain" (PyStr.lower description) = true) /\
  (In "severe" kinds <->
     FavoriteCity.notify_extreme_weather city
     && PyStr.any (fun condition => PyStr.contains condition (PyStr.lower description))
          severe_conditions = true).
Proof.
  unfold rule_kinds.
  destruct (truthy_and (FavoriteCity.temperature_threshold_high city) _);
    destruct (truthy_and (FavoriteCity.temperature_threshold_low city) _);
    destruct (FavoriteCity.notify_rain city && _);
    destruct (FavoriteCity.notify_extreme_weather city && _);
    cbn [app In]; repeat split; intros; try discriminate; try tauto;
    intuition congruence.
Qed.

Lemma rule_kinds_in_order (severe_conditions : list string) (city : FavoriteCity.t)
    (temperature : Q) (description : string) :
  sublist (rule_kinds severe_conditions city temperature description) canonical_kinds.
Proof.
  unfold rule_kinds, canonical_kinds.
  destruct (truthy_and (FavoriteCity.temperature_threshold_high city) _);
    destruct (truthy_and (FavoriteCity.temperature_threshold_low city) _);
    destruct (FavoriteCity.notify_rain city && _);
    destruct (FavoriteCity.notify_extreme_weather city && _);
    cbn [app];
    repeat first [apply sublist_nil | apply sublist_skip | apply sublist_cons].
Qed.

(** X1.  The rain rule, on both paths: for a reading with description
    [d], a [rain] alert is reported by the analyzer, and filed by the
    service's checker for an eligible user, exactly when [notify_rain] is
    on and "rain" occurs as a substring of the lower-cased [d]. *)
Theorem rain_rule_on_both_paths (env : Env) (w : Weather.t) (city : FavoriteCity.t)
    (temperature : Q) (description : string) :
  snapshot_of w temperature description ->
  let raining :=
    FavoriteCity.notify_rain city = true /\
    exists before after, PyStr.lower description = before +:+ "rain" +:+ after in
  (forall S (s : S),
     exists l,
       SendWeatherAlerts.analyze_weather_conditions env w city s = (inr l, s) /\
       (In "rain" (map fst l) <-> raining)) /\
  (forall user db,
     eligible user db ->
     alert_ids_fresh db ->
     exists new db',
       WeatherNotificationService.check_weather_conditions_for_alerts env user city w db
       = (inr tt, db') /\
       alerts db' = alerts db ++ new /\
       (In "rain" (map WeatherAlert.alert_type new) <-> raining)).
Proof.
  intros Hsnap raining.
  assert (Hrain : forall conditions,
            In "rain" (rule_kinds conditions city temperature description) <-> raining).
  { intros conditions.
    destruct (rule_kinds_in conditions city temperature description) as (_ & _ & Hr & _).
    unfold raining. rewrite Hr, andb_true_iff, contains_spec. reflexivity. }
  split.
  - intros S s.
    destruct (analyze_kinds env w city temperature description s Hsnap) as (l & Hrun & Hk).
    exists l. split; [exact Hrun|]. rewrite Hk. apply Hrain.
  - intros user db Hel Hfresh.
    destruct (check_weather_conditions_files env user city w temperature description Hsnap
                db Hel Hfresh) as (new & db' & Hrun & Ha & Hk & _).
    exists new, db'. split; [exact Hrun|]. split; [exact Ha|]. rewrite Hk. apply Hrain.
Qed.

Lemma rain_rule_on_both_paths_witness :
  exists l,
    SendWeatherAlerts.analyze_weather_conditions env_timeout
      (sample_payload 12 "Light RAIN showers") london tt = (inr l, tt) /\
    In "rain" (map fst l).
Proof.
  assert (Hsnap : snapshot_of (sample_payload 12 "Light RAIN showers") 12 "Light RAIN showers").
  { unfold snapshot_of, sample_payload. repeat eexists. }
  destruct (rain_rule_on_both_paths env_timeout _ london _ _ Hsnap) as [Hanalyzer _].
  destruct (Hanalyzer unit tt) as (l & Hrun & Hrain).
  exists l. split; [exact Hrun|]. apply Hrain.
  split; [reflexivity|]. exists "light ", " showers". reflexivity.
Defined.

(** X2.  Both paths go through the rules in one fixed order: the kinds
    the analyzer returns, and the kinds of the rows the service's checker
    files for an eligible user, form a subsequence of
    [temperature_high, temperature_low, rain, severe]. *)
Theorem kinds_come_in_fixed_order (env : Env) (w : Weather.t) (city : FavoriteCity.t)
    (temperature : Q) (description : string) :
  snapshot_of w temperature description ->
  (forall S (s : S),
     exists l,
       SendWeatherAlerts.analyze_weather_conditions env w city s = (inr l, s) /\
       sublist (map fst l) canonical_kinds) /\
  (forall user db,
     eligible user db ->
     alert_ids_fresh db ->
     exists new db',
       WeatherNotificationService.check_weather_conditions_for_alerts env user city w db
       = (inr tt, db') /\
       alerts db' = alerts db ++ new /\
       sublist (map WeatherAlert.alert_type new) canonical_kinds).
Proof.
  intros Hsnap. split.
  - intros S s.
    destruct (analyze_kinds env w city temperature description s Hsnap) as (l & Hrun & Hk).
    exists l. split; [exact Hrun|]. rewrite Hk. apply rule_kinds_in_order.
  - intros user db Hel Hfresh.
    destruct (check_weather_conditions_files env user city w temperature description Hsnap
                db Hel Hfresh) as (new & db' & Hrun & Ha & Hk & _).
    exists new, db'. split; [exact Hrun|]. split; [exact Ha|].
    rewrite Hk. apply rule_kinds_in_order.
Qed.

Lemma kinds_come_in_fixed_order_witness :
  exists l,
    SendWeatherAlerts.analyze_weather_conditions env_timeout
      (sample_payload 40 "thunderstorm with rain") london tt = (inr l, tt) /\
    sublist (map fst l) canonical_kinds.
Proof.
  assert (Hsnap : snapshot_of (sample_payload 40 "thunderstorm with rain") 40
                    "thunderstorm with rain").
  { unfold snapshot_of, sample_payload. repeat eexists. }
  destruct (kinds_come_in_fixed_order env_timeout _ london _ _ Hsnap) as [Hanalyzer _].
  apply (Hanalyzer unit tt).
Defined.

(** Every payload is either incomplete or carries a reading. *)
Lemma incomplete_or_snapshot (w : Weather.t) :
  incomplete w \/ exists temperature description, snapshot_of w temperature description.
Proof.
  unfold incomplete, snapshot_of.
  destruct (Weather.main w) as [[[t|] feels humidity]|] eqn:Hmain; cbn; auto.
  destruct (Weather.weather w) as [[|[[d|] icon] rest]|] eqn:Hweather; cbn; auto.
  right. exists t, d, (Weather.mk_main (Some t) feels humidity), feels, humidity, icon, rest.
  auto.
Qed.

Lemma analyze_incomplete (env : Env) {S} (w : Weather.t) (city : FavoriteCity.t) (s : S) :
  incomplete w ->
  exists e,
    SendWeatherAlerts.analyze_weather_conditions env w city s = (inl e, s) /\
    In e [KeyError "main"; KeyError "temp"; KeyError "weather"; IndexError;
          KeyError "description"].
Proof.
  unfold incomplete, SendWeatherAlerts.analyze_weather_conditions. monad_unfold.
  destruct (Weather.main w) as [[[t|] feels humidity]|]; cbn.
  - intros [[=] | H].
    destruct (Weather.weather w) as [[|[[d|] icon] rest]|]; cbn in *;
      try discriminate; eexists; (split; [reflexivity|]); cbn; auto 6.
  - intros _. eexists. split; [reflexivity|]. cbn. auto.
  - intros _. eexists. split; [reflexivity|]. cbn. auto.
Qed.

Lemma checker_incomplete (env : Env) (user : User.t) (city : FavoriteCity.t)
    (w : Weather.t) (db : DB) :
  incomplete w ->
  WeatherNotificationService.check_weather_conditions_for_alerts env user city w db
  = (inr tt, db).
Proof.
  unfold incomplete, WeatherNotificationService.check_weather_conditions_for_alerts.
  monad_unfold.
  destruct (Weather.main w) as [[[t|] feels humidity]|]; cbn.
  - intros [[=] | H].
    destruct (Weather.weather w) as [[|[[d|] icon] rest]|]; cbn in *;
      try discriminate; reflexivity.
  - intros _. reflexivity.
  - intros _. reflexivity.
Qed.

(** X3.  A payload that lacks ['main'], ['temp'], ['weather'], a first
    condition or its ['description'] makes the analyzer raise [KeyError]
    or [IndexError]; neither sweep lets the error out: the service's
    checker and one turn of the command's loop return normally with the
    state, and the counter of sent alerts, unchanged. *)
Theorem incomplete_payload_is_skipped (env : Env) (user : User.t) (dry_run : bool)
    (city : FavoriteCity.t) (w : Weather.t) :
  incomplete w ->
  (forall S (s : S),
     exists e,
       SendWeatherAlerts.analyze_weather_conditions env w city s = (inl e, s) /\
       In e [KeyError "main"; KeyError "temp"; KeyError "weather"; IndexError;
             KeyError "description"]) /\
  (forall db,
     WeatherNotificationService.check_weather_conditions_for_alerts env user city w db
     = (inr tt, db)) /\
  ((forall S (s : S),
      WeatherNotificationService.get_weather_data env (FavoriteCity.city_name city) s
      = (inr (Some w), s)) ->
   forall alerts_sent db,
     SendWeatherAlerts.check_city env user dry_run city (alerts_sent, db)
     = (inr tt, (alerts_sent, db))).
Proof.
  intros Hinc. split; [|split].
  - intros S s. apply analyze_incomplete. exact Hinc.
  - intros db. apply checker_incomplete. exact Hinc.
  - intros Hget alerts_sent db.
    unfold SendWeatherAlerts.check_city, try_except. unfold bind at 1. rewrite Hget.
    destruct (has_main (Some w)); [|reflexivity].
    destruct (analyze_incomplete env w city (alerts_sent, db) Hinc) as (e & Hrun & _).
    unfold bind. rewrite Hrun. reflexivity.
Qed.

Lemma incomplete_payload_is_skipped_witness :
  incomplete (Weather.mk (Some (Weather.mk_main (Some 40%Q) None None)) (Some [])) /\
  WeatherNotificationService.check_weather_conditions_for_alerts env_timeout alice london
    (Weather.mk (Some (Weather.mk_main (Some 40%Q) None None)) (Some []))
    (sample_db profile_active [london])
  = (inr tt, sample_db profile_active [london]).
Proof.
  assert (H : incomplete (Weather.mk (Some (Weather.mk_main (Some 40%Q) None None)) (Some []))).
  { cbn. right. exact I. }
  split; [exact H|].
  apply (incomplete_payload_is_skipped env_timeout alice false london _ H).
Defined.

(** ** The gateway in full *)

Lemma get_weather_data_pure (env : Env) (city : string) {S} (s : S) :
  WeatherNotificationService.get_weather_data env city s
  = (fst (WeatherNotificationService.get_weather_data env city tt), s).
Proof.
  unfold WeatherNotificationService.get_weather_data,
         WeatherNotificationService.raise_for_status,
         WeatherNotificationService.response_json.
  monad_unfold.
  destruct (requests_get env _) as [e | response]; cbn.
  - destruct (is_RequestException e); reflexivity.
  - destruct (_ && _); cbn; [reflexivity|].
    destruct (json_body response); reflexivity.
Qed.

(** X4.  What [get_weather_data] gives for every behaviour of the HTTP
    call.  It hands on a payload exactly when the call returns a response
    whose status is outside 400..599 and whose body decodes; it raises
    exactly when the call raises something that is not a
    [RequestException], and then raises that same exception; in every
    other case it returns [None].  It never touches the state. *)
Theorem get_weather_data_outcome (env : Env) (city : string) {S} (s : S) :
  exists outcome,
    WeatherNotificationService.get_weather_data env city s = (outcome, s) /\
    (forall payload,
       outcome = inr (Some payload) <->
       exists response,
         requests_get env (WeatherNotificationService.weather_url env city) = inr response /\
         ~ (400 <= status_code response < 600)%Z /\
         json_body response = Some payload) /\
    (forall e,
       outcome = inl e <->
       requests_get env (WeatherNotificationService.weather_url env city) = inl e /\
       is_RequestException e = false) /\
    (outcome = inr None <->
       match requests_get env (WeatherNotificationService.weather_url env city) with
       | inl e => is_RequestException e = true
       | inr response =>
           (400 <= status_code response < 600)%Z \/ json_body response = None
       end).
Proof.
  unfold WeatherNotificationService.get_weather_data,
         WeatherNotificationService.raise_for_status,
         WeatherNotificationService.response_json.
  monad_unfold.
  destruct (requests_get env _) as [e | response]; cbn.
  - destruct (is_RequestException e) eqn:He; eexists; (split; [reflexivity|]);
      (split; [intros payload; split; [intros H | intros (r & Hr & Hn & Hj)]
              | split; [intros e'; split; [intros H | intros [Hr He']]
                       | split; [intros H | intros H]]]);
      try discriminate; try congruence; auto.
    all: try (injection H as <-; auto).
  - destruct ((400 <=? status_code response)%Z && (status_code response <? 600)%Z) eqn:Hst; cbn.
    + apply andb_true_iff in Hst. destruct Hst as [H1 H2].
      apply Z.leb_le in H1. apply Z.ltb_lt in H2.
      eexists; (split; [reflexivity|]);
      (split; [intros payload; split; [intros H | intros (r & Hr & Hn & Hj)]
              | split; [intros e'; split; [intros H | intros [Hr He']]
                       | split; [intros H | intros H]]]);
      try discriminate; try congruence; auto.
      injection Hr as <-. exfalso. apply Hn. lia.
    + assert (Hn' : ~ (400 <= status_code response < 600)%Z).
      { intros [H1 H2]. apply Z.leb_le in H1. apply Z.ltb_lt in H2.
        rewrite H1, H2 in Hst. discriminate. }
      destruct (json_body response) as [j|] eqn:Hj'; eexists; (split; [reflexivity|]);
      (split; [intros payload; split; [intros H | intros (r & Hr & Hn & Hj)]
              | split; [intros e'; split; [intros H | intros [Hr He']]
                       | split; [intros H | intros H]]]);
      try discriminate; try congruence; auto.
      * injection H as <-. exists response. auto.
      * destruct H as [H | H]; [contradiction | congruence].
Qed.

(* ================================================================== *)
(** * What the alert machinery leaves alone *)

Lemma sweep_frame_refl (db : DB) : sweep_frame db db.
Proof.
  unfold sweep_frame. repeat split; auto; exists []; rewrite app_nil_r; reflexivity.
Qed.

Lemma sweep_frame_trans (db1 db2 db3 : DB) :
  sweep_frame db1 db2 -> sweep_frame db2 db3 -> sweep_frame db1 db3.
Proof.
  unfold sweep_frame.
  intros (Hc1 & Hu1 & Hp1 & Hf1 & Hh1 & Hfc1 & Ha1 & Hi1 & [n1 Hn1] & [o1 Ho1])
         (Hc2 & Hu2 & Hp2 & Hf2 & Hh2 & Hfc2 & Ha2 & Hi2 & [n2 Hn2] & [o2 Ho2]).
  repeat split; try congruence; try lia.
  - exists (n1 ++ n2). rewrite Hn2, Hn1, app_assoc. reflexivity.
  - exists (o1 ++ o2). rewrite Ho2, Ho1, app_assoc. reflexivity.
Qed.

Lemma keeps_frame_ret {A} (a : A) : keeps_frame (ret a).
Proof. intros db. apply sweep_frame_refl. Qed.

Lemma keeps_frame_raise {A} (e : exn) : keeps_frame (raise (A:=A) e).
Proof. intros db. apply sweep_frame_refl. Qed.

Lemma keeps_frame_lift {A} (r : exn + A) : keeps_frame (lift r).
Proof. intros db. apply sweep_frame_refl. Qed.

Lemma keeps_frame_gets {A} (f : DB -> A) : keeps_frame (gets f).
Proof. intros db. apply sweep_frame_refl. Qed.

Lemma keeps_frame_getitem {A} (key : string) (field : option A) :
  keeps_frame (getitem key field).
Proof. destruct field; [apply keeps_frame_ret | apply keeps_frame_raise]. Qed.

Lemma keeps_frame_getitem0 {A} (xs : list A) : keeps_frame (getitem0 xs).
Proof. destruct xs; [apply keeps_frame_raise | apply keeps_frame_ret]. Qed.

Lemma keeps_frame_bind {A B} (c : M DB A) (k : A -> M DB B) :
  keeps_frame c -> (forall a, keeps_frame (k a)) -> keeps_frame (bind c k).
Proof.
  intros Hc Hk db. unfold bind. specialize (Hc db).
  destruct (c db) as [[e | a] db1]; cbn in *; [exact Hc|].
  apply sweep_frame_trans with db1; [exact Hc | apply Hk].
Qed.

Lemma keeps_frame_try {A} (c : M DB A) (catches : exn -> bool) (h : exn -> M DB A) :
  keeps_frame c -> (forall e, keeps_frame (h e)) -> keeps_frame (try_except c catches h).
Proof.
  intros Hc Hh db. unfold try_except. specialize (Hc db).
  destruct (c db) as [[e | a] db1]; cbn in *; [|exact Hc].
  destruct (catches e); [|exact Hc].
  apply sweep_frame_trans with db1; [exact Hc | apply Hh].
Qed.

Lemma keeps_frame_when (b : bool) (c : M DB unit) :
  keeps_frame c -> keeps_frame (when b c).
Proof. destruct b; [auto | intros _; apply keeps_frame_ret]. Qed.

Lemma keeps_frame_for_each {A} (xs : list A) (body : A -> M DB unit) :
  (forall x, keeps_frame (body x)) -> keeps_frame (for_each xs body).
Proof.
  intros Hbody. induction xs as [|x xs IH]; cbn [for_each].
  - apply keeps_frame_ret.
  - apply keeps_frame_bind; auto.
Qed.

Lemma keeps_frame_can_send (user : User.t) :
  keeps_frame (WeatherNotificationService.can_send_notification user).
Proof.
  intros db. destruct (can_send_run user db) as (b & -> & _). apply sweep_frame_refl.
Qed.

Lemma keeps_frame_get_weather_data (env : Env) (city : string) :
  keeps_frame (WeatherNotificationService.get_weather_data env city).
Proof. intros db. rewrite get_weather_data_pure. apply sweep_frame_refl. Qed.

Lemma keeps_frame_email_send (env : Env) (email : EmailMessage.t) :
  keeps_frame (WeatherNotificationService.email_send env email).
Proof.
  intros db. unfold WeatherNotificationService.email_send. monad_unfold.
  assert (H : sweep_frame db (set_outbox (fun l => l ++ [email]) db)).
  { destruct db. unfold sweep_frame. cbn. repeat split; auto.
    - exists []. rewrite app_nil_r. reflexivity.
    - exists [email]. reflexivity. }
  destruct (transport env email); exact H.
Qed.

Lemma saved_alerts_length (a : WeatherAlert.t) (l : list WeatherAlert.t) :
  (length l <= length (saved_alerts a l))%nat.
Proof.
  unfold saved_alerts. destruct (has_alert _ l).
  - rewrite List.length_map. lia.
  - rewrite List.length_app. lia.
Qed.

Lemma keeps_frame_save (a : WeatherAlert.t) : keeps_frame (WeatherAlert_save a).
Proof.
  intros db. unfold WeatherAlert_save, modify. cbn [snd].
  pose proof (saved_alerts_length a (alerts db)) as Hlen. unfold saved_alerts in Hlen.
  destruct db. unfold sweep_frame. cbn in *. repeat split; auto;
    exists []; rewrite app_nil_r; reflexivity.
Qed.

Lemma keeps_frame_audit (user : User.t) (subject message email_type : string)
    (is_sent : bool) (sent_at : option Z) :
  keeps_frame (EmailNotification_objects_create user subject message email_type is_sent sent_at).
Proof.
  intros db. unfold EmailNotification_objects_create. cbn [snd].
  destruct db. unfold sweep_frame. cbn. repeat split; auto.
  - eexists. reflexivity.
  - exists []. rewrite app_nil_r. reflexivity.
Qed.

Lemma keeps_frame_create_row (user : User.t) (city_name alert_type message : string)
    (temperature : option Q) (weather_condition : string) :
  keeps_frame (WeatherAlert_objects_create user city_name alert_type message temperature
                 weather_condition).
Proof.
  intros db. unfold WeatherAlert_objects_create. cbn [snd].
  destruct db. unfold sweep_frame. cbn. repeat split; auto.
  - rewrite List.length_app. lia.
  - exists []. rewrite app_nil_r. reflexivity.
  - exists []. rewrite app_nil_r. reflexivity.
Qed.

Ltac frame_step :=
  first
    [ apply keeps_frame_ret
    | apply keeps_frame_raise
    | apply keeps_frame_lift
    | apply keeps_frame_gets
    | apply keeps_frame_getitem
    | apply keeps_frame_getitem0
    | apply keeps_frame_can_send
    | apply keeps_frame_get_weather_data
    | apply keeps_frame_email_send
    | apply keeps_frame_save
    | apply keeps_frame_audit
    | apply keeps_frame_create_row
    | apply keeps_frame_when
    | apply keeps_frame_for_each; intros
    | apply keeps_frame_try; intros
    | apply keeps_frame_bind; intros
    | match goal with
      | |- keeps_frame (if ?b then _ else _) => destruct b
      | |- keeps_frame (match ?x with _ => _ end) => destruct x
      end ].

Lemma keeps_frame_send_alert_email (env : Env) (alert : WeatherAlert.t) :
  keeps_frame (WeatherNotificationService.send_weather_alert_email env alert).
Proof.
  unfold WeatherNotificationService.send_weather_alert_email, timezone_now.
  repeat frame_step.
Qed.

Lemma keeps_frame_create_temperature (env : Env) (user : User.t) (city_name : string)
    (temperature : Q) (alert_type : string) :
  keeps_frame (WeatherNotificationService.create_temperature_alert env user city_name
                 temperature alert_type).
Proof.
  unfold WeatherNotificationService.create_temperature_alert.
  repeat first [apply keeps_frame_send_alert_email | frame_step].
Qed.

Lemma keeps_frame_create_rain (env : Env) (user : User.t) (city_name description : string) :
  keeps_frame (WeatherNotificationService.create_rain_alert env user city_name description).
Proof.
  unfold WeatherNotificationService.create_rain_alert.
  repeat first [apply keeps_frame_send_alert_email | frame_step].
Qed.

Lemma keeps_frame_create_severe (env : Env) (user : User.t) (city_name description : string) :
  keeps_frame (WeatherNotificationService.create_severe_weather_alert env user city_name
                 description).
Proof.
  unfold WeatherNotificationService.create_severe_weather_alert.
  repeat first [apply keeps_frame_send_alert_email | frame_step].
Qed.

Ltac frame_service :=
  repeat first
    [ apply keeps_frame_send_alert_email
    | apply keeps_frame_create_temperature
    | apply keeps_frame_create_rain
    | apply keeps_frame_create_severe
    | frame_step ].

Lemma keeps_frame_checker (env : Env) (user : User.t) (city : FavoriteCity.t) (w : Weather.t) :
  keeps_frame (WeatherNotificationService.check_weather_conditions_for_alerts env user city w).
Proof.
  unfold WeatherNotificationService.check_weather_conditions_for_alerts. frame_service.
Qed.

Lemma keeps_frame_check_favorite_city (env : Env) (user : User.t) (city : FavoriteCity.t) :
  keeps_frame (WeatherNotificationService.check_favorite_city env user city).
Proof.
  unfold WeatherNotificationService.check_favorite_city.
  repeat first [apply keeps_frame_checker | frame_step].
Qed.

Lemma keeps_frame_service_sweep (env : Env) (user : User.t) :
  keeps_frame (WeatherNotificationService.check_weather_alerts_for_user env user).
Proof.
  unfold WeatherNotificationService.check_weather_alerts_for_user, FavoriteCity_objects_filter.
  repeat first [apply keeps_frame_check_favorite_city | frame_step].
Qed.

Lemma keeps_frame_send_alert (env : Env) (user : User.t) (city : FavoriteCity.t)
    (w : Weather.t) (alert_type : string) :
  keeps_frame (SendWeatherAlerts.send_alert env user city w alert_type).
Proof.
  unfold SendWeatherAlerts.send_alert. frame_service.
Qed.

(* ================================================================== *)
(** * The sweep command as a whole *)

Lemma analyze_either (env : Env) {S} (w : Weather.t) (city : FavoriteCity.t) (s : S) :
  (exists e, SendWeatherAlerts.analyze_weather_conditions env w city s = (inl e, s)) \/
  (exists l, SendWeatherAlerts.analyze_weather_conditions env w city s = (inr l, s) /\
             (length l <= 4)%nat).
Proof.
  destruct (incomplete_or_snapshot w) as [Hinc | (t & d & Hsnap)].
  - left. destruct (analyze_incomplete env w city s Hinc) as (e & Hrun & _). eauto.
  - right. destruct (analyze_spec env w city t d s Hsnap) as (l & Hrun & _ & _ & _ & _ & _ & Hlen).
    eauto.
Qed.

Lemma for_each_noop {S A} (xs : list A) (body : A -> M S unit) (s : S) :
  (forall x s', body x s' = (inr tt, s')) ->
  for_each xs body s = (inr tt, s).
Proof.
  intros Hbody. induction xs as [|x xs IH]; [reflexivity|].
  cbn [for_each]. unfold bind. rewrite Hbody. exact IH.
Qed.

Lemma for_each_returns {S A} (xs : list A) (body : A -> M S unit) (s : S) :
  (forall x s', fst (body x s') = inr tt) ->
  fst (for_each xs body s) = inr tt.
Proof.
  intros Hbody. revert s. induction xs as [|x xs IH]; intros s; [reflexivity|].
  cbn [for_each]. unfold bind. specialize (Hbody x s).
  destruct (body x s) as [[e | []] s1]; cbn in *; [discriminate | apply IH].
Qed.

(** One needed alert outside a dry run moves the counter by at most one;
    the loop over the needed alerts by at most their number. *)
Lemma send_alerts_loop_within (env : Env) (user : User.t) (city : FavoriteCity.t)
    (w : Weather.t) (dry_run : bool) (alerts_needed : list (string * string)) :
  counts_within (Z.of_nat (length alerts_needed))
    (for_each alerts_needed (fun '(alert_type, message) =>
       if dry_run then ret tt
       else
         run! lift_db (SendWeatherAlerts.send_alert env user city w alert_type) in
         update_local (fun n => (n + 1)%Z))).
Proof.
  destruct dry_run.
  - intros n db. rewrite for_each_noop by (intros [kind message] s'; reflexivity).
    cbn [fst snd]. split; [lia | apply sweep_frame_refl].
  - induction alerts_needed as [|[kind message] rest IH]; intros n db.
    + cbn. split; [lia | apply sweep_frame_refl].
    + cbn [length]. rewrite Nat2Z.inj_succ.
      destruct (for_each ((kind, message) :: rest) _ (n, db)) as [r [n' db']] eqn:Hrun.
      cbn [fst snd]. cbn [for_each] in Hrun.
      unfold bind at 1 in Hrun. unfold bind at 1 in Hrun. unfold lift_db at 1 in Hrun.
      pose proof (keeps_frame_send_alert env user city w kind db) as Hsend.
      destruct (SendWeatherAlerts.send_alert env user city w kind db) as [[e | []] db1];
        cbn [fst snd] in Hsend.
      * injection Hrun as <- <- <-. split; [lia | exact Hsend].
      * match type of Hrun with
        | context [for_each rest ?b] =>
            change (for_each rest b ((n + 1)%Z, db1) = (r, (n', db'))) in Hrun
        end.
        destruct (IH (n + 1)%Z db1) as [Hn Hf].
        rewrite Hrun in Hn, Hf. cbn [fst snd] in Hn, Hf.
        split; [lia | apply sweep_frame_trans with db1; assumption].
Qed.

Lemma check_city_returns (env : Env) (user : User.t) (dry_run : bool)
    (city : FavoriteCity.t) (st : Z * DB) :
  fst (SendWeatherAlerts.check_city env user dry_run city st) = inr tt.
Proof.
  unfold SendWeatherAlerts.check_city, try_except.
  match goal with |- context [bind ?c ?k st] => destruct (bind c k st) as [[e | []] st'] end;
    reflexivity.
Qed.

Lemma check_city_within (env : Env) (user : User.t) (dry_run : bool) (city : FavoriteCity.t) :
  counts_within 4 (SendWeatherAlerts.check_city env user dry_run city).
Proof.
  intros n db.
  assert (Hsame : (n <= n <= n + 4)%Z /\ sweep_frame db db)
    by (split; [lia | apply sweep_frame_refl]).
  destruct (SendWeatherAlerts.check_city env user dry_run city (n, db)) as [r [n' db']] eqn:Hrun.
  cbn [fst snd].
  unfold SendWeatherAlerts.check_city, try_except in Hrun. unfold bind at 1 in Hrun.
  rewrite get_weather_data_pure in Hrun.
  destruct (fst (WeatherNotificationService.get_weather_data env _ tt)) as [e | [w|]];
    cbn in Hrun; try (injection Hrun as <- <- <-; exact Hsame).
  destruct (match Weather.main w with Some _ => true | None => false end);
    [|injection Hrun as <- <- <-; exact Hsame].
  unfold bind at 1 in Hrun.
  destruct (analyze_either env w city (n, db)) as [[e Hrun'] | (l & Hrun' & Hlen)];
    rewrite Hrun' in Hrun; [injection Hrun as <- <- <-; exact Hsame|].
  pose proof (send_alerts_loop_within env user city w dry_run l n db) as [Hn Hf].
  match type of Hrun with
  | context [for_each l ?body (n, db)] =>
      destruct (for_each l body (n, db)) as [[e | []] [n1 db1]]
  end; cbn [fst snd] in *; injection Hrun as <- <- <-; (split; [lia | exact Hf]).
Qed.

Lemma cities_loop_within (env : Env) (user : User.t) (dry_run : bool)
    (cities : list FavoriteCity.t) :
  counts_within (4 * Z.of_nat (length cities))
    (for_each cities (SendWeatherAlerts.check_city env user dry_run)).
Proof.
  induction cities as [|city rest IH]; intros n db.
  - cbn. split; [lia | apply sweep_frame_refl].
  - cbn [length]. rewrite Nat2Z.inj_succ.
    destruct (for_each (city :: rest) _ (n, db)) as [r [n' db']] eqn:Hrun.
    cbn [fst snd]. cbn [for_each] in Hrun. unfold bind in Hrun.
    pose proof (check_city_within env user dry_run city n db) as [Hn1 Hf1].
    pose proof (check_city_returns env user dry_run city (n, db)) as Hret.
    destruct (SendWeatherAlerts.check_city env user dry_run city (n, db)) as [[e | []] [n1 db1]];
      cbn [fst snd] in *; [discriminate|].
    destruct (IH n1 db1) as [Hn2 Hf2]. rewrite Hrun in Hn2, Hf2. cbn [fst snd] in Hn2, Hf2.
    split; [lia | apply sweep_frame_trans with db1; assumption].
Qed.

(** What one run of [check_user_alerts] does. *)
Lemma check_user_alerts_run (env : Env) (user : User.t) (dry_run : bool) (db : DB) :
  exists alerts_sent db',
    SendWeatherAlerts.check_user_alerts env user dry_run db = (inr alerts_sent, db') /\
    (0 <= alerts_sent
       <= 4 * Z.of_nat (length (List.filter
                                  (fun c => Nat.eqb (FavoriteCity.user c) (User.id user))
                                  (favorites db))))%Z /\
    sweep_frame db db'.
Proof.
  unfold SendWeatherAlerts.check_user_alerts, FavoriteCity_objects_filter.
  unfold bind, gets.
  set (cities := List.filter _ (favorites db)).
  destruct cities as [|city rest] eqn:Hcities.
  - exists 0%Z, db. cbn. split; [reflexivity|]. split; [lia | apply sweep_frame_refl].
  - rewrite <- Hcities. unfold with_local.
    pose proof (cities_loop_within env user dry_run cities 0%Z db) as [Hn Hf].
    pose proof (for_each_returns cities (SendWeatherAlerts.check_city env user dry_run) (0%Z, db)
                  (check_city_returns env user dry_run)) as Hret.
    destruct (for_each cities _ (0%Z, db)) as [[e | []] [n db']]; cbn in *; [discriminate|].
    exists n, db'. split; [reflexivity|]. split; [lia | exact Hf].
Qed.


(** X5.  [check_user_alerts] never raises, whatever the provider, the
    templates and the mail transport do.  The number it reports is between
    zero and four times the number of the user's favourite cities, and the
    state it leaves is within the frame: clock, users, profiles,
    favourites, history and forecasts are as before, the alert table has
    not got shorter, the key counter has not gone back, and the audit
    table and the outbox keep every row they held. *)
Theorem check_user_alerts_is_bounded (env : Env) (user : User.t) (dry_run : bool) (db : DB) :
  exists alerts_sent db',
    SendWeatherAlerts.check_user_alerts env user dry_run db = (inr alerts_sent, db') /\
    (0 <= alerts_sent
       <= 4 * Z.of_nat (length (List.filter
                                  (fun c => Nat.eqb (FavoriteCity.user c) (User.id user))
                                  (favorites db))))%Z /\
    sweep_frame db db'.
Proof. apply check_user_alerts_run. Qed.

Lemma handle_loop_frame (env : Env) (dry_run : bool) (users : list User.t) (db : DB) :
  sweep_frame db
    (fold_left (fun d u => snd (SendWeatherAlerts.check_user_alerts env u dry_run d)) users db).
Proof.
  revert db. induction users as [|user rest IH]; intros db; cbn [fold_left].
  - apply sweep_frame_refl.
  - destruct (check_user_alerts_run env user dry_run db) as (n & db' & Hrun & _ & Hf).
    rewrite Hrun. cbn [snd]. apply sweep_frame_trans with db'; [exact Hf | apply IH].
Qed.

Lemma check_city_dry_run (env : Env) (user : User.t) (city : FavoriteCity.t) (st : Z * DB) :
  SendWeatherAlerts.check_city env user true city st = (inr tt, st).
Proof.
  unfold SendWeatherAlerts.check_city, try_except. unfold bind at 1.
  rewrite get_weather_data_pure.
  destruct (fst (WeatherNotificationService.get_weather_data env _ tt)) as [e | [w|]];
    cbn; try reflexivity.
  destruct (match Weather.main w with Some _ => true | None => false end); [|reflexivity].
  unfold bind at 1.
  destruct (analyze_either env w city st) as [[e Hrun] | (l & Hrun & _)]; rewrite Hrun;
    [reflexivity|].
  rewrite for_each_noop by (intros [kind message] s'; reflexivity). reflexivity.
Qed.

Lemma check_user_alerts_dry_run (env : Env) (user : User.t) (db : DB) :
  SendWeatherAlerts.check_user_alerts env user true db = (inr 0%Z, db).
Proof.
  unfold SendWeatherAlerts.check_user_alerts, FavoriteCity_objects_filter, bind, gets.
  destruct (List.filter _ (favorites db)) as [|city rest] eqn:Hcities; [reflexivity|].
  unfold with_local.
  rewrite for_each_noop by (intros c s'; apply check_city_dry_run). reflexivity.
Qed.

Lemma fold_left_fixed {A} (step : DB -> A -> DB) (xs : list A) (db : DB) :
  (forall d x, step d x = d) -> fold_left step xs db = db.
Proof.
  intros Hstep. induction xs as [|x xs IH]; cbn [fold_left]; [reflexivity|].
  rewrite Hstep. exact IH.
Qed.

(** X6.  The alert sweep command never raises: for every choice of
    [--user] and [--dry-run], every provider, template engine and mail
    transport, [handle] returns normally, and the state it leaves is
    within the frame: clock, users, profiles, favourites, history and
    forecasts as before; the alert table no shorter, the key counter not
    gone back, the audit table and the outbox with every row they
    held. *)
Theorem alert_sweep_command_returns (env : Env) (options_user : option string)
    (dry_run : bool) (db : DB) :
  exists db',
    SendWeatherAlerts.handle env options_user dry_run db = (inr tt, db') /\
    sweep_frame db db'.
Proof.
  unfold SendWeatherAlerts.handle, SendWeatherAlerts.handle_with.
  destruct (option_given options_user) as [username|].
  - unfold try_except, User_objects_get. unfold bind at 1.
    destruct (find _ (users db)) as [user|].
    + destruct (check_user_alerts_run env user dry_run db) as (n & db' & Hrun & _ & Hf).
      unfold bind. rewrite Hrun. exists db'. split; [reflexivity | exact Hf].
    + exists db. split; [reflexivity | apply sweep_frame_refl].
  - unfold User_objects_filter. unfold bind at 1. unfold gets.
    match goal with
    | |- context [SendWeatherAlerts.handle_loop ?check dry_run ?us 0%Z 0%Z] =>
        destruct (alerts_handle_loop_run check dry_run us 0 0 db) as [counters Hrun];
        pose proof (handle_loop_frame env dry_run us db) as Hf
    end.
    unfold bind. rewrite Hrun. eexists. split; [reflexivity | exact Hf].
Qed.

(** X7.  With [--dry-run] the alert sweep command changes nothing at
    all: for every choice of [--user] it returns normally with the state
    it was given, so no alert row, no audit row and no message to the
    transport comes out of it. *)
Theorem alert_sweep_dry_run_changes_nothing (env : Env) (options_user : option string)
    (db : DB) :
  SendWeatherAlerts.handle env options_user true db = (inr tt, db).
Proof.
  unfold SendWeatherAlerts.handle, SendWeatherAlerts.handle_with.
  destruct (option_given options_user) as [username|].
  - unfold try_except, User_objects_get. unfold bind at 1.
    destruct (find _ (users db)) as [user|]; [|reflexivity].
    unfold bind. rewrite check_user_alerts_dry_run. reflexivity.
  - unfold User_objects_filter. unfold bind at 1. unfold gets.
    match goal with
    | |- context [SendWeatherAlerts.handle_loop ?check true ?us 0%Z 0%Z] =>
        destruct (alerts_handle_loop_run check true us 0 0 db) as [counters Hrun]
    end.
    unfold bind. rewrite Hrun.
    rewrite fold_left_fixed by (intros d x; rewrite check_user_alerts_dry_run; reflexivity).
    reflexivity.
Qed.

(** X8.  The daily-summary command with [--dry-run] changes nothing
    either, and for a [--user] that does not exist both sweep commands
    return normally with the state untouched, dry run or not. *)
Theorem sweeps_do_nothing_when_dry_or_user_unknown (env : Env) :
  (forall options_user db,
     SendDailySummaries.handle env options_user true db = (inr tt, db)) /\
  (forall username dry_run db,
     username <> "" ->
     List.find (fun u => String.eqb (User.username u) username) (users db) = None ->
     SendWeatherAlerts.handle env (Some username) dry_run db = (inr tt, db) /\
     SendDailySummaries.handle env (Some username) dry_run db = (inr tt, db)).
Proof.
  split.
  - intros options_user db.
    unfold SendDailySummaries.handle, SendDailySummaries.handle_with.
    destruct (option_given options_user) as [username|].
    + unfold try_except, User_objects_get. unfold bind at 1.
      destruct (find _ (users db)) as [user|]; reflexivity.
    + unfold User_objects_filter. unfold bind at 1. unfold gets.
      match goal with
      | |- context [SendDailySummaries.handle_loop ?send true ?us 0%Z 0%Z] =>
          destruct (summaries_handle_loop_run send true us 0 0 db) as [counters Hrun]
      end.
      unfold bind. rewrite Hrun.
      rewrite fold_left_fixed by (intros d x; reflexivity). reflexivity.
  - intros username dry_run db Hname Hfind.
    assert (Hgiven : option_given (Some username) = Some username).
    { destruct username; [contradiction | reflexivity]. }
    unfold SendWeatherAlerts.handle, SendWeatherAlerts.handle_with,
           SendDailySummaries.handle, SendDailySummaries.handle_with.
    rewrite Hgiven. unfold try_except, User_objects_get, bind. rewrite Hfind.
    split; reflexivity.
Qed.

Lemma sweeps_do_nothing_when_dry_or_user_unknown_witness :
  SendWeatherAlerts.handle env_203 (Some "mallory") false (sample_db profile_active [london])
  = (inr tt, sample_db profile_active [london]).
Proof.
  destruct (sweeps_do_nothing_when_dry_or_user_unknown env_203) as [_ Hunknown].
  apply (Hunknown "mallory" false (sample_db profile_active [london])).
  - discriminate.
  - reflexivity.
Defined.

(* ================================================================== *)
(** * A whole sweep for an eligible user *)

Lemma reading_snapshot (w : Weather.t) (temperature : Q) (description : string) :
  reading w = Some (temperature, description) <-> snapshot_of w temperature description.
Proof.
  unfold reading, snapshot_of. split.
  - destruct (Weather.main w) as [[[t|] feels humidity]|]; cbn; try discriminate;
      destruct (Weather.weather w) as [[|[[d|] icon] rest]|]; cbn; try discriminate.
    intros [= <- <-]. repeat eexists.
  - intros (main & feels & humidity & icon & rest & -> & -> & ->). reflexivity.
Qed.

Lemma reading_none (w : Weather.t) : reading w = None -> incomplete w.
Proof.
  intros Hnone. destruct (incomplete_or_snapshot w) as [H | (t & d & Hsnap)]; [exact H|].
  apply reading_snapshot in Hsnap. congruence.
Qed.

Lemma check_city_incomplete (env : Env) (user : User.t) (dry_run : bool)
    (city : FavoriteCity.t) (w : Weather.t) (st : Z * DB) :
  (forall S (s : S),
     WeatherNotificationService.get_weather_data env (FavoriteCity.city_name city) s
     = (inr (Some w), s)) ->
  incomplete w ->
  SendWeatherAlerts.check_city env user dry_run city st = (inr tt, st).
Proof.
  intros Hget Hinc.
  unfold SendWeatherAlerts.check_city, try_except. unfold bind at 1. rewrite Hget.
  destruct (has_main (Some w)); [|reflexivity].
  destruct (analyze_incomplete env w city st Hinc) as (e & Hrun & _).
  unfold bind. rewrite Hrun. reflexivity.
Qed.

(** One turn of the command's loop, outside a dry run, for an eligible
    user: it files the city's kinds and counts them. *)
Lemma check_city_turn (env : Env) (user : User.t) (city : FavoriteCity.t)
    (alerts_sent : Z) (db : DB) :
  eligible user db ->
  alert_ids_fresh db ->
  let kinds :=
    city_kinds ["storm"; "thunder"; "severe"; "tornado"; "hurricane"; "hail"] env city in
  exists new db',
    SendWeatherAlerts.check_city env user false city (alerts_sent, db)
    = (inr tt, ((alerts_sent + Z.of_nat (length kinds))%Z, db')) /\
    alerts db' = alerts db ++ new /\
    map WeatherAlert.alert_type new = kinds /\
    Forall (fun a => WeatherAlert.user a = user) new /\
    eligible user db' /\
    alert_ids_fresh db'.
Proof.
  intros Hel Hfresh kinds.
  assert (Hnothing : kinds = [] ->
            SendWeatherAlerts.check_city env user false city (alerts_sent, db)
            = (inr tt, (alerts_sent, db)) ->
            exists new db',
              SendWeatherAlerts.check_city env user false city (alerts_sent, db)
              = (inr tt, ((alerts_sent + Z.of_nat (length kinds))%Z, db')) /\
              alerts db' = alerts db ++ new /\
              map WeatherAlert.alert_type new = kinds /\
              Forall (fun a => WeatherAlert.user a = user) new /\
              eligible user db' /\
              alert_ids_fresh db').
  { intros -> Hrun. exists [], db. rewrite Hrun, app_nil_r. cbn [length].
    rewrite Z.add_0_r. repeat split; auto. }
  unfold kinds, city_kinds in *.
  destruct (fst (WeatherNotificationService.get_weather_data env (FavoriteCity.city_name city) tt))
    as [e | [w|]] eqn:Hget.
  - apply Hnothing; [reflexivity|].
    unfold SendWeatherAlerts.check_city, try_except. unfold bind at 1.
    rewrite get_weather_data_pure, Hget. reflexivity.
  - assert (Hget' : forall S (s : S),
              WeatherNotificationService.get_weather_data env (FavoriteCity.city_name city) s
              = (inr (Some w), s)).
    { intros S s. rewrite get_weather_data_pure, Hget. reflexivity. }
    destruct (reading w) as [[t d]|] eqn:Hreading.
    + apply reading_snapshot in Hreading.
      apply (check_city_files env user city w t d alerts_sent db Hget' Hreading Hel Hfresh).
    + apply Hnothing; [reflexivity|].
      apply reading_none in Hreading.
      apply (check_city_incomplete env user false city w _ Hget' Hreading).
  - apply Hnothing; [reflexivity|].
    apply check_city_unavailable. exists None. split; [reflexivity|].
    intros S s. rewrite get_weather_data_pure, Hget. reflexivity.
Qed.

Lemma cities_loop_turns (env : Env) (user : User.t) (cities : list FavoriteCity.t) :
  forall alerts_sent db,
    eligible user db ->
    alert_ids_fresh db ->
    let kinds :=
      concat (map (city_kinds ["storm"; "thunder"; "severe"; "tornado"; "hurricane"; "hail"] env)
                cities) in
    exists new db',
      for_each cities (SendWeatherAlerts.check_city env user false) (alerts_sent, db)
      = (inr tt, ((alerts_sent + Z.of_nat (length kinds))%Z, db')) /\
      alerts db' = alerts db ++ new /\
      map WeatherAlert.alert_type new = kinds /\
      Forall (fun a => WeatherAlert.user a = user) new /\
      eligible user db' /\
      alert_ids_fresh db'.
Proof.
  induction cities as [|city rest IH]; intros n db Hel Hfresh.
  - exists [], db. cbn. rewrite Z.add_0_r, app_nil_r. repeat split; auto.
  - destruct (check_city_turn env user city n db Hel Hfresh)
      as (new1 & db1 & Hrun1 & Ha1 & Hk1 & Hu1 & Hel1 & Hf1).
    match type of Hrun1 with
    | _ = (_, (?n1, _)) =>
        destruct (IH n1 db1 Hel1 Hf1) as (new2 & db2 & Hrun2 & Ha2 & Hk2 & Hu2 & Hel2 & Hf2)
    end.
    exists (new1 ++ new2), db2.
    cbn [for_each map concat]. unfold bind. rewrite Hrun1, Hrun2.
    split; [f_equal; f_equal; rewrite List.length_app; lia|].
    split; [rewrite Ha2, Ha1, app_assoc; reflexivity|].
    split; [rewrite List.map_app, Hk1, Hk2; reflexivity|].
    split; [apply Forall_app; auto | auto].
Qed.

(** X9.  A whole run of [check_user_alerts] outside a dry run, for an
    eligible user and an alert table with fresh keys.  The rows it files
    are, city by city in the order of the user's favourites, one row for
    each rule that fires on the reading the gateway gives for the city
    (none for a city without a usable reading); they are appended to the
    alert table, all belong to the user, and the number returned is the
    number of rows filed. *)
Theorem check_user_alerts_files_the_fired_rules (env : Env) (user : User.t) (db : DB) :
  eligible user db ->
  alert_ids_fresh db ->
  let cities :=
    List.filter (fun c => Nat.eqb (FavoriteCity.user c) (User.id user)) (favorites db) in
  let kinds :=
    concat (map (city_kinds ["storm"; "thunder"; "severe"; "tornado"; "hurricane"; "hail"] env)
              cities) in
  exists new db',
    SendWeatherAlerts.check_user_alerts env user false db
    = (inr (Z.of_nat (length new)), db') /\
    alerts db' = alerts db ++ new /\
    map WeatherAlert.alert_type new = kinds /\
    Forall (fun a => WeatherAlert.user a = user) new /\
    alert_ids_fresh db'.
Proof.
  intros Hel Hfresh. cbv zeta.
  unfold SendWeatherAlerts.check_user_alerts, FavoriteCity_objects_filter, bind, gets.
  set (cities := List.filter _ (favorites db)).
  destruct (cities_loop_turns env user cities 0%Z db Hel Hfresh)
    as (new & db' & Hrun & Ha & Hk & Hu & _ & Hf).
  cbv zeta in Hrun, Hk.
  assert (Hlen : length new = length (concat (map (city_kinds
            ["storm"; "thunder"; "severe"; "tornado"; "hurricane"; "hail"] env) cities))).
  { rewrite <- Hk. symmetry. apply List.length_map. }
  rewrite <- Hlen in Hrun. rewrite Z.add_0_l in Hrun.
  destruct cities as [|city rest].
  - exists [], db. cbn. rewrite app_nil_r. repeat split; auto.
  - unfold with_local. rewrite Hrun. exists new, db'. repeat split; auto.
Qed.

Lemma check_user_alerts_files_the_fired_rules_witness :
  let env :=
    sample_env (inr (mk_response 200 (Some (sample_payload 40 "Thunderstorm with heavy rain"))))
      (Some SMTPException) in
  exists new db',
    SendWeatherAlerts.check_user_alerts env alice false (sample_db profile_active [london])
    = (inr (Z.of_nat (length new)), db') /\
    map WeatherAlert.alert_type new = ["temperature_high"; "rain"; "severe"].
Proof.
  cbv zeta.
  destruct (check_user_alerts_files_the_fired_rules
              (sample_env (inr (mk_response 200
                 (Some (sample_payload 40 "Thunderstorm with heavy rain")))) (Some SMTPException))
              alice (sample_db profile_active [london]))
    as (new & db' & Hrun & _ & Hk & _).
  - exists profile_active. repeat split.
  - constructor.
  - exists new, db'. split; [exact Hrun | exact Hk].
Defined.

(* ================================================================== *)
(** * The service's own sweep *)

Lemma check_favorite_city_turn (env : Env) (user : User.t) (city : FavoriteCity.t) (db : DB) :
  eligible user db ->
  alert_ids_fresh db ->
  (exists weather_data,
     fst (WeatherNotificationService.get_weather_data env (FavoriteCity.city_name city) tt)
     = inr weather_data) ->
  exists new db',
    WeatherNotificationService.check_favorite_city env user city db = (inr tt, db') /\
    alerts db' = alerts db ++ new /\
    map WeatherAlert.alert_type new
    = city_kinds ["storm"; "thunder"; "severe"; "tornado"; "hurricane"] env city /\
    Forall (fun a => WeatherAlert.user a = user) new /\
    eligible user db' /\
    alert_ids_fresh db'.
Proof.
  intros Hel Hfresh [wd Hget].
  unfold WeatherNotificationService.check_favorite_city, city_kinds. unfold bind at 1.
  rewrite get_weather_data_pure, Hget.
  assert (Hnothing : exists new db',
            (@inr exn unit tt, db) = (inr tt, db') /\
            alerts db' = alerts db ++ new /\
            map WeatherAlert.alert_type new = [] /\
            Forall (fun a => WeatherAlert.user a = user) new /\
            eligible user db' /\
            alert_ids_fresh db').
  { exists [], db. rewrite app_nil_r. repeat split; auto. }
  destruct wd as [w|]; [|exact Hnothing].
  destruct (reading w) as [[t d]|] eqn:Hreading.
  - apply reading_snapshot in Hreading.
    assert (Hmain : has_main (Some w) = true).
    { destruct Hreading as (main & _ & _ & _ & _ & Hmain & _). cbn. rewrite Hmain. reflexivity. }
    rewrite Hmain. cbn [when].
    apply (check_weather_conditions_files env user city w t d Hreading db Hel Hfresh).
  - apply reading_none in Hreading.
    destruct (has_main (Some w)); cbn [when]; [|exact Hnothing].
    rewrite (checker_incomplete env user city w db Hreading). exact Hnothing.
Qed.

Lemma check_favorite_city_raises (env : Env) (user : User.t) (city : FavoriteCity.t)
    (e : exn) (db : DB) :
  fst (WeatherNotificationService.get_weather_data env (FavoriteCity.city_name city) tt) = inl e ->
  WeatherNotificationService.check_favorite_city env user city db = (inl e, db).
Proof.
  intros Hget. unfold WeatherNotificationService.check_favorite_city. unfold bind.
  rewrite get_weather_data_pure, Hget. reflexivity.
Qed.

Lemma favorite_cities_turns (env : Env) (user : User.t) (cities : list FavoriteCity.t) :
  forall db,
    eligible user db ->
    alert_ids_fresh db ->
    Forall (fun city =>
      exists weather_data,
        fst (WeatherNotificationService.get_weather_data env (FavoriteCity.city_name city) tt)
        = inr weather_data) cities ->
    exists new db',
      for_each cities (WeatherNotificationService.check_favorite_city env user) db
      = (inr tt, db') /\
      alerts db' = alerts db ++ new /\
      map WeatherAlert.alert_type new
      = concat (map (city_kinds ["storm"; "thunder"; "severe"; "tornado"; "hurricane"] env)
                  cities) /\
      Forall (fun a => WeatherAlert.user a = user) new /\
      eligible user db' /\
      alert_ids_fresh db'.
Proof.
  induction cities as [|city rest IH]; intros db Hel Hfresh Hfetch.
  - exists [], db. cbn. rewrite app_nil_r. repeat split; auto.
  - apply Forall_cons in Hfetch. destruct Hfetch as [Hcity Hrest].
    destruct (check_favorite_city_turn env user city db Hel Hfresh Hcity)
      as (new1 & db1 & Hrun1 & Ha1 & Hk1 & Hu1 & Hel1 & Hf1).
    destruct (IH db1 Hel1 Hf1 Hrest) as (new2 & db2 & Hrun2 & Ha2 & Hk2 & Hu2 & Hel2 & Hf2).
    exists (new1 ++ new2), db2.
    cbn [for_each map concat]. unfold bind. rewrite Hrun1, Hrun2.
    split; [reflexivity|].
    split; [rewrite Ha2, Ha1, app_assoc; reflexivity|].
    split; [rewrite List.map_app, Hk1, Hk2; reflexivity|].
    split; [apply Forall_app; auto | auto].
Qed.

Lemma for_each_stops {S A} (body : A -> M S unit) (before after : list A) (x : A)
    (e : exn) (s s1 : S) :
  for_each before body s = (inr tt, s1) ->
  body x s1 = (inl e, s1) ->
  for_each (before ++ x :: after) body s = (inl e, s1).
Proof.
  revert s. induction before as [|y before IH]; intros s Hbefore Hx.
  - cbn in Hbefore. injection Hbefore as <-. cbn [app for_each]. unfold bind.
    rewrite Hx. reflexivity.
  - cbn [app for_each] in *. unfold bind in *.
    destruct (body y s) as [[e' | []] s']; [discriminate|]. apply IH; assumption.
Qed.

(** X10.  The service's own sweep, [check_weather_alerts_for_user].  For
    a user who fails the gate it fetches nothing and leaves the state as
    it is.  For an eligible user whose fetches all come back (with data,
    or with [None]) it files, city by city, one row for each rule of the
    service's checker that fires.  Unlike the command's loop it has no
    guard around a city: when the fetch for a city raises an exception
    that is not a [RequestException], the sweep raises that exception
    after the cities before it, and the cities after it are not checked. *)
Theorem service_sweep_files_or_stops (env : Env) (user : User.t) (db : DB) :
  let cities :=
    List.filter (fun c => Nat.eqb (FavoriteCity.user c) (User.id user)) (favorites db) in
  let fetched city :=
    exists weather_data,
      fst (WeatherNotificationService.get_weather_data env (FavoriteCity.city_name city) tt)
      = inr weather_data in
  (~ eligible user db ->
   WeatherNotificationService.check_weather_alerts_for_user env user db = (inr tt, db)) /\
  (eligible user db ->
   alert_ids_fresh db ->
   Forall fetched cities ->
   exists new db',
     WeatherNotificationService.check_weather_alerts_for_user env user db = (inr tt, db') /\
     alerts db' = alerts db ++ new /\
     map WeatherAlert.alert_type new
     = concat (map (city_kinds ["storm"; "thunder"; "severe"; "tornado"; "hurricane"] env)
                 cities) /\
     Forall (fun a => WeatherAlert.user a = user) new) /\
  (eligible user db ->
   alert_ids_fresh db ->
   forall before city after e,
     cities = before ++ city :: after ->
     Forall fetched before ->
     fst (WeatherNotificationService.get_weather_data env (FavoriteCity.city_name city) tt)
     = inl e ->
     exists new db',
       WeatherNotificationService.check_weather_alerts_for_user env user db = (inl e, db') /\
       alerts db' = alerts db ++ new /\
       map WeatherAlert.alert_type new
       = concat (map (city_kinds ["storm"; "thunder"; "severe"; "tornado"; "hurricane"] env)
                   before)).
Proof.
  cbv zeta.
  unfold WeatherNotificationService.check_weather_alerts_for_user, FavoriteCity_objects_filter.
  split; [|split].
  - intros Hnot. unfold bind. rewrite (can_send_not_eligible user db Hnot). reflexivity.
  - intros Hel Hfresh Hfetch. unfold bind at 1. rewrite (can_send_eligible user db Hel).
    cbn [negb]. unfold bind, gets.
    destruct (favorite_cities_turns env user _ db Hel Hfresh Hfetch)
      as (new & db' & Hrun & Ha & Hk & Hu & _).
    exists new, db'. auto.
  - intros Hel Hfresh before city after e Hsplit Hfetch Hraise.
    unfold bind at 1. rewrite (can_send_eligible user db Hel).
    cbn [negb]. unfold bind, gets. rewrite Hsplit.
    destruct (favorite_cities_turns env user before db Hel Hfresh Hfetch)
      as (new & db' & Hrun & Ha & Hk & _).
    exists new, db'. split; [|auto].
    apply for_each_stops; [exact Hrun|].
    apply check_favorite_city_raises. exact Hraise.
Qed.

Lemma service_sweep_files_or_stops_witness :
  let env := sample_env (inl (OtherError "ssl")) None in
  WeatherNotificationService.check_weather_alerts_for_user env alice
    (sample_db profile_active [london])
  = (inl (OtherError "ssl"), sample_db profile_active [london]).
Proof.
  cbv zeta.
  destruct (service_sweep_files_or_stops (sample_env (inl (OtherError "ssl")) None) alice
              (sample_db profile_active [london])) as (_ & _ & Hstop).
  assert (Hel : eligible alice (sample_db profile_active [london]))
    by (exists profile_active; repeat split).
  assert (Hfresh : alert_ids_fresh (sample_db profile_active [london])) by constructor.
  destruct (Hstop Hel Hfresh [] london [] (OtherError "ssl") eq_refl)
    as (new & db' & Hrun & Ha & Hk); [constructor | reflexivity |].
  destruct new as [|a new]; [|discriminate Hk].
  rewrite Hrun. f_equal.
  rewrite app_nil_r in Ha. clear Hk.
  vm_compute in Hrun. injection Hrun as <-. reflexivity.
Defined.

(** X11.  None of the dispatcher's operations, nor the service's checker
    and sweep, ever touches the clock, the users, their profiles and
    favourites, the search history or the forecasts, whatever they return
    or raise; the alert table never gets shorter, the key counter never
    goes back, and the audit table and the outbox keep every row they
    held. *)
Theorem dispatch_stays_within_the_frame (env : Env) (user : User.t) :
  (forall alert, keeps_frame (WeatherNotificationService.send_weather_alert_email env alert)) /\
  (forall city_name temperature alert_type,
     keeps_frame (WeatherNotificationService.create_temperature_alert env user city_name
                    temperature alert_type)) /\
  (forall city_name description,
     keeps_frame (WeatherNotificationService.create_rain_alert env user city_name description)) /\
  (forall city_name description,
     keeps_frame (WeatherNotificationService.create_severe_weather_alert env user city_name
                    description)) /\
  (forall city w,
     keeps_frame (WeatherNotificationService.check_weather_conditions_for_alerts env user
                    city w)) /\
  keeps_frame (WeatherNotificationService.check_weather_alerts_for_user env user).
Proof.
  split; [|split; [|split; [|split; [|split]]]]; intros.
  - apply keeps_frame_send_alert_email.
  - apply keeps_frame_create_temperature.
  - apply keeps_frame_create_rain.
  - apply keeps_frame_create_severe.
  - apply keeps_frame_checker.
  - apply keeps_frame_service_sweep.
Qed.

(* ================================================================== *)
(** * The daily summary *)

Lemma collect_summary_rows_result (env : Env) (cities : list FavoriteCity.t) :
  forall rows : list SummaryRow,
    exists r, forall S (s : S),
      WeatherNotificationService.collect_summary_rows env cities rows s = (r, s).
Proof.
  induction cities as [|city rest IH]; intros rows.
  - exists (inr rows). reflexivity.
  - destruct (fst (WeatherNotificationService.get_weather_data env
                     (FavoriteCity.city_name city) tt)) as [e | [w|]] eqn:Hget.
    + eexists. intros S s. cbn [WeatherNotificationService.collect_summary_rows].
      unfold bind at 1. rewrite get_weather_data_pure, Hget. reflexivity.
    + destruct (Weather.main w) as [[temp feels humidity]|] eqn:Hmain.
      * destruct temp as [temp|];
          [destruct (Weather.weather w) as [[|[description icon] more]|] eqn:Hweather;
             [| destruct description as [description|];
                  [destruct icon as [icon|];
                     [destruct humidity as [humidity|];
                        [destruct feels as [feels|] | ] | ] | ] | ] | ].
        all: try (eexists; intros S s;
                  cbn [WeatherNotificationService.collect_summary_rows];
                  unfold bind at 1; rewrite get_weather_data_pure, Hget;
                  cbn [has_main]; rewrite Hmain; monad_unfold; cbn;
                  rewrite ?Hweather; cbn; reflexivity).
        edestruct IH as [r Hr]. exists r. intros S s.
        cbn [WeatherNotificationService.collect_summary_rows].
        unfold bind at 1. rewrite get_weather_data_pure, Hget.
        cbn [has_main]. rewrite Hmain. monad_unfold. cbn. rewrite Hweather. cbn.
        apply Hr.
      * destruct (IH rows) as [r Hr]. exists r. intros S s.
        cbn [WeatherNotificationService.collect_summary_rows].
        unfold bind at 1. rewrite get_weather_data_pure, Hget.
        cbn [has_main]. rewrite Hmain. apply Hr.
    + destruct (IH rows) as [r Hr]. exists r. intros S s.
      cbn [WeatherNotificationService.collect_summary_rows].
      unfold bind at 1. rewrite get_weather_data_pure, Hget. apply Hr.
Qed.

Lemma collect_summary_rows_pure (env : Env) (cities : list FavoriteCity.t)
    (rows : list SummaryRow) {S} (s : S) :
  WeatherNotificationService.collect_summary_rows env cities rows s
  = (fst (WeatherNotificationService.collect_summary_rows env cities rows tt), s).
Proof.
  destruct (collect_summary_rows_result env cities rows) as [r Hr].
  rewrite (Hr S s), (Hr unit tt). reflexivity.
Qed.

Lemma collect_summary_rows_unavailable (env : Env) (cities : list FavoriteCity.t) :
  Forall (fun city => unavailable env (FavoriteCity.city_name city)) cities ->
  forall (rows : list SummaryRow) S (s : S),
    WeatherNotificationService.collect_summary_rows env cities rows s = (inr rows, s).
Proof.
  induction 1 as [|city rest (wd & Hmain & Hget) _ IH]; intros rows S s; [reflexivity|].
  cbn [WeatherNotificationService.collect_summary_rows]. unfold bind at 1. rewrite Hget.
  destruct wd as [w|]; [|apply IH].
  rewrite Hmain. apply IH.
Qed.

(** What one call of [send_daily_weather_summary] does. *)
Lemma send_daily_weather_summary_run (env : Env) (user : User.t) (db : DB) :
  exists b db',
    WeatherNotificationService.send_daily_weather_summary env user db = (inr b, db') /\
    alerts db' = alerts db /\
    next_alert_id db' = next_alert_id db /\
    (b = false -> notifications db' = notifications db) /\
    (b = true ->
       eligible user db /\
       (exists p, profiles db !! User.id user = Some p /\ UserProfile.daily_summary p = true) /\
       List.filter (fun c => Nat.eqb (FavoriteCity.user c) (User.id user)) (favorites db) <> [] /\
       exists email row,
         outbox db' = outbox db ++ [email] /\
         transport env email = None /\
         EmailMessage.to email = [User.email user] /\
         notifications db' = notifications db ++ [row] /\
         EmailNotification.user row = user /\
         EmailNotification.email_type row = "daily_summary" /\
         EmailNotification.is_sent row = true /\
         EmailNotification.sent_at row = Some (clock db) /\
         EmailNotification.subject row = EmailMessage.subject email /\
         EmailNotification.message row = EmailMessage.body email).
Proof.
  assert (Hno : exists b db',
            (@inr exn bool false, db) = (inr b, db') /\
            alerts db' = alerts db /\
            next_alert_id db' = next_alert_id db /\
            (b = false -> notifications db' = notifications db) /\
            (b = true ->
               eligible user db /\
               (exists p, profiles db !! User.id user = Some p /\
                          UserProfile.daily_summary p = true) /\
               List.filter (fun c => Nat.eqb (FavoriteCity.user c) (User.id user))
                 (favorites db) <> [] /\
               exists email row,
                 outbox db' = outbox db ++ [email] /\
                 transport env email = None /\
                 EmailMessage.to email = [User.email user] /\
                 notifications db' = notifications db ++ [row] /\
                 EmailNotification.user row = user /\
                 EmailNotification.email_type row = "daily_summary" /\
                 EmailNotification.is_sent row = true /\
                 EmailNotification.sent_at row = Some (clock db) /\
                 EmailNotification.subject row = EmailMessage.subject email /\
                 EmailNotification.message row = EmailMessage.body email)).
  { exists false, db. repeat split; auto; discriminate. }
  unfold WeatherNotificationService.send_daily_weather_summary, try_except.
  unfold bind at 1. unfold UserProfile_objects_get.
  destruct (profiles db !! User.id user) as [p|] eqn:Hp; [|exact Hno].
  unfold bind at 1.
  destruct (UserProfile.daily_summary p) eqn:Hdaily; cbn [negb]; [|exact Hno].
  unfold bind at 1.
  destruct (can_send_run user db) as (g & Hgate & Hg). rewrite Hgate.
  destruct g; cbn [negb]; [|exact Hno].
  pose proof (proj1 Hg eq_refl) as Hel.
  unfold ret at 1. unfold bind at 1. unfold FavoriteCity_objects_filter, gets.
  set (cities := List.filter _ (favorites db)).
  destruct (firstn 5 cities) as [|city rest] eqn:Hfirst; [exact Hno|].
  assert (Hcities : cities <> []).
  { intros Hnil. rewrite Hnil in Hfirst. discriminate. }
  unfold bind at 1. rewrite collect_summary_rows_pure.
  destruct (fst (WeatherNotificationService.collect_summary_rows env (city :: rest) [] tt))
    as [e | [|row0 rows]]; [exact Hno | exact Hno |].
  unfold timezone_now, WeatherNotificationService.email_send,
         EmailNotification_objects_create.
  monad_unfold.
  destruct (render_to_string env _ _) as [e | html]; [exact Hno|].
  destruct (transport env _) as [e|] eqn:Htr.
  - exists false. eexists. split; [reflexivity|].
    destruct db; cbn. repeat split; auto; discriminate.
  - clear Hno. destruct db as [now us ps fs hs fcs als nid ns ob]. cbn in *.
    exists true. eexists. split; [reflexivity|]. cbn.
    split; [reflexivity|]. split; [reflexivity|].
    split; [discriminate|]. intros _.
    split; [exact Hel|]. split; [exists p; auto|]. split; [exact Hcities|].
    eexists. eexists. split; [reflexivity|].
    split; [exact Htr|]. cbn. repeat split; reflexivity.
Qed.

(** X12.  [send_daily_weather_summary] never raises and never touches
    the alert table.  When it answers true, the user passes the gate, has
    [daily_summary] on and at least one favourite city; exactly one
    message, addressed to the user, was handed to the transport and
    accepted, and exactly one audit row of type [daily_summary], marked
    as sent, with the message's subject and body, was appended.  When it
    answers false the audit table is as before. *)
Theorem daily_summary_outcome (env : Env) (user : User.t) (db : DB) :
  exists b db',
    WeatherNotificationService.send_daily_weather_summary env user db = (inr b, db') /\
    alerts db' = alerts db /\
    next_alert_id db' = next_alert_id db /\
    (b = false -> notifications db' = notifications db) /\
    (b = true ->
       eligible user db /\
       (exists p, profiles db !! User.id user = Some p /\ UserProfile.daily_summary p = true) /\
       List.filter (fun c => Nat.eqb (FavoriteCity.user c) (User.id user)) (favorites db) <> [] /\
       exists email row,
         outbox db' = outbox db ++ [email] /\
         transport env email = None /\
         EmailMessage.to email = [User.email user] /\
         notifications db' = notifications db ++ [row] /\
         EmailNotification.user row = user /\
         EmailNotification.email_type row = "daily_summary" /\
         EmailNotification.is_sent row = true /\
         EmailNotification.sent_at row = Some (clock db) /\
         EmailNotification.subject row = EmailMessage.subject email /\
         EmailNotification.message row = EmailMessage.body email).
Proof. apply send_daily_weather_summary_run. Qed.

(** X13.  [send_daily_weather_summary] answers false and leaves the
    whole state as it is, without handing anything to the transport, in
    each of these cases: the user has no profile; [daily_summary] is off;
    the user fails the gate; the user has no favourite city; or none of
    the user's first five favourite cities has usable weather (whatever
    the later ones have). *)
Theorem daily_summary_is_refused (env : Env) (user : User.t) (db : DB) :
  let cities :=
    List.filter (fun c => Nat.eqb (FavoriteCity.user c) (User.id user)) (favorites db) in
  profiles db !! User.id user = None \/
  (exists p, profiles db !! User.id user = Some p /\ UserProfile.daily_summary p = false) \/
  ~ eligible user db \/
  Forall (fun city => unavailable env (FavoriteCity.city_name city)) (firstn 5 cities) ->
  WeatherNotificationService.send_daily_weather_summary env user db = (inr false, db).
Proof.
  intros cities Hcase.
  unfold WeatherNotificationService.send_daily_weather_summary, try_except.
  unfold bind at 1. unfold UserProfile_objects_get.
  destruct (profiles db !! User.id user) as [p|] eqn:Hp; [|reflexivity].
  unfold bind at 1.
  destruct (UserProfile.daily_summary p) eqn:Hdaily; cbn [negb]; [|reflexivity].
  unfold bind at 1.
  destruct (can_send_run user db) as (g & Hgate & Hg). rewrite Hgate.
  destruct g; cbn [negb]; [|reflexivity].
  destruct Hcase as [[=] | [(q & [= <-] & Hq) | [Hnot | Hun]]].
  - congruence.
  - exfalso. apply Hnot, Hg. reflexivity.
  - unfold ret at 1. unfold bind at 1. unfold FavoriteCity_objects_filter, gets.
    fold cities. destruct (firstn 5 cities) as [|city rest] eqn:Hfirst; [reflexivity|].
    unfold bind at 1. rewrite (collect_summary_rows_unavailable env _ Hun). reflexivity.
Qed.

Lemma daily_summary_is_refused_witness :
  WeatherNotificationService.send_daily_weather_summary env_timeout alice
    (sample_db profile_active [london])
  = (inr false, sample_db profile_active [london]).
Proof.
  apply (daily_summary_is_refused env_timeout alice (sample_db profile_active [london])).
  right. right. right.
  constructor; [|constructor].
  exists None. split; [reflexivity | intros S s; reflexivity].
Defined.

(* ================================================================== *)
(** * More on the retention cleanup *)

Lemma filter_sublist {A} (keep : A -> bool) (l : list A) : sublist (List.filter keep l) l.
Proof.
  induction l as [|x l IH]; cbn [List.filter]; [constructor|].
  destruct (keep x); [apply sublist_skip | apply sublist_cons]; exact IH.
Qed.

Lemma cleanup_keeps_refl (db : DB) : cleanup_keeps db db.
Proof. unfold cleanup_keeps. repeat split; auto. Qed.

Lemma cleanup_keeps_trans (db1 db2 db3 : DB) :
  cleanup_keeps db1 db2 -> cleanup_keeps db2 db3 -> cleanup_keeps db1 db3.
Proof.
  unfold cleanup_keeps.
  intros (Hc1 & Hu1 & Hp1 & Hf1 & Hi1 & Ho1 & Hh1 & Hfc1 & Ha1 & Hn1 & Hua1 & Hun1)
         (Hc2 & Hu2 & Hp2 & Hf2 & Hi2 & Ho2 & Hh2 & Hfc2 & Ha2 & Hn2 & Hua2 & Hun2).
  split; [congruence|]. split; [congruence|]. split; [congruence|]. split; [congruence|].
  split; [congruence|]. split; [congruence|].
  split; [etransitivity; eassumption|]. split; [etransitivity; eassumption|].
  split; [etransitivity; eassumption|]. split; [etransitivity; eassumption|].
  split; auto.
Qed.

Lemma cleanup_safe_ret {A} (a : A) : cleanup_safe (ret a).
Proof. intros db. apply cleanup_keeps_refl. Qed.

Lemma cleanup_safe_gets {A} (f : DB -> A) : cleanup_safe (gets f).
Proof. intros db. apply cleanup_keeps_refl. Qed.

Lemma cleanup_safe_timedelta (us : Z) : cleanup_safe (PyDatetime.timedelta us).
Proof. intros db. rewrite timedelta_keeps_state. apply cleanup_keeps_refl. Qed.

Lemma cleanup_safe_sub (t delta : Z) : cleanup_safe (PyDatetime.sub t delta).
Proof. intros db. rewrite sub_keeps_state. apply cleanup_keeps_refl. Qed.

Lemma cleanup_safe_bind {A B} (c : M DB A) (k : A -> M DB B) :
  cleanup_safe c -> (forall a, cleanup_safe (k a)) -> cleanup_safe (bind c k).
Proof.
  intros Hc Hk db. unfold bind. specialize (Hc db).
  destruct (c db) as [[e | a] db1]; cbn in *; [exact Hc|].
  apply cleanup_keeps_trans with db1; [exact Hc | apply Hk].
Qed.

Lemma cleanup_safe_when (b : bool) (c : M DB unit) :
  cleanup_safe c -> cleanup_safe (when b c).
Proof. destruct b; [auto | intros _; apply cleanup_safe_ret]. Qed.

Lemma cleanup_safe_history (selected : WeatherHistory.t -> bool) :
  cleanup_safe (modify (set_history (CleanupOldData.delete selected))).
Proof.
  intros db. destruct db. unfold cleanup_keeps, modify, set_history. cbn.
  repeat split; auto. apply filter_sublist.
Qed.

Lemma cleanup_safe_forecasts (selected : WeatherForecast.t -> bool) :
  cleanup_safe (modify (set_forecasts (CleanupOldData.delete selected))).
Proof.
  intros db. destruct db. unfold cleanup_keeps, modify, set_forecasts. cbn.
  repeat split; auto. apply filter_sublist.
Qed.

Lemma cleanup_safe_alerts (cutoff_date : Z) :
  cleanup_safe (modify (set_alerts (CleanupOldData.delete (CleanupOldData.old_alert cutoff_date)))).
Proof.
  intros db. destruct db. unfold cleanup_keeps, modify, set_alerts. cbn.
  repeat split; auto; [apply filter_sublist|].
  intros a Hin Hunsent. apply List.filter_In. split; [exact Hin|].
  unfold CleanupOldData.old_alert. rewrite Hunsent, andb_false_r. reflexivity.
Qed.

Lemma cleanup_safe_notifications (cutoff_date : Z) :
  cleanup_safe
    (modify (set_notifications
               (CleanupOldData.delete (CleanupOldData.old_notification cutoff_date)))).
Proof.
  intros db. destruct db. unfold cleanup_keeps, modify, set_notifications. cbn.
  repeat split; auto; [apply filter_sublist|].
  intros n Hin Hunsent. apply List.filter_In. split; [exact Hin|].
  unfold CleanupOldData.old_notification. rewrite Hunsent, andb_false_r. reflexivity.
Qed.

Ltac cleanup_safe_tac :=
  repeat first
    [ apply cleanup_safe_ret
    | apply cleanup_safe_gets
    | apply cleanup_safe_timedelta
    | apply cleanup_safe_sub
    | apply cleanup_safe_history
    | apply cleanup_safe_forecasts
    | apply cleanup_safe_alerts
    | apply cleanup_safe_notifications
    | apply cleanup_safe_when
    | apply cleanup_safe_bind; intros
    | match goal with |- cleanup_safe (if ?b then _ else _) => destruct b end ].

(** X14.  Whatever its options, and whether it returns or raises, the
    cleanup command changes nothing but the four tables it prunes: clock,
    users, profiles, favourites, the key counter and the outbox are as
    before.  In the four tables rows can only be removed, the others
    keeping their order; and an alert or an audit row that is not marked
    as sent is never removed, however old it is. *)
Theorem cleanup_never_touches_the_rest (opts : CleanupOldData.options) (db : DB) :
  cleanup_keeps db (snd (CleanupOldData.handle opts db)).
Proof.
  revert db. fold (cleanup_safe (CleanupOldData.handle opts)).
  unfold CleanupOldData.handle, CleanupOldData.cleanup_weather_history,
    CleanupOldData.cleanup_weather_alerts, CleanupOldData.cleanup_email_notifications,
    CleanupOldData.cleanup_forecasts, PyDatetime.timedelta_days, PyDatetime.timedelta_hours,
    timezone_now.
  cleanup_safe_tac.
Qed.

(** The result of a real run, table by table. *)
Lemma cleanup_handle_run (N M K H : Z) (db : DB) :
  cutoff_in_range (clock db) (N * PyDatetime.us_per_day) ->
  cutoff_in_range (clock db) (M * PyDatetime.us_per_day) ->
  cutoff_in_range (clock db) (K * PyDatetime.us_per_day) ->
  cutoff_in_range (clock db) (H * PyDatetime.us_per_hour) ->
  let old_h := CleanupOldData.old_history (clock db - N * PyDatetime.us_per_day) in
  let old_a := CleanupOldData.old_alert (clock db - M * PyDatetime.us_per_day) in
  let old_n := CleanupOldData.old_notification (clock db - K * PyDatetime.us_per_day) in
  let old_f := CleanupOldData.old_forecast (clock db - H * PyDatetime.us_per_hour) in
  CleanupOldData.handle (CleanupOldData.mk_options N M K H false) db
  = (inr (0 + CleanupOldData.count old_h (history db)
            + CleanupOldData.count old_a (alerts db)
            + CleanupOldData.count old_n (notifications db)
            + CleanupOldData.count old_f (forecasts db))%Z,
     set_forecasts (CleanupOldData.delete old_f)
       (set_notifications (CleanupOldData.delete old_n)
          (set_alerts (CleanupOldData.delete old_a)
             (set_history (CleanupOldData.delete old_h) db)))).
Proof.
  intros H1 H2 H3 H4. cbv zeta.
  unfold CleanupOldData.handle.
  cbn [CleanupOldData.history_days CleanupOldData.alerts_days
       CleanupOldData.notifications_days CleanupOldData.forecast_hours
       CleanupOldData.dry_run].
  unfold bind at 1. rewrite (cleanup_weather_history_run _ db H1).
  unfold bind at 1. rewrite cleanup_weather_alerts_run by (destruct db; exact H2).
  unfold bind at 1. rewrite cleanup_email_notifications_run by (destruct db; exact H3).
  unfold bind at 1. rewrite cleanup_forecasts_run by (destruct db; exact H4).
  destruct db. reflexivity.
Qed.

Lemma cleanup_table_dry {A} (selected : A -> bool) (table : DB -> list A) (db : DB) :
  (let! count := gets (fun d => CleanupOldData.count selected (table d)) in
   run! when (0 <? count)%Z (ret tt) in
   ret count) db
  = (inr (CleanupOldData.count selected (table db)), db).
Proof. monad_unfold. destruct (0 <? _)%Z; reflexivity. Qed.

Lemma cleanup_handle_dry (N M K H : Z) (db : DB) :
  cutoff_in_range (clock db) (N * PyDatetime.us_per_day) ->
  cutoff_in_range (clock db) (M * PyDatetime.us_per_day) ->
  cutoff_in_range (clock db) (K * PyDatetime.us_per_day) ->
  cutoff_in_range (clock db) (H * PyDatetime.us_per_hour) ->
  let old_h := CleanupOldData.old_history (clock db - N * PyDatetime.us_per_day) in
  let old_a := CleanupOldData.old_alert (clock db - M * PyDatetime.us_per_day) in
  let old_n := CleanupOldData.old_notification (clock db - K * PyDatetime.us_per_day) in
  let old_f := CleanupOldData.old_forecast (clock db - H * PyDatetime.us_per_hour) in
  CleanupOldData.handle (CleanupOldData.mk_options N M K H true) db
  = (inr (0 + CleanupOldData.count old_h (history db)
            + CleanupOldData.count old_a (alerts db)
            + CleanupOldData.count old_n (notifications db)
            + CleanupOldData.count old_f (forecasts db))%Z,
     db).
Proof.
  intros H1 H2 H3 H4. cbv zeta.
  unfold CleanupOldData.handle, CleanupOldData.cleanup_weather_history,
    CleanupOldData.cleanup_weather_alerts, CleanupOldData.cleanup_email_notifications,
    CleanupOldData.cleanup_forecasts, PyDatetime.timedelta_days, PyDatetime.timedelta_hours.
  cbn [CleanupOldData.history_days CleanupOldData.alerts_days
       CleanupOldData.notifications_days CleanupOldData.forecast_hours
       CleanupOldData.dry_run].
  unfold bind at 1. cleanup_run_tac H1. rewrite (cleanup_table_dry _ history).
  unfold bind at 1. cleanup_run_tac H2. rewrite (cleanup_table_dry _ alerts).
  unfold bind at 1. cleanup_run_tac H3. rewrite (cleanup_table_dry _ notifications).
  unfold bind at 1. cleanup_run_tac H4. rewrite (cleanup_table_dry _ forecasts).
  reflexivity.
Qed.

(** X15.  A dry run of the cleanup is an accurate preview: when the four
    cutoffs can be computed, the dry run returns the state unchanged
    together with a total, and the real run with the same options returns
    that same total. *)
Theorem cleanup_dry_run_previews_the_real_run (N M K H : Z) (db : DB) :
  cutoff_in_range (clock db) (N * PyDatetime.us_per_day) ->
  cutoff_in_range (clock db) (M * PyDatetime.us_per_day) ->
  cutoff_in_range (clock db) (K * PyDatetime.us_per_day) ->
  cutoff_in_range (clock db) (H * PyDatetime.us_per_hour) ->
  exists total db',
    CleanupOldData.handle (CleanupOldData.mk_options N M K H true) db = (inr total, db) /\
    CleanupOldData.handle (CleanupOldData.mk_options N M K H false) db = (inr total, db').
Proof.
  intros H1 H2 H3 H4.
  eexists. eexists. split.
  - apply (cleanup_handle_dry N M K H db H1 H2 H3 H4).
  - apply (cleanup_handle_run N M K H db H1 H2 H3 H4).
Qed.

Lemma cleanup_dry_run_previews_the_real_run_witness :
  exists total db',
    CleanupOldData.handle (CleanupOldData.mk_options 90 30 60 24 true)
      (db_with_notifications [stale_unsent_notification; stale_sent_notification])
    = (inr total, db_with_notifications [stale_unsent_notification; stale_sent_notification]) /\
    CleanupOldData.handle (CleanupOldData.mk_options 90 30 60 24 false)
      (db_with_notifications [stale_unsent_notification; stale_sent_notification])
    = (inr total, db').
Proof.
  apply (cleanup_dry_run_previews_the_real_run 90 30 60 24
           (db_with_notifications [stale_unsent_notification; stale_sent_notification])).
  all: unfold cutoff_in_range; vm_compute; intuition discriminate.
Defined.

Lemma count_after_delete {A} (selected : A -> bool) (rows : list A) :
  CleanupOldData.count selected (CleanupOldData.delete selected rows) = 0%Z.
Proof.
  unfold CleanupOldData.count, CleanupOldData.delete.
  induction rows as [|r rows IH]; [reflexivity|].
  cbn [List.filter]. destruct (selected r) eqn:Hr; cbn [negb]; [exact IH|].
  cbn [List.filter]. rewrite Hr. exact IH.
Qed.

Lemma delete_twice {A} (selected : A -> bool) (rows : list A) :
  CleanupOldData.delete selected (CleanupOldData.delete selected rows)
  = CleanupOldData.delete selected rows.
Proof. apply delete_nothing_selected, count_after_delete. Qed.

(** X16.  The cleanup is idempotent: right after a real run that
    returned normally, a second run with the same options at the same
    clock finds nothing to delete: it returns the total 0 and leaves the
    state exactly as the first run left it. *)
Theorem cleanup_is_idempotent (N M K H : Z) (db : DB) :
  cutoff_in_range (clock db) (N * PyDatetime.us_per_day) ->
  cutoff_in_range (clock db) (M * PyDatetime.us_per_day) ->
  cutoff_in_range (clock db) (K * PyDatetime.us_per_day) ->
  cutoff_in_range (clock db) (H * PyDatetime.us_per_hour) ->
  exists total db',
    CleanupOldData.handle (CleanupOldData.mk_options N M K H false) db = (inr total, db') /\
    CleanupOldData.handle (CleanupOldData.mk_options N M K H false) db' = (inr 0%Z, db').
Proof.
  intros H1 H2 H3 H4.
  eexists. eexists. split; [apply (cleanup_handle_run N M K H db H1 H2 H3 H4)|].
  cbv zeta.
  rewrite cleanup_handle_run by (destruct db; assumption).
  destruct db as [now us ps fs hs fcs als nid ns ob].
  cbn [clock history alerts notifications forecasts
       set_history set_alerts set_notifications set_forecasts].
  rewrite !count_after_delete.
  cbv [set_forecasts set_notifications set_alerts set_history
       clock users profiles favorites history forecasts alerts next_alert_id
       notifications outbox].
  rewrite !delete_twice. reflexivity.
Qed.

Lemma cleanup_is_idempotent_witness :
  exists total db',
    CleanupOldData.handle (CleanupOldData.mk_options 90 30 60 24 false)
      (db_with_notifications [stale_unsent_notification; stale_sent_notification])
    = (inr total, db') /\
    CleanupOldData.handle (CleanupOldData.mk_options 90 30 60 24 false) db' = (inr 0%Z, db').
Proof.
  apply (cleanup_is_idempotent 90 30 60 24
           (db_with_notifications [stale_unsent_notification; stale_sent_notification])).
  all: unfold cutoff_in_range; vm_compute; intuition discriminate.
Defined.



(* ------------------------------------------------------------------ *)
(** ** Whom the all-users sweeps pick *)

Lemma selected_users (flag test : UserProfile.t -> bool) (db : DB) (u : User.t) :
  (forall p, test p = UserProfile.is_email_verified p && UserProfile.email_notifications p
                      && flag p && negb (UserProfile.is_deactivated p)) ->
  In u (List.filter
          (fun u => match profiles db !! User.id u with
                    | Some p => test p
                    | None => false
                    end) (users db))
  <-> swept flag db u.
Proof.
  intros Htest. unfold swept, eligible. rewrite List.filter_In. split.
  - intros [Hin Hsel].
    destruct (profiles db !! User.id u) as [p|] eqn:Hp; [|discriminate].
    rewrite Htest, !andb_true_iff, negb_true_iff in Hsel.
    destruct Hsel as [[[H1 H2] H3] H4].
    split; [exact Hin|]. split; exists p; auto.
  - intros (Hin & (p & Hp & H1 & H2 & H3) & (q & Hq & Hflag)).
    split; [exact Hin|].
    rewrite Hp in Hq |- *. injection Hq as <-.
    rewrite Htest, H1, H2, H3, Hflag. reflexivity.
Qed.

(** X18.  Without [--user], the alert sweep and the summary sweep run
    their loop over a list of users the database selects.  A user is on
    the list of the alert sweep exactly when they are a known user, pass
    the eligibility gate of [can_send_notification] and have
    [weather_alerts] on; on the list of the summary sweep exactly when
    they are known, pass the gate and have [daily_summary] on. *)
Theorem all_users_sweeps_pick_gate_passers (env : Env) (dry_run : bool) (db : DB) :
  exists alert_users summary_users,
    SendWeatherAlerts.handle env None dry_run db
    = (let! _ := SendWeatherAlerts.handle_loop (SendWeatherAlerts.check_user_alerts env)
                   dry_run alert_users 0%Z 0%Z in
       ret tt) db /\
    SendDailySummaries.handle env None dry_run db
    = (let! _ := SendDailySummaries.handle_loop (SendDailySummaries.send_user_summary env)
                   dry_run summary_users 0%Z 0%Z in
       ret tt) db /\
    (forall u, In u alert_users <-> swept UserProfile.weather_alerts db u) /\
    (forall u, In u summary_users <-> swept UserProfile.daily_summary db u).
Proof.
  exists (List.filter
            (fun u => match profiles db !! User.id u with
                      | Some p =>
                          UserProfile.is_email_verified p && UserProfile.email_notifications p
                          && UserProfile.weather_alerts p && negb (UserProfile.is_deactivated p)
                      | None => false
                      end) (users db)).
  exists (List.filter
            (fun u => match profiles db !! User.id u with
                      | Some p =>
                          UserProfile.is_email_verified p && UserProfile.email_notifications p
                          && UserProfile.daily_summary p && negb (UserProfile.is_deactivated p)
                      | None => false
                      end) (users db)).
  split; [reflexivity|]. split; [reflexivity|].
  split; intros u; apply selected_users; reflexivity.
Qed.

(* ------------------------------------------------------------------ *)
(** ** The account mails *)

(** What one call of [send_welcome_email] does. *)
Lemma send_welcome_email_run (env : Env) (render : string -> AccountContext -> exn + string)
    (user : User.t) (db : DB) :
  exists b db',
    AccountMails.send_welcome_email env render user db = (inr b, db') /\
    (b = true <->
       eligible user db /\
       exists html,
         render "weatherapp/emails/welcome_email.html" (WelcomeContext user) = inr html /\
         transport env (account_email env user "Welcome to Climascope!" html) = None) /\
    (eligible user db ->
     forall html,
       render "weatherapp/emails/welcome_email.html" (WelcomeContext user) = inr html ->
       account_mail_sent env user "Welcome to Climascope!" html "welcome" db db') /\
    (eligible user db ->
     (exists e, render "weatherapp/emails/welcome_email.html" (WelcomeContext user) = inl e) ->
     db' = db) /\
    (~ eligible user db -> db' = db).
Proof.
  unfold account_mail_sent, account_email, account_audit.
  unfold AccountMails.send_welcome_email, WeatherNotificationService.email_send,
         timezone_now, EmailNotification_objects_create.
  destruct (can_send_run user db) as (g & Hrun & Hg).
  monad_unfold. rewrite Hrun.
  destruct g; cbn [negb].
  - pose proof (proj1 Hg eq_refl) as Hel.
    destruct (render _ _) as [e | html] eqn:Hrender; cbn.
    + exists false, db. split; [reflexivity|].
      split; [|split; [|split]].
      * split; [discriminate | intros [_ (h & [=] & _)]].
      * intros _ h [=].
      * reflexivity.
      * intros Hn. contradiction.
    + destruct (transport env _) as [e|] eqn:Htr; cbn.
      * eexists; eexists. split; [reflexivity|].
        split; [|split; [|split]].
        -- split; [discriminate | intros [_ (h & [= <-] & Hh)]; congruence].
        -- intros _ h [= <-]. destruct db; cbn.
           repeat split; try reflexivity; intros H; congruence.
        -- intros _ [e' [=]].
        -- intros Hn. contradiction.
      * eexists; eexists. split; [reflexivity|].
        split; [|split; [|split]].
        -- split; [intros _; split; [exact Hel | exists html; auto] | reflexivity].
        -- intros _ h [= <-]. destruct db; cbn.
           repeat split; try reflexivity; intros H; congruence.
        -- intros _ [e' [=]].
        -- intros Hn. contradiction.
  - exists false, db. split; [reflexivity|].
    assert (Hne : ~ eligible user db) by (intros Hel; apply Hg in Hel; discriminate).
    split; [|split; [|split]].
    + split; [discriminate | intros [Hel _]; contradiction].
    + intros Hel. contradiction.
    + reflexivity.
    + reflexivity.
Qed.

(** X19.  [send_welcome_email] never raises.  It answers true exactly
    when the user passes the eligibility gate, the welcome template
    renders and the transport accepts the message.  For an eligible user
    whose template renders, the message goes to the transport, addressed
    to the user alone, and the audit row of type [welcome] is written
    when the transport accepts it and only then.  For a user who fails
    the gate, and when the template does not render, the state is left
    as it was. *)
Theorem welcome_mail_outcome (env : Env) (render : string -> AccountContext -> exn + string)
    (user : User.t) (db : DB) :
  exists b db',
    AccountMails.send_welcome_email env render user db = (inr b, db') /\
    (b = true <->
       eligible user db /\
       exists html,
         render "weatherapp/emails/welcome_email.html" (WelcomeContext user) = inr html /\
         transport env (account_email env user "Welcome to Climascope!" html) = None) /\
    (eligible user db ->
     forall html,
       render "weatherapp/emails/welcome_email.html" (WelcomeContext user) = inr html ->
       account_mail_sent env user "Welcome to Climascope!" html "welcome" db db') /\
    (eligible user db ->
     (exists e, render "weatherapp/emails/welcome_email.html" (WelcomeContext user) = inl e) ->
     db' = db) /\
    (~ eligible user db -> db' = db).
Proof. exact (send_welcome_email_run env render user db). Qed.

Lemma own_template_test (notification_type : string) :
  existsb (String.eqb notification_type) ["account_deactivated"; "account_deleted"] = true
  <-> has_own_template notification_type.
Proof.
  unfold has_own_template. cbn [existsb].
  rewrite !orb_true_iff, !String.eqb_eq. intuition discriminate.
Qed.

Lemma account_mail_run (env : Env) (user : User.t) (subject html email_type : string)
    (db : DB) :
  exists db',
    (let email :=
       EmailMessage.mk subject (strip_tags env html) (DEFAULT_FROM_EMAIL env)
         [User.email user] html in
     run! WeatherNotificationService.email_send env email in
     let! now := timezone_now in
     let! _ := EmailNotification_objects_create user subject (strip_tags env html)
                 email_type true (Some now) in
     ret tt) db
    = (match transport env (account_email env user subject html) with
       | None => inr tt
       | Some e => inl e
       end, db') /\
    account_mail_sent env user subject html email_type db db'.
Proof.
  unfold account_mail_sent, account_email, account_audit.
  unfold WeatherNotificationService.email_send, timezone_now,
         EmailNotification_objects_create.
  monad_unfold. cbn.
  destruct (transport env _) as [e|] eqn:Htr; cbn.
  - eexists. split; [reflexivity|]. destruct db; cbn.
    repeat split; try reflexivity; intros H; congruence.
  - eexists. split; [reflexivity|]. destruct db; cbn.
    repeat split; try reflexivity; intros H; congruence.
Qed.

(** What one call of [send_account_notification] does. *)
Lemma send_account_notification_run (env : Env)
    (render : string -> AccountContext -> exn + string) (user : User.t)
    (notification_type : string) (extra_context : option (list (string * string)))
    (db : DB) :
  let context :=
    NotificationContext user notification_type (clock db) (default [] extra_context) in
  let own := "weatherapp/emails/" +:+ notification_type +:+ ".html" in
  let common := "weatherapp/emails/account_notification.html" in
  let falls_back :=
    ~ has_own_template notification_type \/ exists e, render own context = inl e in
  exists db',
    AccountMails.send_account_notification env render user notification_type
      extra_context db = (inr tt, db') /\
    (forall html,
       has_own_template notification_type -> render own context = inr html ->
       account_mail_sent env user (account_subject notification_type) html
         notification_type db db') /\
    (forall html,
       falls_back -> render common context = inr html ->
       account_mail_sent env user (account_subject notification_type) html
         notification_type db db') /\
    (falls_back -> (exists e, render common context = inl e) -> db' = db).
Proof.
  cbv zeta.
  assert (Hextra : match extra_context with
                   | Some (entry :: entries) => entry :: entries
                   | _ => []
                   end = default [] extra_context)
    by (destruct extra_context as [[|? ?]|]; reflexivity).
  unfold AccountMails.send_account_notification.
  unfold try_except at 1. unfold bind at 1. unfold timezone_now at 1. unfold gets at 1.
  rewrite Hextra. fold (account_subject notification_type).
  set (context := NotificationContext user notification_type (clock db)
                    (default [] extra_context)).
  set (subject := account_subject notification_type).
  destruct (existsb (String.eqb notification_type)
              ["account_deactivated"; "account_deleted"]) eqn:Hown.
  - apply own_template_test in Hown.
    unfold bind at 1. unfold try_except at 1. unfold lift at 1.
    destruct (render ("weatherapp/emails/" +:+ notification_type +:+ ".html") context)
      as [e | html] eqn:Hrender.
    + cbn [Exception]. unfold lift at 1.
      destruct (render "weatherapp/emails/account_notification.html" context)
        as [e' | html] eqn:Hcommon.
      * exists db. split; [reflexivity|]. split; [|split].
        -- intros h _ [=].
        -- intros h _ [=].
        -- reflexivity.
      * destruct (account_mail_run env user subject html notification_type db)
          as (db' & Hrun & Hsent).
        cbv zeta in Hrun. rewrite Hrun. exists db'.
        split; [destruct (transport env _); reflexivity|]. split; [|split].
        -- intros h _ [=].
        -- intros h _ [= <-]. exact Hsent.
        -- intros _ [e' [=]].
    + destruct (account_mail_run env user subject html notification_type db)
        as (db' & Hrun & Hsent).
      cbv zeta in Hrun. rewrite Hrun. exists db'.
      split; [destruct (transport env _); reflexivity|]. split; [|split].
      * intros h _ [= <-]. exact Hsent.
      * intros h [Hn | [e' [=]]] _. contradiction.
      * intros [Hn | [e' [=]]] _. contradiction.
  - assert (Hnot : ~ has_own_template notification_type)
      by (intros H; apply own_template_test in H; congruence).
    unfold bind at 1. unfold try_except at 1. unfold lift at 1.
    destruct (render "weatherapp/emails/account_notification.html" context)
      as [e | html] eqn:Hcommon.
    + cbn [Exception]. unfold lift at 1.
      exists db. split; [reflexivity|]. split; [|split].
      * intros h Hh. contradiction.
      * intros h _ [=].
      * reflexivity.
    + destruct (account_mail_run env user subject html notification_type db)
        as (db' & Hrun & Hsent).
      cbv zeta in Hrun. rewrite Hrun. exists db'.
      split; [destruct (transport env _); reflexivity|]. split; [|split].
      * intros h Hh. contradiction.
      * intros h _ [= <-]. exact Hsent.
      * intros _ [e' [=]].
Qed.

(** X20.  [send_account_notification] never raises and never consults
    the profile: whatever the user's notification settings, also for a
    deactivated or unverified account, the mail is handed to the
    transport as soon as a template renders.  A deactivation or deletion
    notice uses the template of its own; when that one fails to render,
    and for every other type, the common template is used; when the
    common template fails too, nothing happens at all.  The audit row
    carries the notification type and is written when the transport
    accepts the message and only then. *)
Theorem account_notification_outcome (env : Env)
    (render : string -> AccountContext -> exn + string) (user : User.t)
    (notification_type : string) (extra_context : option (list (string * string)))
    (db : DB) :
  let context :=
    NotificationContext user notification_type (clock db) (default [] extra_context) in
  let own := "weatherapp/emails/" +:+ notification_type +:+ ".html" in
  let common := "weatherapp/emails/account_notification.html" in
  let falls_back :=
    ~ has_own_template notification_type \/ exists e, render own context = inl e in
  exists db',
    AccountMails.send_account_notification env render user notification_type
      extra_context db = (inr tt, db') /\
    (forall html,
       has_own_template notification_type -> render own context = inr html ->
       account_mail_sent env user (account_subject notification_type) html
         notification_type db db') /\
    (forall html,
       falls_back -> render common context = inr html ->
       account_mail_sent env user (account_subject notification_type) html
         notification_type db db') /\
    (falls_back -> (exists e, render common context = inl e) -> db' = db).
Proof.
  exact (send_account_notification_run env render user notification_type extra_context db).
Qed.

(* ------------------------------------------------------------------ *)
(** ** The health check of the weather provider *)

Lemma check_weather_api_run (env : Env) (test_city : string) {S} (s : S) :
  exists b,
    CheckWeatherHealth.check_weather_api env test_city s = (inr b, s) /\
    (b = true <->
       WEATHER_API_KEY env <> "" /\
       exists response w temperature description,
         requests_get env (WeatherNotificationService.weather_url env test_city)
         = inr response /\
         status_code response = 200%Z /\
         json_body response = Some w /\
         reading w = Some (temperature, description)).
Proof.
  unfold CheckWeatherHealth.check_weather_api, WeatherNotificationService.response_json,
         reading.
  monad_unfold.
  destruct (String.eqb (WEATHER_API_KEY env) "") eqn:Hkey.
  - apply String.eqb_eq in Hkey. exists false. split; [reflexivity|].
    split; [discriminate | intros [Hn _]; contradiction].
  - apply String.eqb_neq in Hkey.
    destruct (requests_get env _) as [e | response] eqn:Hget; cbn.
    + exists false. split; [destruct (is_RequestException e); reflexivity|].
      split; [discriminate | intros [_ (r & w & t & d & [=] & _)]].
    + destruct (status_code response =? 200)%Z eqn:Hst.
      * apply Z.eqb_eq in Hst.
        destruct (json_body response) as [w|] eqn:Hjson; cbn.
        -- destruct (Weather.main w) as [[[t|] feels humidity]|] eqn:Hmain; cbn;
             [destruct (Weather.weather w) as [[|[[d|] icon] rest]|] eqn:Hweather; cbn| |].
           all: eexists; (split; [reflexivity|]).
           all: split; try discriminate.
           all: try solve [intros [_ (r & w' & t' & d' & Hg & Hs & Hj & Hr)];
                           injection Hg as <-; rewrite Hjson in Hj; injection Hj as <-;
                           rewrite Hmain in Hr; cbn in Hr;
                           try (rewrite Hweather in Hr; cbn in Hr); try discriminate;
                           destruct (Weather.weather w) as [[|? ?]|]; discriminate].
           all: try reflexivity.
           intros _. split; [exact Hkey|].
           exists response, w, t, d. rewrite Hmain, Hweather. auto.
        -- eexists. split; [reflexivity|]. split; [discriminate|].
           intros [_ (r & w' & t' & d' & Hg & _ & Hj & _)].
           injection Hg as <-. congruence.
      * apply Z.eqb_neq in Hst.
        exists false.
        split; [destruct (status_code response =? 401)%Z; reflexivity|].
        split; [discriminate|].
        intros [_ (r & w' & t' & d' & Hg & Hs & _)].
        injection Hg as <-. contradiction.
Qed.

Lemma reading_complete (w : Weather.t) (r : Q * string) :
  reading w = Some r -> ~ incomplete w.
Proof.
  unfold incomplete, reading.
  destruct (Weather.main w) as [[t feels humidity]|]; [|discriminate].
  destruct (Weather.weather w) as [[|[d icon] rest]|]; try discriminate.
  cbn. destruct t; [|discriminate]. destruct d; [|discriminate].
  intros _ [H | H]; discriminate.
Qed.

Lemma get_weather_data_ok (env : Env) (city : string) (response : HttpResponse)
    (w : Weather.t) {S} (s : S) :
  requests_get env (WeatherNotificationService.weather_url env city) = inr response ->
  status_code response = 200%Z ->
  json_body response = Some w ->
  WeatherNotificationService.get_weather_data env city s = (inr (Some w), s).
Proof.
  intros Hget Hst Hjson.
  unfold WeatherNotificationService.get_weather_data,
         WeatherNotificationService.raise_for_status,
         WeatherNotificationService.response_json.
  monad_unfold. rewrite Hget, Hst, Hjson. reflexivity.
Qed.

(** X21.  The health check of the weather provider never raises.  It
    reports the provider healthy exactly when an API key is configured
    and the provider answers the test city with status 200 and a payload
    from which a temperature and a description can be read.  The health
    check and the sweeps make requests of their own, so a healthy report
    promises the sweeps only this much: in any later environment in which
    the provider gives the request for that city the answer it gave the
    health check, the gateway of the notification service returns the
    payload, and the payload is one the rules can be evaluated on. *)
Theorem healthy_report_means_a_readable_city (env : Env) (test_city : string)
    {S T} (s : S) (t : T) :
  exists healthy,
    CheckWeatherHealth.check_weather_api env test_city s = (inr healthy, s) /\
    (healthy = true <->
       WEATHER_API_KEY env <> "" /\
       exists response w temperature description,
         requests_get env (WeatherNotificationService.weather_url env test_city)
         = inr response /\
         status_code response = 200%Z /\
         json_body response = Some w /\
         reading w = Some (temperature, description)) /\
    (healthy = true ->
     forall later : Env,
       requests_get later (WeatherNotificationService.weather_url later test_city)
       = requests_get env (WeatherNotificationService.weather_url env test_city) ->
       exists w temperature description,
         WeatherNotificationService.get_weather_data later test_city t = (inr (Some w), t) /\
         snapshot_of w temperature description /\
         ~ incomplete w).
Proof.
  destruct (check_weather_api_run env test_city s) as (b & Hrun & Hb).
  exists b. split; [exact Hrun|]. split; [exact Hb|].
  intros Htrue later Hsame. apply Hb in Htrue.
  destruct Htrue as (_ & response & w & temperature & description & Hget & Hst & Hjson & Hr).
  rewrite <- Hsame in Hget.
  exists w, temperature, description.
  split; [exact (get_weather_data_ok later test_city response w t Hget Hst Hjson)|].
  split; [apply reading_snapshot; exact Hr|].
  exact (reading_complete w _ Hr).
Qed.

(* ------------------------------------------------------------------ *)
(** ** The password rules *)

Lemma digit_is_no_letter (c : ascii) :
  PyStr.isdigit_char c = true -> PyStr.isalpha_char c = false.
Proof.
  unfold PyStr.isdigit_char, PyStr.isalpha_char, PyStr.is_upper, PyStr.is_lower.
  rewrite andb_true_iff, !Nat.leb_le. intros [H1 H2].
  apply orb_false_iff. split; apply andb_false_iff.
  - left. apply Nat.leb_gt. lia.
  - left. apply Nat.leb_gt. lia.
Qed.

Lemma digits_hold_no_letter (l : list ascii) :
  forallb PyStr.isdigit_char l = true -> existsb PyStr.isalpha_char l = false.
Proof.
  induction l as [|c l IH]; [reflexivity|].
  cbn [forallb existsb]. rewrite andb_true_iff. intros [Hc Hl].
  rewrite (digit_is_no_letter c Hc), (IH Hl). reflexivity.
Qed.

Lemma any_has_char (p : ascii -> bool) (s : string) :
  PyStr.any p (PyStr.chars s) = true <-> has_char p s.
Proof. unfold PyStr.any, has_char. apply List.existsb_exists. Qed.

Lemma similar_test (password username : string) :
  PyStr.contains (PyStr.lower password) (PyStr.lower username)
  || PyStr.contains (PyStr.lower username) (PyStr.lower password) = true
  <-> too_similar password username.
Proof. unfold too_similar. rewrite orb_true_iff, !contains_spec. reflexivity. Qed.

Lemma clean_new_password1_run {S} (user : option User.t) (password : string) (s : S) :
  (exists r,
     PasswordChangeForm.clean_new_password1 user password s = (r, s) /\
     (r = inr password \/ exists msg, r = inl (ValidationError msg))) /\
  (PasswordChangeForm.clean_new_password1 user password s = (inr password, s) <->
     (8 <= String.length password)%nat /\
     has_char PyStr.isalpha_char password /\
     has_char PyStr.isdigit_char password /\
     forall u, user = Some u -> ~ too_similar password (User.username u)).
Proof.
  unfold PasswordChangeForm.clean_new_password1. monad_unfold.
  destruct (String.length password <? 8)%nat eqn:Hlen.
  { apply Nat.ltb_lt in Hlen. split; [eauto|].
    split; [discriminate | intros [H _]; lia]. }
  apply Nat.ltb_ge in Hlen.
  destruct (PyStr.isdigit password) eqn:Hnum.
  { split; [eauto|]. split; [discriminate|].
    intros (_ & Hletter & _). apply any_has_char in Hletter.
    unfold PyStr.isdigit in Hnum. apply andb_true_iff in Hnum. destruct Hnum as [_ Hnum].
    apply digits_hold_no_letter in Hnum. unfold PyStr.any in Hletter. congruence. }
  destruct (PyStr.any PyStr.isalpha_char (PyStr.chars password)) eqn:Hletter; cbn [negb].
  2:{ split; [eauto|]. split; [discriminate|].
      intros (_ & H & _). apply any_has_char in H. congruence. }
  destruct (PyStr.any PyStr.isdigit_char (PyStr.chars password)) eqn:Hdigit; cbn [negb].
  2:{ split; [eauto|]. split; [discriminate|].
      intros (_ & _ & H & _). apply any_has_char in H. congruence. }
  apply any_has_char in Hletter, Hdigit.
  destruct user as [u|].
  - destruct (PyStr.contains (PyStr.lower password) (PyStr.lower (User.username u))
              || PyStr.contains (PyStr.lower (User.username u)) (PyStr.lower password))
      eqn:Hsim.
    + apply similar_test in Hsim. split; [eauto|]. split; [discriminate|].
      intros (_ & _ & _ & H). exfalso. exact (H u eq_refl Hsim).
    + split; [eauto|]. split; [|reflexivity].
      intros _. repeat split; auto.
      intros u' [= <-] H. apply similar_test in H. congruence.
  - split; [eauto|]. split; [|reflexivity].
    intros _. repeat split; auto. intros u' [=].
Qed.

(** X22.  On ASCII text (password and user name), [clean_new_password1]
    either returns the password as it was given or raises a
    [ValidationError]; it returns it exactly when the password has at
    least eight characters, holds a letter and a digit, and neither it
    nor the user name occurs in the other, case being ignored.  In
    particular the test for an all-digit password never decides alone:
    such a password fails the test for a letter as well. *)
Theorem password_is_accepted_exactly_when_strong {S} (user : option User.t)
    (password : string) (s : S) :
  is_ascii password = true ->
  (forall u, user = Some u -> is_ascii (User.username u) = true) ->
  (exists r,
     PasswordChangeForm.clean_new_password1 user password s = (r, s) /\
     (r = inr password \/ exists msg, r = inl (ValidationError msg))) /\
  (PasswordChangeForm.clean_new_password1 user password s = (inr password, s) <->
     (8 <= String.length password)%nat /\
     has_char PyStr.isalpha_char password /\
     has_char PyStr.isdigit_char password /\
     forall u, user = Some u -> ~ too_similar password (User.username u)).
Proof. intros _ _. exact (clean_new_password1_run user password s). Qed.

Lemma password_is_accepted_exactly_when_strong_witness :
  is_ascii "sunny2day" = true /\
  is_ascii (User.username alice) = true /\
  PasswordChangeForm.clean_new_password1 (Some alice) "sunny2day" tt = (inr "sunny2day", tt) /\
  ~ too_similar "sunny2day" (User.username alice) /\
  exists msg,
    PasswordChangeForm.clean_new_password1 (Some alice) "Alice2026" tt
    = (inl (ValidationError msg), tt).
Proof.
  assert (Hname : forall u, Some alice = Some u -> is_ascii (User.username u) = true).
  { intros u [= <-]. reflexivity. }
  split; [reflexivity|]. split; [reflexivity|]. split; [reflexivity|]. split.
  - destruct (password_is_accepted_exactly_when_strong (Some alice) "sunny2day" tt
                eq_refl Hname) as [_ Hiff].
    destruct (proj1 Hiff eq_refl) as (_ & _ & _ & Hn). apply (Hn alice eq_refl).
  - destruct (password_is_accepted_exactly_when_strong (Some alice) "Alice2026" tt
                eq_refl Hname) as [(r & Hrun & [-> | (msg & ->)]) _].
    + discriminate Hrun.
    + exists msg. exact Hrun.
Defined.

(* ------------------------------------------------------------------ *)
(** ** The background image *)

Section CityImage.
Variables GOOGLE_API_KEY GOOGLE_SEARCH_ENGINE_ID : string.
Variable requests_get_search : string -> exn + SearchResponse.
Variable requests_head : string -> exn + HeadResponse.
Variable hash : string -> Z.

Lemma verify_image_url_run (url : string) {S} (s : S) :
  exists b,
    Views.verify_image_url requests_head url s = (inr b, s) /\
    (b = true <-> shows_image requests_head url).
Proof.
  unfold Views.verify_image_url, shows_image. monad_unfold.
  destruct (requests_head url) as [e | response]; cbn.
  - exists false. split; [reflexivity|].
    split; [discriminate | intros (r & [=] & _)].
  - eexists. split; [reflexivity|].
    rewrite andb_true_iff, Z.eqb_eq, contains_spec. split.
    + intros [H1 H2]. exists response. auto.
    + intros (r & [= <-] & H1 & H2). auto.
Qed.

Lemma image_safe_none {S} : image_safe requests_head (S := S) (ret None).
Proof. intros s. exists (inr None). split; [reflexivity | intros url [=]]. Qed.

Lemma image_safe_checked_link {S} (item : GoogleSearch.item)
    (otherwise : M S (option string)) :
  image_safe requests_head otherwise ->
  image_safe requests_head (let! image_url := getitem "link" (GoogleSearch.link item) in
              let! verified := Views.verify_image_url requests_head image_url in
              if (verified : bool) then ret (Some image_url) else otherwise).
Proof.
  intros Hother s. unfold bind at 1. unfold getitem.
  destruct (GoogleSearch.link item) as [url|].
  - unfold ret at 1. unfold bind at 1.
    destruct (verify_image_url_run url s) as (b & Hrun & Hb). rewrite Hrun.
    destruct b.
    + exists (inr (Some url)). split; [reflexivity|].
      intros u [= <-]. apply Hb. reflexivity.
    + apply Hother.
  - exists (inl (KeyError "link")). split; [reflexivity | intros url [=]].
Qed.

Lemma image_safe_item_at {S} (search_items : list GoogleSearch.item) (i : nat)
    (otherwise : M S (option string)) :
  image_safe requests_head otherwise ->
  image_safe requests_head (let! item := Views.getitem_at search_items i in
              let! image_url := getitem "link" (GoogleSearch.link item) in
              let! verified := Views.verify_image_url requests_head image_url in
              if (verified : bool) then ret (Some image_url) else otherwise).
Proof.
  intros Hother s. unfold bind at 1. unfold Views.getitem_at.
  destruct (nth_error search_items i) as [item|].
  - unfold ret at 1. apply image_safe_checked_link. exact Hother.
  - exists (inl IndexError). split; [reflexivity | intros url [=]].
Qed.

Lemma image_safe_first_verified {S} (indices : list nat)
    (search_items : list GoogleSearch.item) :
  image_safe requests_head (S := S) (Views.first_verified requests_head indices search_items).
Proof.
  induction indices as [|i rest IH]; [apply image_safe_none|].
  cbn [Views.first_verified].
  destruct (i <? length search_items)%nat; [|exact IH].
  apply image_safe_item_at. exact IH.
Qed.

Lemma image_safe_search {S} (url : string)
    (k : GoogleSearch.t -> M S (option string)) :
  (forall data, image_safe requests_head (k data)) ->
  image_safe requests_head
    (let! response := lift (requests_get_search url) in
     let! data := Views.search_json response in
     k data).
Proof.
  intros Hk s. unfold bind at 1. unfold lift.
  destruct (requests_get_search url) as [e | response].
  - exists (inl e). split; [reflexivity | intros u [=]].
  - unfold bind at 1. unfold Views.search_json.
    destruct (search_body response) as [data|].
    + unfold ret at 1. apply Hk.
    + eexists. split; [reflexivity | intros u [=]].
Qed.

Lemma image_safe_bind {S} (c : M S (option string))
    (k : option string -> M S (option string)) :
  image_safe requests_head c ->
  (forall url, shows_image requests_head url -> image_safe requests_head (k (Some url))) ->
  image_safe requests_head (k None) ->
  image_safe requests_head (let! first := c in k first).
Proof.
  intros Hc Hsome Hnone s. unfold bind.
  destruct (Hc s) as (r & Hrun & Hr). rewrite Hrun.
  destruct r as [e | [url|]].
  - exists (inl e). split; [reflexivity | intros u [=]].
  - apply Hsome. apply Hr. reflexivity.
  - apply Hnone.
Qed.

Lemma image_safe_found {S} (url : string) :
  shows_image requests_head url -> image_safe requests_head (S := S) (ret (Some url)).
Proof.
  intros H s. exists (inr (Some url)). split; [reflexivity|]. intros u [= <-]. exact H.
Qed.

Lemma image_safe_try {S} (c : M S (option string)) :
  image_safe requests_head c -> image_safe requests_head (try_except c Exception (fun _ => ret None)).
Proof.
  intros Hc s. unfold try_except.
  destruct (Hc s) as (r & Hrun & Hr). rewrite Hrun.
  destruct r as [e | found].
  - cbn. exists (inr None). split; [reflexivity | intros u [=]].
  - exists (inr found). split; [reflexivity | exact Hr].
Qed.

Lemma fallback_image_run (city : string) {S} (s : S) :
  exists image_url,
    Views.getitem_at Views.fallback_images
      (Z.to_nat (hash city mod Z.of_nat (length Views.fallback_images))) s
    = (inr image_url, s) /\
    In image_url Views.fallback_images.
Proof.
  assert (Hbound : (0 <= hash city mod 3 < 3)%Z) by (apply Z.mod_pos_bound; lia).
  change (Z.of_nat (length Views.fallback_images)) with 3%Z.
  unfold Views.getitem_at.
  destruct (Z.to_nat (hash city mod 3)) as [|[|[|n]]] eqn:Hn.
  - eexists. split; [reflexivity|]. cbn. auto.
  - eexists. split; [reflexivity|]. cbn. auto.
  - eexists. split; [reflexivity|]. cbn. auto.
  - lia.
Qed.

Lemma get_city_image_run (city : string) {S} (s : S) :
  exists image_url,
    Views.get_city_image GOOGLE_API_KEY GOOGLE_SEARCH_ENGINE_ID requests_get_search
      requests_head hash city s = (inr image_url, s) /\
    (In image_url Views.fallback_images \/ shows_image requests_head image_url).
Proof.
  unfold Views.get_city_image. unfold bind at 1.
  match goal with
  | |- context [try_except ?c Exception _] =>
      assert (Hsafe : image_safe requests_head (S := S) (try_except c Exception (fun _ => ret None)))
  end.
  { apply image_safe_try. apply image_safe_search. intros data. cbv beta.
    apply image_safe_bind.
    - destruct (default [] (GoogleSearch.items data));
        [apply image_safe_none | apply image_safe_first_verified].
    - intros url Hurl. apply image_safe_found. exact Hurl.
    - apply image_safe_search. intros data2. cbv beta.
      destruct (default [] (GoogleSearch.items data2)) as [|item0 rest] eqn:Hitems;
        [apply image_safe_none|].
      apply image_safe_item_at. apply image_safe_none. }
  destruct (Hsafe s) as (r & Hrun & Hr). rewrite Hrun.
  destruct r as [e | [url|]].
  - exfalso. revert Hrun. unfold try_except.
    match goal with |- context [?c s] => destruct (c s) as [[e' | v] s'] end;
      cbn; discriminate.
  - exists url. split; [reflexivity|]. right. apply Hr. reflexivity.
  - destruct (fallback_image_run city s) as (u & Hu & Hin).
    exists u. split; [exact Hu | left; exact Hin].
Qed.

End CityImage.

(** X23.  [get_city_image] never raises and always returns an address.
    The address is either one of the three fallback pictures or a link
    out of the search results for which [verify_image_url] answered
    true: the head request returned status 200 with a content type that
    mentions [image].  A link that was not verified is never returned,
    whatever the two searches answer or raise. *)
Theorem city_image_is_verified_or_fallback (GOOGLE_API_KEY GOOGLE_SEARCH_ENGINE_ID : string)
    (requests_get_search : string -> exn + SearchResponse)
    (requests_head : string -> exn + HeadResponse) (hash : string -> Z)
    (city : string) {S} (s : S) :
  exists image_url,
    Views.get_city_image GOOGLE_API_KEY GOOGLE_SEARCH_ENGINE_ID requests_get_search
      requests_head hash city s = (inr image_url, s) /\
    (In image_url Views.fallback_images \/ shows_image requests_head image_url).
Proof.
  exact (get_city_image_run GOOGLE_API_KEY GOOGLE_SEARCH_ENGINE_ID requests_get_search
           requests_head hash city s).
Qed.

(* ------------------------------------------------------------------ *)
(** ** The settings view and the gate *)

Lemma update_alert_settings_run (request : HttpRequest.t) (user : User.t) (p : UserProfile.t)
    (messages : list Message) (db : DB) :
  posts request user ->
  profiles db !! User.id user = Some p ->
  Views.update_alert_settings request (messages, db)
  = (inr (redirect "settings"),
     (messages ++ [("success", "Notification settings updated successfully.")],
      set_profiles
        (fun m => <[User.id user :=
                      UserProfile.mk (UserProfile.is_email_verified p)
                        (Views.checked request "email_notifications")
                        (Views.checked request "weather_alerts")
                        (Views.checked request "daily_summary")
                        (Views.checked request "severe_weather_alerts")
                        (UserProfile.is_deactivated p)]> m) db)).
Proof.
  intros [Huser Hmethod] Hp.
  unfold Views.update_alert_settings, Views.login_required, Views.require_http_methods,
         Views.messages_add, UserProfile_objects_get, UserProfile_save, update_local,
         lift_db.
  rewrite Huser, Hmethod. cbn [existsb String.eqb Ascii.eqb Bool.eqb orb].
  monad_unfold. rewrite Hp. reflexivity.
Qed.

Lemma checked_spec (request : HttpRequest.t) (key : string) :
  Views.checked request key = true <-> HttpRequest.POST request !! key = Some "on".
Proof.
  unfold Views.checked.
  destruct (HttpRequest.POST request !! key) as [value|]; [|split; discriminate].
  rewrite String.eqb_eq. split; [intros ->; reflexivity | intros [= ->]; reflexivity].
Qed.

(** X24.  When a logged-in user with a profile posts the alert settings,
    the view answers with a redirect to the settings page, adds the
    success message and rewrites the four notification switches from the
    form: a switch is on exactly when the posted form carries the value
    [on] under its name.  From then on [can_send_notification] lets the
    user through exactly when the form carried [on] for
    [email_notifications] and the account was, and so still is, verified
    and not deactivated: the view can close and reopen the gate but
    cannot verify or reactivate an account.  The profiles of the other
    users and all the other tables are as before. *)
Theorem alert_settings_drive_the_gate (request : HttpRequest.t) (user : User.t)
    (p : UserProfile.t) (messages : list Message) (db : DB) :
  posts request user ->
  profiles db !! User.id user = Some p ->
  exists db' p' gate,
    Views.update_alert_settings request (messages, db)
    = (inr (redirect "settings"),
       (messages ++ [("success", "Notification settings updated successfully.")], db')) /\
    profiles db' !! User.id user = Some p' /\
    (UserProfile.email_notifications p' = true
     <-> HttpRequest.POST request !! "email_notifications" = Some "on") /\
    (UserProfile.weather_alerts p' = true
     <-> HttpRequest.POST request !! "weather_alerts" = Some "on") /\
    (UserProfile.daily_summary p' = true
     <-> HttpRequest.POST request !! "daily_summary" = Some "on") /\
    (UserProfile.severe_weather_alerts p' = true
     <-> HttpRequest.POST request !! "severe_weather_alerts" = Some "on") /\
    UserProfile.is_email_verified p' = UserProfile.is_email_verified p /\
    UserProfile.is_deactivated p' = UserProfile.is_deactivated p /\
    WeatherNotificationService.can_send_notification user db' = (inr gate, db') /\
    (gate = true
     <-> HttpRequest.POST request !! "email_notifications" = Some "on" /\
         UserProfile.is_deactivated p = false /\
         UserProfile.is_email_verified p = true) /\
    (forall other, User.id other <> User.id user ->
                   profiles db' !! User.id other = profiles db !! User.id other) /\
    clock db' = clock db /\ users db' = users db /\ favorites db' = favorites db /\
    history db' = history db /\ forecasts db' = forecasts db /\ alerts db' = alerts db /\
    next_alert_id db' = next_alert_id db /\ notifications db' = notifications db /\
    outbox db' = outbox db.
Proof.
  intros Hposts Hp.
  eexists; eexists; eexists.
  split; [exact (update_alert_settings_run request user p messages db Hposts Hp)|].
  destruct db as [now us ps fs hs fcs als nid ns ob].
  unfold set_profiles. cbn [clock users profiles favorites history forecasts alerts
                            next_alert_id notifications outbox] in *.
  split; [apply lookup_insert_eq|].
  cbn [UserProfile.email_notifications UserProfile.weather_alerts UserProfile.daily_summary
       UserProfile.severe_weather_alerts UserProfile.is_email_verified
       UserProfile.is_deactivated].
  do 4 (split; [apply checked_spec|]).
  do 2 (split; [reflexivity|]).
  split.
  { unfold WeatherNotificationService.can_send_notification, UserProfile_objects_get.
    monad_unfold. cbn [profiles]. rewrite lookup_insert_eq. reflexivity. }
  split.
  { cbn [UserProfile.email_notifications UserProfile.is_email_verified
         UserProfile.is_deactivated].
    rewrite !andb_true_iff, negb_true_iff, checked_spec. tauto. }
  split.
  { intros other Hother. apply lookup_insert_ne. congruence. }
  repeat split.
Qed.

Lemma alert_settings_drive_the_gate_witness :
  HttpRequest.POST settings_request !! "weather_alerts" = Some "on" /\
  HttpRequest.POST settings_request !! "email_notifications" = None /\
  exists messages' db' p',
    Views.update_alert_settings settings_request ([], sample_db profile_active [london])
    = (inr (redirect "settings"), (messages', db')) /\
    profiles db' !! User.id alice = Some p' /\
    UserProfile.weather_alerts p' = true /\
    UserProfile.email_notifications p' = false /\
    WeatherNotificationService.can_send_notification alice db' = (inr false, db').
Proof.
  split; [reflexivity|]. split; [reflexivity|].
  destruct (alert_settings_drive_the_gate settings_request alice profile_active []
              (sample_db profile_active [london]))
    as (db' & p' & gate & Hrun & Hp' & Hmail & Halerts & _ & _ & _ & _ & Hgate & Hiff & _).
  - split; reflexivity.
  - reflexivity.
  - eexists; exists db', p'. split; [exact Hrun|]. split; [exact Hp'|].
    split; [apply Halerts; reflexivity|]. split.
    + apply not_true_is_false. intros H. apply Hmail in H. discriminate H.
    + assert (Hno : gate = false).
      { apply not_true_is_false. intros H. apply Hiff in H. destruct H as [H _].
        discriminate H. }
      rewrite <- Hno. exact Hgate.
Defined.

(* ------------------------------------------------------------------ *)
(** ** Toggling a favourite *)

Lemma favorite_of_key (user : User.t) (city_name : string) (r : FavoriteCity.t) :
  favorite_of user city_name r = true
  <-> (FavoriteCity.user r, FavoriteCity.city_name r) = (User.id user, city_name).
Proof.
  unfold favorite_of. rewrite andb_true_iff, Nat.eqb_eq, String.eqb_eq.
  split; [intros [-> ->]; reflexivity | intros [= -> ->]; auto].
Qed.

Lemma filter_nil_iff {A} (p : A -> bool) (l : list A) :
  List.filter p l = [] <-> forall x, In x l -> p x = false.
Proof.
  induction l as [|a l IH]; cbn [List.filter].
  - split; [intros _ x [] | reflexivity].
  - destruct (p a) eqn:Ha.
    + split; [discriminate|]. intros H. specialize (H a (or_introl eq_refl)). congruence.
    + rewrite IH. split.
      * intros H x [<- | Hx]; auto.
      * intros H x Hx. apply H. right. exact Hx.
Qed.

Lemma unique_favorite (user : User.t) (city_name : string) (l : list FavoriteCity.t) :
  List.NoDup (map (fun r => (FavoriteCity.user r, FavoriteCity.city_name r)) l) ->
  List.filter (favorite_of user city_name) l = [] \/
  exists r, List.filter (favorite_of user city_name) l = [r].
Proof.
  induction l as [|a l IH]; cbn [map List.filter]; [auto|].
  intros Hnd. apply List.NoDup_cons_iff in Hnd. destruct Hnd as [Hnotin Hnd].
  destruct (favorite_of user city_name a) eqn:Ha.
  - right. exists a. f_equal. apply filter_nil_iff. intros x Hx.
    destruct (favorite_of user city_name x) eqn:Hfx; [|reflexivity].
    exfalso. apply Hnotin. apply favorite_of_key in Ha, Hfx.
    rewrite Ha, <- Hfx.
    exact (List.in_map (fun r => (FavoriteCity.user r, FavoriteCity.city_name r)) l x Hx).
  - apply IH. exact Hnd.
Qed.

Lemma filter_keeps_unique (p : FavoriteCity.t -> bool) (l : list FavoriteCity.t) :
  List.NoDup (map (fun r => (FavoriteCity.user r, FavoriteCity.city_name r)) l) ->
  List.NoDup (map (fun r => (FavoriteCity.user r, FavoriteCity.city_name r)) (List.filter p l)).
Proof.
  induction l as [|a l IH]; cbn [map List.filter]; [auto|].
  intros Hnd. apply List.NoDup_cons_iff in Hnd. destruct Hnd as [Hnotin Hnd].
  destruct (p a); [|auto].
  cbn [map]. apply List.NoDup_cons_iff. split; [|auto].
  intros Hin. apply Hnotin. apply in_map_iff in Hin. destruct Hin as (x & Hx & Hxin).
  apply List.filter_In in Hxin. rewrite <- Hx.
  apply (List.in_map (fun r => (FavoriteCity.user r, FavoriteCity.city_name r))). tauto.
Qed.

Lemma append_keeps_unique (user : User.t) (city_name : string) (row : FavoriteCity.t)
    (l : list FavoriteCity.t) :
  favorite_of user city_name row = true ->
  List.filter (favorite_of user city_name) l = [] ->
  List.NoDup (map (fun r => (FavoriteCity.user r, FavoriteCity.city_name r)) l) ->
  List.NoDup (map (fun r => (FavoriteCity.user r, FavoriteCity.city_name r)) (l ++ [row])).
Proof.
  intros Hrow Hnone. induction l as [|a l IH]; cbn [map app].
  - intros _. apply List.NoDup_cons_iff. split; [intros [] | apply List.NoDup_nil].
  - intros Hnd. apply List.NoDup_cons_iff in Hnd. destruct Hnd as [Hnotin Hnd].
    cbn [List.filter] in Hnone.
    destruct (favorite_of user city_name a) eqn:Ha; [discriminate|].
    apply List.NoDup_cons_iff. split; [|auto].
    rewrite map_app. intros Hin. apply in_app_iff in Hin. destruct Hin as [Hin | Hin].
    + contradiction.
    + cbn in Hin. destruct Hin as [Hin | []].
      apply favorite_of_key in Hrow.
      assert (Hfa : favorite_of user city_name a = true)
        by (apply favorite_of_key; rewrite <- Hin; exact Hrow).
      congruence.
Qed.

Lemma delete_found (user : User.t) (city_name : string) (favorite : FavoriteCity.t)
    (l : list FavoriteCity.t) :
  favorite_of user city_name favorite = true ->
  List.filter (fun r => negb (FavoriteCityAlertForm.same_row r favorite)) l
  = List.filter (fun r => negb (favorite_of user city_name r)) l.
Proof.
  intros Hf. apply List.filter_ext. intros r. f_equal.
  unfold FavoriteCityAlertForm.same_row, favorite_of in *.
  apply andb_true_iff in Hf. destruct Hf as [Hu Hc].
  apply Nat.eqb_eq in Hu. apply String.eqb_eq in Hc. rewrite Hu, Hc. reflexivity.
Qed.

Lemma filter_found {A} (p : A -> bool) (l : list A) (r : A) :
  List.filter p l = [r] -> p r = true.
Proof.
  intros H. assert (Hin : In r (List.filter p l)) by (rewrite H; left; reflexivity).
  apply List.filter_In in Hin. tauto.
Qed.

Lemma filter_out_appended {A} (p : A -> bool) (l : list A) (row : A) :
  p row = true ->
  List.filter p l = [] ->
  List.filter (fun r => negb (p r)) (l ++ [row]) = l.
Proof.
  intros Hrow Hnone. rewrite List.filter_app. cbn [List.filter]. rewrite Hrow. cbn [negb].
  rewrite app_nil_r. induction l as [|a l IH]; [reflexivity|].
  cbn [List.filter] in *. destruct (p a) eqn:Ha; [discriminate|].
  cbn [negb]. f_equal. apply IH. exact Hnone.
Qed.

Section Toggle.
Variables escape strip : string -> string.
Variable len : string -> nat.
Variable insert_error : FavoriteCity.t -> option exn.

Lemma name_test (city_name : string) :
  String.eqb city_name "" || (100 <? len city_name)%nat = false
  <-> valid_city_name len city_name.
Proof.
  unfold valid_city_name. rewrite orb_false_iff, String.eqb_neq, Nat.ltb_ge. reflexivity.
Qed.

(** The two moves of [toggle_favorite] for an active account. *)
Lemma toggle_favorite_adds (request : HttpRequest.t) (user : User.t) (p : UserProfile.t)
    (db : DB) :
  posts request user ->
  valid_city_name len (posted_city escape strip request) ->
  profiles db !! User.id user = Some p ->
  UserProfile.is_deactivated p = false ->
  List.filter (favorite_of user (posted_city escape strip request)) (favorites db) = [] ->
  insert_error (new_favorite escape strip user request) = None ->
  Views.toggle_favorite escape strip len insert_error request db
  = (inr (JsonResponse true (Some "added") "Added to favorites"),
     FavoriteCityAlertForm.set_favorites
       (fun l => l ++ [new_favorite escape strip user request]) db).
Proof.
  intros [Huser Hmethod] Hvalid Hp Hactive Hnone Htakes.
  apply name_test in Hvalid.
  unfold Views.toggle_favorite, Views.login_required, Views.require_http_methods.
  rewrite Huser, Hmethod. cbn [existsb String.eqb Ascii.eqb Bool.eqb orb].
  fold (posted_city escape strip request). rewrite Hvalid.
  unfold bind at 1. unfold UserProfile_objects_get_or_create. rewrite Hp.
  cbn [fst]. rewrite Hactive.
  unfold try_except, bind, FavoriteCity_objects_get_or_create.
  fold (favorite_of user (posted_city escape strip request)). rewrite Hnone.
  cbv zeta. fold (new_favorite escape strip user request). rewrite Htakes.
  reflexivity.
Qed.

Lemma toggle_favorite_removes (request : HttpRequest.t) (user : User.t)
    (p : UserProfile.t) (favorite : FavoriteCity.t) (db : DB) :
  posts request user ->
  valid_city_name len (posted_city escape strip request) ->
  profiles db !! User.id user = Some p ->
  UserProfile.is_deactivated p = false ->
  List.filter (favorite_of user (posted_city escape strip request)) (favorites db)
  = [favorite] ->
  Views.toggle_favorite escape strip len insert_error request db
  = (inr (JsonResponse true (Some "removed") "Removed from favorites"),
     FavoriteCityAlertForm.set_favorites
       (List.filter (fun r => negb (favorite_of user (posted_city escape strip request) r)))
       db).
Proof.
  intros [Huser Hmethod] Hvalid Hp Hactive Hone.
  apply name_test in Hvalid.
  unfold Views.toggle_favorite, Views.login_required, Views.require_http_methods.
  rewrite Huser, Hmethod. cbn [existsb String.eqb Ascii.eqb Bool.eqb orb].
  fold (posted_city escape strip request). rewrite Hvalid.
  unfold bind at 1. unfold UserProfile_objects_get_or_create. rewrite Hp.
  cbn [fst]. rewrite Hactive.
  unfold try_except, bind, FavoriteCity_objects_get_or_create.
  fold (favorite_of user (posted_city escape strip request)). rewrite Hone.
  cbn [fst snd negb]. unfold FavoriteCity_delete, modify, ret.
  unfold FavoriteCityAlertForm.set_favorites. do 2 f_equal.
  apply (delete_found user (posted_city escape strip request)).
  exact (filter_found _ _ _ Hone).
Qed.

(** The database refuses the new row: the handler runs and raises. *)
Lemma toggle_favorite_refused (request : HttpRequest.t) (user : User.t) (p : UserProfile.t)
    (refused : exn) (db : DB) :
  posts request user ->
  valid_city_name len (posted_city escape strip request) ->
  profiles db !! User.id user = Some p ->
  UserProfile.is_deactivated p = false ->
  List.filter (favorite_of user (posted_city escape strip request)) (favorites db) = [] ->
  insert_error (new_favorite escape strip user request) = Some refused ->
  Views.toggle_favorite escape strip len insert_error request db = (inl handler_error, db).
Proof.
  intros [Huser Hmethod] Hvalid Hp Hactive Hnone Hrefused.
  apply name_test in Hvalid.
  unfold Views.toggle_favorite, Views.login_required, Views.require_http_methods.
  rewrite Huser, Hmethod. cbn [existsb String.eqb Ascii.eqb Bool.eqb orb].
  fold (posted_city escape strip request). rewrite Hvalid.
  unfold bind at 1. unfold UserProfile_objects_get_or_create. rewrite Hp.
  cbn [fst]. rewrite Hactive.
  unfold try_except, bind, FavoriteCity_objects_get_or_create.
  fold (favorite_of user (posted_city escape strip request)). rewrite Hnone.
  cbv zeta. fold (new_favorite escape strip user request). rewrite Hrefused.
  reflexivity.
Qed.

(** The guarded block of [toggle_favorite] on a table with unique rows. *)
Lemma toggle_block_run (user : User.t) (city_name country : string) (db : DB) :
  favorites_unique db ->
  exists outcome db',
    try_except
      (let! favorite_created :=
         FavoriteCity_objects_get_or_create insert_error user city_name country
           (Some 35%Q) (Some 5%Q) true true in
       let favorite := fst favorite_created in
       let created := snd favorite_created in
       if negb created then
         run! FavoriteCity_delete favorite in
         ret (JsonResponse true (Some "removed") "Removed from favorites")
       else
         ret (JsonResponse true (Some "added") "Added to favorites"))
      Exception
      (fun _ => raise (OtherError "NameError: name 'logging' is not defined")) db
    = (outcome, db') /\
    favorites_unique db' /\
    toggle_frame db db' /\
    profiles db' = profiles db /\
    (forall response, outcome = inr response -> reports_change response) /\
    (forall e, outcome = inl e ->
       e = handler_error /\
       db' = db /\
       List.filter (favorite_of user city_name) (favorites db) = [] /\
       exists refused,
         insert_error (FavoriteCity.mk (User.id user) city_name country
                         (Some 35%Q) (Some 5%Q) true true) = Some refused).
Proof.
  unfold favorites_unique, toggle_frame. intros Huniq.
  unfold try_except, bind, FavoriteCity_objects_get_or_create.
  fold (favorite_of user city_name).
  destruct (unique_favorite user city_name (favorites db) Huniq) as [Hnone | [r Hone]].
  - rewrite Hnone. cbv zeta.
    destruct (insert_error _) as [refused|] eqn:Hins.
    + cbn. exists (inl handler_error), db. split; [reflexivity|].
      split; [exact Huniq|]. split; [repeat split; auto|]. split; [reflexivity|].
      split; [intros response [=]|].
      intros e [= <-]. split; [reflexivity|]. split; [reflexivity|].
      split; [reflexivity|]. exists refused. reflexivity.
    + cbn [fst snd negb]. unfold ret.
      eexists; eexists. split; [reflexivity|].
      destruct db as [now us ps fs hs fcs als nid ns ob].
      unfold FavoriteCityAlertForm.set_favorites.
      cbn [clock users profiles favorites history forecasts alerts next_alert_id
           notifications outbox] in *.
      split.
      { apply (append_keeps_unique user city_name); [|exact Hnone | exact Huniq].
        unfold favorite_of. cbn. rewrite Nat.eqb_refl, String.eqb_refl. reflexivity. }
      split; [repeat split; auto|]. split; [reflexivity|].
      split; [intros response [= <-]; exact I | intros e [=]].
  - rewrite Hone. cbn [fst snd negb]. unfold FavoriteCity_delete, modify, ret.
    eexists; eexists. split; [reflexivity|].
    destruct db as [now us ps fs hs fcs als nid ns ob].
    unfold FavoriteCityAlertForm.set_favorites.
    cbn [clock users profiles favorites history forecasts alerts next_alert_id
         notifications outbox] in *.
    split; [apply filter_keeps_unique; exact Huniq|].
    split; [repeat split; auto|]. split; [reflexivity|].
    split; [intros response [= <-]; exact I | intros e [=]].
Qed.

Lemma toggle_frame_refl (db : DB) : toggle_frame db db.
Proof. unfold toggle_frame. repeat split; auto. Qed.

Lemma toggle_favorite_run (request : HttpRequest.t) (db : DB) :
  favorites_unique db ->
  exists outcome db',
    Views.toggle_favorite escape strip len insert_error request db = (outcome, db') /\
    favorites_unique db' /\
    toggle_frame db db' /\
    (forall response,
       outcome = inr response -> ~ reports_change response -> favorites db' = favorites db) /\
    (forall e,
       outcome = inl e ->
       e = handler_error /\
       favorites db' = favorites db /\
       exists user refused,
         posts request user /\
         valid_city_name len (posted_city escape strip request) /\
         List.filter (favorite_of user (posted_city escape strip request)) (favorites db)
         = [] /\
         insert_error (new_favorite escape strip user request) = Some refused).
Proof.
  intros Huniq.
  unfold Views.toggle_favorite, Views.login_required, Views.require_http_methods.
  cbv zeta. fold (posted_city escape strip request).
  destruct (HttpRequest.user request) as [user|] eqn:Huser.
  2:{ exists (inr redirect_to_login), db. split; [reflexivity|].
      split; [exact Huniq|]. split; [apply toggle_frame_refl|].
      split; [reflexivity | intros e [=]]. }
  destruct (existsb (String.eqb (HttpRequest.method request)) ["POST"]) eqn:Hmethod.
  2:{ eexists; exists db. split; [reflexivity|].
      split; [exact Huniq|]. split; [apply toggle_frame_refl|].
      split; [reflexivity | intros e [=]]. }
  assert (Hposts : posts request user).
  { split; [exact Huser|]. cbn [existsb] in Hmethod. rewrite orb_false_r in Hmethod.
    apply String.eqb_eq in Hmethod. exact Hmethod. }
  destruct (String.eqb _ "" || _) eqn:Hname.
  { eexists; exists db. split; [reflexivity|].
    split; [exact Huniq|]. split; [apply toggle_frame_refl|].
    split; [reflexivity | intros e [=]]. }
  apply name_test in Hname.
  unfold bind at 1. unfold UserProfile_objects_get_or_create.
  destruct (profiles db !! User.id user) as [p|] eqn:Hp; cbn [fst].
  - destruct (UserProfile.is_deactivated p).
    { eexists; exists db. split; [reflexivity|].
      split; [exact Huniq|]. split; [apply toggle_frame_refl|].
      split; [reflexivity | intros e [=]]. }
    destruct (toggle_block_run user (posted_city escape strip request)
                (escape (default "" (HttpRequest.POST request !! "country")))
                db Huniq)
      as (outcome & db' & Hrun & Huniq' & Hframe & _ & Hok & Hraise).
    cbv zeta in Hrun. rewrite Hrun. exists outcome, db'. split; [reflexivity|].
    split; [exact Huniq'|]. split; [exact Hframe|]. split.
    + intros response Hout Hno. exfalso. apply Hno. exact (Hok response Hout).
    + intros e He. destruct (Hraise e He) as (-> & -> & Hnone & refused & Hrefused).
      split; [reflexivity|]. split; [reflexivity|].
      exists user, refused. auto.
  - cbn [UserProfile.is_deactivated].
    set (db1 := set_profiles _ db).
    assert (Hfav1 : favorites db1 = favorites db) by (destruct db; reflexivity).
    assert (Huniq1 : favorites_unique db1) by (destruct db; exact Huniq).
    destruct (toggle_block_run user (posted_city escape strip request)
                (escape (default "" (HttpRequest.POST request !! "country")))
                db1 Huniq1)
      as (outcome & db' & Hrun & Huniq' & Hframe & _ & Hok & Hraise).
    cbv zeta in Hrun. rewrite Hrun. exists outcome, db'. split; [reflexivity|].
    split; [exact Huniq'|]. split; [|split].
    + unfold toggle_frame in *.
      destruct Hframe as (H1 & H2 & H3 & H4 & H5 & H6 & H7 & H8 & H9).
      subst db1. destruct db as [now us ps fs hs fcs als nid ns ob].
      unfold set_profiles in *.
      cbn [clock users profiles favorites history forecasts alerts next_alert_id
           notifications outbox] in *.
      repeat split; try assumption.
      intros id q Hq. apply H9.
      destruct (decide (id = User.id user)) as [-> | Hne].
      * congruence.
      * rewrite lookup_insert_ne by congruence. exact Hq.
    + intros response Hout Hno. exfalso. apply Hno. exact (Hok response Hout).
    + intros e He. destruct (Hraise e He) as (-> & -> & Hnone & refused & Hrefused).
      split; [reflexivity|]. split; [exact Hfav1|].
      exists user, refused. rewrite Hfav1 in Hnone. auto.
Qed.

End Toggle.

(** X25.  Toggling is its own inverse on a city that is not a favourite
    yet.  [strip], [len] and [escape] are those of Python and Django,
    whatever they do to the posted text, and the city name is valid when
    it is not empty after them and at most 100 characters long.  For a
    logged-in, active user posting a valid city name for which they have
    no favourite, on a database that takes the new row,
    [toggle_favorite] answers [added] and appends one row for that user
    and city, with the thresholds 35 and 5 and both notification switches
    on, a row that satisfies the stored ordering of the thresholds; the
    same request once more answers [removed] and gives back exactly the
    state before the first one. *)
Theorem toggle_favorite_adds_then_removes (escape strip : string -> string)
    (len : string -> nat) (insert_error : FavoriteCity.t -> option exn)
    (request : HttpRequest.t) (user : User.t) (p : UserProfile.t) (db : DB) :
  posts request user ->
  valid_city_name len (posted_city escape strip request) ->
  profiles db !! User.id user = Some p ->
  UserProfile.is_deactivated p = false ->
  List.filter (favorite_of user (posted_city escape strip request)) (favorites db) = [] ->
  insert_error (new_favorite escape strip user request) = None ->
  exists db1,
    Views.toggle_favorite escape strip len insert_error request db
    = (inr (JsonResponse true (Some "added") "Added to favorites"), db1) /\
    favorites db1 = favorites db ++ [new_favorite escape strip user request] /\
    thresholds_ordered (new_favorite escape strip user request) /\
    Views.toggle_favorite escape strip len insert_error request db1
    = (inr (JsonResponse true (Some "removed") "Removed from favorites"), db).
Proof.
  intros Hposts Hvalid Hp Hactive Hnone Htakes.
  assert (Hrow : favorite_of user (posted_city escape strip request)
                   (new_favorite escape strip user request) = true).
  { unfold favorite_of, new_favorite. cbn.
    rewrite Nat.eqb_refl, String.eqb_refl. reflexivity. }
  eexists. split; [exact (toggle_favorite_adds escape strip len insert_error request user p
                            db Hposts Hvalid Hp Hactive Hnone Htakes)|].
  destruct db as [now us ps fs hs fcs als nid ns ob].
  unfold FavoriteCityAlertForm.set_favorites.
  cbn [clock users profiles favorites history forecasts alerts next_alert_id
       notifications outbox] in *.
  split; [reflexivity|]. split.
  { intros high low [= <-] [= <-]. reflexivity. }
  rewrite (toggle_favorite_removes escape strip len insert_error request user p
             (new_favorite escape strip user request)); try assumption.
  - unfold FavoriteCityAlertForm.set_favorites.
    cbn [clock users profiles favorites history forecasts alerts next_alert_id
         notifications outbox].
    rewrite (filter_out_appended _ _ _ Hrow Hnone). reflexivity.
  - cbn [favorites]. rewrite List.filter_app, Hnone. cbn [List.filter app].
    rewrite Hrow. reflexivity.
Qed.

Lemma toggle_favorite_adds_then_removes_witness :
  posted_city (fun s => s) strip_ascii favorite_request = "Oslo" /\
  exists db1,
    Views.toggle_favorite (fun s => s) strip_ascii String.length enforces_max_length
      favorite_request (sample_db profile_active [london])
    = (inr (JsonResponse true (Some "added") "Added to favorites"), db1) /\
    map FavoriteCity.city_name (favorites db1) = ["London"; "Oslo"] /\
    Views.toggle_favorite (fun s => s) strip_ascii String.length enforces_max_length
      favorite_request db1
    = (inr (JsonResponse true (Some "removed") "Removed from favorites"),
       sample_db profile_active [london]).
Proof.
  split; [reflexivity|].
  destruct (toggle_favorite_adds_then_removes (fun s => s) strip_ascii String.length
              enforces_max_length favorite_request alice
              profile_active (sample_db profile_active [london]))
    as (db1 & Hadd & Hfav & _ & Hremove).
  - split; reflexivity.
  - split; [discriminate | vm_compute; lia].
  - reflexivity.
  - reflexivity.
  - reflexivity.
  - reflexivity.
  - exists db1. split; [exact Hadd|]. split; [rewrite Hfav; reflexivity | exact Hremove].
Defined.

(** X26.  Removing a favourite and adding it again loses its alert
    settings.  When the user has one favourite row for the posted city
    (a valid name: not empty after [strip] and [escape] and at most 100
    characters long), whatever its thresholds and switches, and the
    database takes the new row, two toggles in a row answer [removed] and
    then [added], and leave in its place, at the end of the table, a row
    with the defaults: thresholds 35 and 5, both switches on. *)
Theorem toggling_twice_resets_the_alert_settings (escape strip : string -> string)
    (len : string -> nat) (insert_error : FavoriteCity.t -> option exn)
    (request : HttpRequest.t) (user : User.t) (p : UserProfile.t)
    (favorite : FavoriteCity.t) (db : DB) :
  posts request user ->
  valid_city_name len (posted_city escape strip request) ->
  profiles db !! User.id user = Some p ->
  UserProfile.is_deactivated p = false ->
  List.filter (favorite_of user (posted_city escape strip request)) (favorites db)
  = [favorite] ->
  insert_error (new_favorite escape strip user request) = None ->
  exists db1 db2,
    Views.toggle_favorite escape strip len insert_error request db
    = (inr (JsonResponse true (Some "removed") "Removed from favorites"), db1) /\
    Views.toggle_favorite escape strip len insert_error request db1
    = (inr (JsonResponse true (Some "added") "Added to favorites"), db2) /\
    favorites db2
    = List.filter (fun r => negb (favorite_of user (posted_city escape strip request) r))
        (favorites db)
      ++ [new_favorite escape strip user request].
Proof.
  intros Hposts Hvalid Hp Hactive Hone Htakes.
  destruct db as [now us ps fs hs fcs als nid ns ob].
  eexists; eexists.
  split; [exact (toggle_favorite_removes escape strip len insert_error request user p
                   favorite _ Hposts Hvalid Hp Hactive Hone)|].
  unfold FavoriteCityAlertForm.set_favorites.
  cbn [clock users profiles favorites history forecasts alerts next_alert_id
       notifications outbox] in *.
  split.
  - apply (toggle_favorite_adds escape strip len insert_error request user p);
      try assumption.
    cbn [favorites]. apply filter_nil_iff. intros x Hx.
    apply List.filter_In in Hx. destruct Hx as [_ Hx].
    apply negb_true_iff in Hx. exact Hx.
  - reflexivity.
Qed.

Lemma toggling_twice_resets_the_alert_settings_witness :
  exists db1 db2,
    Views.toggle_favorite (fun s => s) strip_ascii String.length enforces_max_length
      london_request (sample_db profile_active [sample_city (Some 20%Q) None false false])
    = (inr (JsonResponse true (Some "removed") "Removed from favorites"), db1) /\
    Views.toggle_favorite (fun s => s) strip_ascii String.length enforces_max_length
      london_request db1
    = (inr (JsonResponse true (Some "added") "Added to favorites"), db2) /\
    map FavoriteCity.temperature_threshold_high (favorites db2) = [Some 35%Q].
Proof.
  destruct (toggling_twice_resets_the_alert_settings (fun s => s) strip_ascii String.length
              enforces_max_length london_request alice
              profile_active (sample_city (Some 20%Q) None false false)
              (sample_db profile_active [sample_city (Some 20%Q) None false false]))
    as (db1 & db2 & Hremove & Hadd & Hfav).
  - split; reflexivity.
  - split; [discriminate | vm_compute; lia].
  - reflexivity.
  - reflexivity.
  - reflexivity.
  - reflexivity.
  - exists db1, db2. split; [exact Hremove|]. split; [exact Hadd|].
    rewrite Hfav. reflexivity.
Defined.

(** X27.  [toggle_favorite] keeps the favourites unique, and raises only
    through its broken handler.  On a table in which no user has two rows
    for one city, whoever sends the request and whatever it carries, the
    table the view leaves is again one in which no user has two rows for
    one city, and the other tables and the existing profiles are not
    touched.  When the view answers, the favourites change only with an
    answer that reports success: for an anonymous user, a method other
    than [POST], an empty or overlong name and a deactivated account they
    stay as they were.  The view raises in one case only: a logged-in
    user posts a valid name they have no favourite for and the database
    refuses the new row.  The handler then fails on the name [logging],
    which the module does not import, so the request ends in [NameError]
    instead of the answer [An error occurred]; the favourites are as
    before.  On a database that takes every row the view never raises. *)
Theorem toggle_favorite_keeps_favourites_unique (escape strip : string -> string)
    (len : string -> nat) (insert_error : FavoriteCity.t -> option exn)
    (request : HttpRequest.t) (db : DB) :
  favorites_unique db ->
  exists outcome db',
    Views.toggle_favorite escape strip len insert_error request db = (outcome, db') /\
    favorites_unique db' /\
    toggle_frame db db' /\
    (forall response,
       outcome = inr response -> ~ reports_change response -> favorites db' = favorites db) /\
    (forall e,
       outcome = inl e ->
       e = handler_error /\
       favorites db' = favorites db /\
       exists user refused,
         posts request user /\
         valid_city_name len (posted_city escape strip request) /\
         List.filter (favorite_of user (posted_city escape strip request)) (favorites db)
         = [] /\
         insert_error (new_favorite escape strip user request) = Some refused) /\
    ((forall row, insert_error row = None) -> exists response, outcome = inr response).
Proof.
  intros Huniq.
  destruct (toggle_favorite_run escape strip len insert_error request db Huniq)
    as (outcome & db' & Hrun & Huniq' & Hframe & Hsame & Hraise).
  exists outcome, db'. repeat (split; [assumption|]).
  intros Htakes. destruct outcome as [e | response]; [|exists response; reflexivity].
  destruct (Hraise e eq_refl) as (_ & _ & user & refused & _ & _ & _ & Hrefused).
  rewrite Htakes in Hrefused. discriminate.
Qed.

Lemma toggle_favorite_keeps_favourites_unique_witness :
  (exists response db',
     Views.toggle_favorite (fun s => s) strip_ascii String.length enforces_max_length
       london_request (sample_db profile_deactivated [london])
     = (inr response, db') /\
     favorites db' = [london]) /\
  (enforces_max_length (new_favorite (fun s => s) strip_ascii alice long_country_request)
   <> None /\
   exists db',
     Views.toggle_favorite (fun s => s) strip_ascii String.length enforces_max_length
       long_country_request (sample_db profile_active [london])
     = (inl handler_error, db') /\
     favorites db' = [london]).
Proof.
  assert (Huniq : forall p, favorites_unique (sample_db p [london])).
  { intros p. unfold favorites_unique. cbn. apply List.NoDup_cons_iff.
    split; [intros [] | apply List.NoDup_nil]. }
  split.
  - destruct (toggle_favorite_keeps_favourites_unique (fun s => s) strip_ascii String.length
                enforces_max_length london_request
                (sample_db profile_deactivated [london]) (Huniq profile_deactivated))
      as (outcome & db' & Hrun & _ & _ & Hsame & _).
    assert (Hout : exists response, outcome = inr response /\ ~ reports_change response).
    { vm_compute in Hrun. injection Hrun as <- _. eexists. split; [reflexivity | intros []]. }
    destruct Hout as (response & -> & Hno).
    exists response, db'. split; [exact Hrun|]. exact (Hsame response eq_refl Hno).
  - split; [discriminate|].
    destruct (toggle_favorite_keeps_favourites_unique (fun s => s) strip_ascii String.length
                enforces_max_length long_country_request
                (sample_db profile_active [london]) (Huniq profile_active))
      as (outcome & db' & Hrun & _ & _ & _ & Hraise & _).
    assert (Hout : exists e, outcome = inl e).
    { vm_compute in Hrun. injection Hrun as <- _. eexists. reflexivity. }
    destruct Hout as [e ->].
    destruct (Hraise e eq_refl) as (-> & Hfav & _).
    exists db'. split; [exact Hrun | exact Hfav].
Defined.

(* ------------------------------------------------------------------ *)
(** ** The dashboard and incomplete payloads *)

Lemma views_get_weather_data (env : Env) (city : string) {S} (s : S) :
  Views.get_weather_data env city s = WeatherNotificationService.get_weather_data env city s.
Proof. reflexivity. Qed.

Lemma favorite_weather_skips (env : Env) (fav : FavoriteCity.t)
    (rest : list FavoriteCity.t) (favorite_weather : list FavoriteWeather) {S} (s : S) :
  unavailable env (FavoriteCity.city_name fav) ->
  Views.favorite_weather_loop env (fav :: rest) favorite_weather s
  = Views.favorite_weather_loop env rest favorite_weather s.
Proof.
  intros (wd & Hmain & Hget).
  cbn [Views.favorite_weather_loop]. unfold bind at 1.
  rewrite views_get_weather_data, Hget.
  destruct wd as [w|]; [|reflexivity].
  rewrite Hmain. reflexivity.
Qed.

Lemma favorite_weather_raises (env : Env) (fav : FavoriteCity.t) (w : Weather.t)
    (rest : list FavoriteCity.t) (favorite_weather : list FavoriteWeather) {S} (s : S) :
  (forall T (t : T),
     WeatherNotificationService.get_weather_data env (FavoriteCity.city_name fav) t
     = (inr (Some w), t)) ->
  Weather.main w <> None ->
  incomplete w ->
  exists e,
    Views.favorite_weather_loop env (fav :: rest) favorite_weather s = (inl e, s) /\
    In e [KeyError "temp"; KeyError "weather"; IndexError; KeyError "description"].
Proof.
  intros Hget Hmain Hinc.
  cbn [Views.favorite_weather_loop]. unfold bind at 1.
  rewrite views_get_weather_data, Hget.
  unfold has_main, incomplete in *. monad_unfold.
  destruct (Weather.main w) as [[[t|] feels humidity]|]; [| |contradiction]; cbn.
  - destruct Hinc as [[=] | Hinc].
    destruct (Weather.weather w) as [[|[[d|] icon] more]|]; cbn in *;
      try discriminate; eexists; (split; [reflexivity|]); cbn; auto.
  - eexists. split; [reflexivity|]. cbn. auto.
Qed.

Lemma favorite_weather_run (env : Env) (before : list FavoriteCity.t)
    (fav : FavoriteCity.t) (w : Weather.t) (rest : list FavoriteCity.t)
    (favorite_weather : list FavoriteWeather) {S} (s : S) :
  Forall (fun c => unavailable env (FavoriteCity.city_name c)) before ->
  (forall T (t : T),
     WeatherNotificationService.get_weather_data env (FavoriteCity.city_name fav) t
     = (inr (Some w), t)) ->
  Weather.main w <> None ->
  incomplete w ->
  exists e,
    Views.favorite_weather_loop env (before ++ fav :: rest) favorite_weather s = (inl e, s) /\
    In e [KeyError "temp"; KeyError "weather"; IndexError; KeyError "description"].
Proof.
  intros Hbefore Hget Hmain Hinc.
  induction Hbefore as [|c before Hc Hbefore IH].
  - exact (favorite_weather_raises env fav w rest favorite_weather s Hget Hmain Hinc).
  - cbn [app]. rewrite (favorite_weather_skips env c _ _ s Hc). exact IH.
Qed.

(** X28.  The dashboard has no guard for an incomplete payload.  When
    the favourites before it are unavailable and the provider answers a
    favourite city with a payload that has ['main'] but lacks the
    temperature, the list of conditions or the description, the loop of
    [dashboard_view] that fills [favorite_weather] raises [KeyError] or
    [IndexError], and nothing in the view catches it; the alert sweep of
    the command, given the same city and the same payload, returns
    normally and leaves everything as it was. *)
Theorem dashboard_raises_where_the_sweep_skips (env : Env) (before : list FavoriteCity.t)
    (fav : FavoriteCity.t) (w : Weather.t) (rest : list FavoriteCity.t)
    (favorite_weather : list FavoriteWeather) {S} (s : S)
    (user : User.t) (dry_run : bool) (st : Z * DB) :
  Forall (fun c => unavailable env (FavoriteCity.city_name c)) before ->
  (forall T (t : T),
     WeatherNotificationService.get_weather_data env (FavoriteCity.city_name fav) t
     = (inr (Some w), t)) ->
  Weather.main w <> None ->
  incomplete w ->
  (exists e,
     Views.favorite_weather_loop env (before ++ fav :: rest) favorite_weather s = (inl e, s) /\
     In e [KeyError "temp"; KeyError "weather"; IndexError; KeyError "description"]) /\
  SendWeatherAlerts.check_city env user dry_run fav st = (inr tt, st).
Proof.
  intros Hbefore Hget Hmain Hinc. split.
  - exact (favorite_weather_run env before fav w rest favorite_weather s
             Hbefore Hget Hmain Hinc).
  - exact (check_city_incomplete env user dry_run fav w st Hget Hinc).
Qed.

Lemma dashboard_raises_where_the_sweep_skips_witness :
  Views.favorite_weather_loop env_no_conditions [london] [] tt = (inl (KeyError "weather"), tt) /\
  SendWeatherAlerts.check_city env_no_conditions alice false london
    (0%Z, sample_db profile_active [london])
  = (inr tt, (0%Z, sample_db profile_active [london])).
Proof.
  destruct (dashboard_raises_where_the_sweep_skips env_no_conditions [] london
              (Weather.mk (Some (Weather.mk_main (Some 20%Q) None None)) None) [] [] tt
              alice false (0%Z, sample_db profile_active [london]))
    as [_ Hsweep].
  - constructor.
  - intros T t. reflexivity.
  - discriminate.
  - right. exact I.
  - split; [reflexivity | exact Hsweep].
Defined.
